(** * Potential-energy-surface scans: the orchestration layer, embedded.

    The repository drives three external numerical libraries (numpy, Qiskit,
    PySCF) from a few small Python functions:
    - [exact_energy] (src/exact_solver.py),
    - [run_vqe]      (src/vqe_runner.py),
    - [scan_pes]     (src/pes_scan.py),
    - [build_h2], [build_lih], [build_beh2] (src/molecules.py),
    and draws the results with matplotlib (src/plotting.py).

    The functions are translated line by line.  Python floats are IEEE-754
    binary64 numbers and are modelled by Rocq's primitive [float]; Python
    integers are [Z]; exceptions are an explicit [outcome]; every call into
    an external library is a field of the class [Library], takes the ambient
    process state [World] and may raise.  Objects the code only configures
    (ansatz, optimizer, estimator, VQE, solver, driver, transformer, mapper)
    are records of their constructor arguments; the work happens in the
    library calls made on them.  The constructors the runner calls on its
    caller's arguments (the circuit, the optimizer, the estimator, the VQE
    object) may reject them, as the circuit constructors do for a negative
    repetition count.  A computation returns, besides its outcome and the
    new world, the list of calls it made (its trace). *)

From Stdlib Require Import ZArith List String Floats Lia.
From stdpp Require Import gmap strings pretty.

Set Warnings "-inexact-float,-register-all".

Local Open Scope string_scope.
Local Open Scope list_scope.

(** ** Exceptions and outcomes *)

Record exn := Exn { exn_class : string; exn_msg : string }.

Definition ValueError (msg : string) : exn := Exn "ValueError" msg.

Inductive outcome (A : Type) : Type :=
| Returned (a : A)
| Raised (e : exn).
Arguments Returned {A} a.
Arguments Raised {A} e.

(** ** Plain data built by the code and handed to the libraries *)

Record complex := Complex { real : float; imag : float }.

(** [np.pi] *)
Definition np_pi : float := 0x1.921fb54442d18p+1%float.

(** The two circuit families of [qiskit.circuit.library] the runner builds. *)
Inductive ansatz :=
| RealAmplitudes (num_qubits reps : Z) (entanglement : string)
| EfficientSU2 (num_qubits reps : Z) (entanglement : string).

Inductive optimizer := COBYLA (maxiter : Z).

Inductive estimator := Estimator.

(** The [VQE] object: what its constructor stores, and the [initial_point]
    attribute the runner assigns afterwards.  The callback the runner passes
    is always [callback] below, so it is not a field. *)
Record vqe := VQE {
  vqe_estimator : estimator;
  vqe_ansatz : ansatz;
  vqe_optimizer : optimizer;
  initial_point : option (list float)
}.

Definition set_initial_point (v : vqe) (x : list float) : vqe :=
  {| vqe_estimator := vqe_estimator v; vqe_ansatz := vqe_ansatz v;
     vqe_optimizer := vqe_optimizer v; initial_point := Some x |}.

(** One invocation of the optimizer's recording hook:
    [callback(eval_count, params, value, std)]. *)
Record evaluation := Evaluation {
  eval_count : Z;
  params : list float;
  value : float;
  std : list (string * float)
}.

(** What [VQE.compute_minimum_eigenvalue] returns (the fields the code reads). *)
Record vqe_result := VQEResult {
  eigenvalue : complex;
  optimal_parameters : list (string * float)
}.

Inductive numpy_solver := NumPyMinimumEigensolver.

(** What [NumPyMinimumEigensolver.compute_minimum_eigenvalue] returns. *)
Record eigensolver_result := EigensolverResult { solver_eigenvalue : complex }.

(** The dictionary [run_vqe] returns; its five keys are fixed and their
    values have different types, hence a record. *)
Record vqe_output := VqeOutput {
  energy : float;
  optimal_params : list (string * float);
  energy_history : list float;
  num_params : nat;
  out_ansatz_type : string
}.

Inductive distance_unit := ANGSTROM | BOHR.

Record pyscf_driver := PySCFDriver {
  atom : string;
  basis : string;
  charge : Z;
  spin : Z;
  drv_unit : distance_unit
}.

Record active_space_transformer := ActiveSpaceTransformer {
  num_electrons : Z;
  num_spatial_orbitals : Z
}.

Inductive mapper := JordanWignerMapper.

(** ** The external libraries *)

Class Library := {
  (** ambient process state: OS entropy, global generators, caches, clock *)
  World : Type;
  (** opaque library values *)
  SparsePauliOp : Type;
  ElectronicStructureProblem : Type;
  FermionicOp : Type;
  Generator : Type;
  (** the constructors the runner calls: [None] when the object is built,
      the exception when the arguments are rejected *)
  ansatz_init : ansatz -> option exn;
  optimizer_init : optimizer -> option exn;
  estimator_init : estimator -> option exn;
  vqe_init : vqe -> option exn;
  (** attributes read by the code *)
  num_qubits : SparsePauliOp -> Z;
  num_parameters : ansatz -> nat;
  nuclear_repulsion_energy : ElectronicStructureProblem -> float;
  (** numpy *)
  default_rng : Z -> World -> outcome Generator * World;
  uniform : Generator -> float -> float -> nat ->
            World -> outcome (list float) * World;
  np_radians : float -> float;
  np_sin : float -> float;
  np_cos : float -> float;
  (** [format(x, '.<digits>f')] as used by the f-strings *)
  format_fixed : nat -> float -> string;
  (** qiskit_algorithms: the hybrid loop reports the hook invocations it
      made, in order, and then returns or raises *)
  vqe_compute_minimum_eigenvalue :
    vqe -> SparsePauliOp -> World -> list evaluation * outcome vqe_result * World;
  solver_compute_minimum_eigenvalue :
    numpy_solver -> SparsePauliOp -> World -> outcome eigensolver_result * World;
  (** qiskit_nature *)
  driver_run : pyscf_driver -> World -> outcome ElectronicStructureProblem * World;
  transformer_transform :
    active_space_transformer -> ElectronicStructureProblem ->
    World -> outcome ElectronicStructureProblem * World;
  second_q_op : ElectronicStructureProblem -> World -> outcome FermionicOp * World;
  mapper_map : mapper -> FermionicOp -> World -> outcome SparsePauliOp * World
}.

Section Model.
Context {L : Library}.

(** ** Traces

    Library calls are recorded with their arguments and outcome.  The three
    calls [scan_pes] makes per point ([Builder], [RunVqe], [ExactEnergy])
    enclose the trace of the callee, so the top level of a scan's trace shows
    exactly the calls the scan itself made. *)

Inductive event :=
| Stdout (text : string)
| DefaultRng (seed : Z) (r : outcome Generator)
| Uniform (rng : Generator) (low high : float) (size : nat)
          (r : outcome (list float))
| VqeCompute (v : vqe) (h : SparsePauliOp) (evals : list evaluation)
             (r : outcome vqe_result)
| SolverCompute (s : numpy_solver) (h : SparsePauliOp)
                (r : outcome eigensolver_result)
| DriverRun (drv : pyscf_driver) (r : outcome ElectronicStructureProblem)
| Transform (t : active_space_transformer) (p : ElectronicStructureProblem)
            (r : outcome ElectronicStructureProblem)
| SecondQOp (p : ElectronicStructureProblem) (r : outcome FermionicOp)
| MapperMap (m : mapper) (op : FermionicOp) (r : outcome SparsePauliOp)
| Builder (d : float) (inner : list event)
          (r : outcome (SparsePauliOp * ElectronicStructureProblem))
| RunVqe (h : SparsePauliOp) (ansatz_type : string) (reps maxiter seed : Z)
         (inner : list event) (r : outcome vqe_output)
| ExactEnergy (h : SparsePauliOp) (inner : list event) (r : outcome float).

(** ** The monad of the embedding: world passing, exceptions, trace *)

Definition M (A : Type) : Type := World -> outcome A * World * list event.

Definition ret {A} (a : A) : M A := fun w => (Returned a, w, []).

Definition raise {A} (e : exn) : M A := fun w => (Raised e, w, []).

Definition bind {A B} (m : M A) (k : A -> M B) : M B :=
  fun w =>
    match m w with
    | (Returned a, w1, t1) =>
        match k a w1 with
        | (r, w2, t2) => (r, w2, t1 ++ t2)
        end
    | (Raised e, w1, t1) => (Raised e, w1, t1)
    end.

(** A constructor call: the object is built from its arguments, or the
    constructor raises. *)
Definition construct {A} (init : A -> option exn) (a : A) : M A :=
  match init a with
  | Some e => raise e
  | None => ret a
  end.

(** A library call, recorded with its outcome. *)
Definition call {A} (f : World -> outcome A * World)
    (ev : outcome A -> event) : M A :=
  fun w => match f w with (r, w1) => (r, w1, [ev r]) end.

(** A call of one of the repository's own functions (or of the caller's
    builder), recorded as one event that encloses the callee's trace. *)
Definition frame {A} (ev : list event -> outcome A -> event) (m : M A) : M A :=
  fun w => match m w with (r, w1, t) => (r, w1, [ev t r]) end.

(** [print(text, end=ending)] *)
Definition print (text ending : string) : M unit :=
  fun w => (Returned tt, w, [Stdout (text ++ ending)]).

End Model.

Notation "'let*' x ':=' m 'in' k" := (bind m (fun x => k))
  (at level 10, x name, m at level 100, k at level 200, only parsing).
Notation "'let*' ' pat ':=' m 'in' k" :=
  (bind m (fun x => match x with pat => k end))
  (at level 10, pat pattern, m at level 100, k at level 200, only parsing).

Section Solvers.
Context {L : Library}.

(** ** src/exact_solver.py *)

Definition exact_energy (hamiltonian : SparsePauliOp) : M float :=
  let solver := NumPyMinimumEigensolver in
  let* result := call (solver_compute_minimum_eigenvalue solver hamiltonian)
                      (SolverCompute solver hamiltonian) in
  ret (real (solver_eigenvalue result)).

(** ** src/vqe_runner.py *)

(** The recording hook: appends [value] to the history and ignores the rest. *)
Definition callback (energy_history : list float) (ev : evaluation) : list float :=
  energy_history ++ [value ev].

(** [vqe.compute_minimum_eigenvalue(hamiltonian)]: while it runs, the library
    invokes the hook once per evaluation, which updates the history; the
    history is returned next to the result because the caller reads it
    afterwards.  When the library raises, the exception propagates. *)
Definition compute_minimum_eigenvalue (v : vqe) (hamiltonian : SparsePauliOp)
    (energy_history : list float) : M (list float * vqe_result) :=
  fun w =>
    match vqe_compute_minimum_eigenvalue v hamiltonian w with
    | (evals, r, w1) =>
        (match r with
         | Returned res => Returned (fold_left callback evals energy_history, res)
         | Raised e => Raised e
         end, w1, [VqeCompute v hamiltonian evals r])
    end.

Definition run_vqe (hamiltonian : SparsePauliOp) (ansatz_type : string)
    (reps maxiter seed : Z) : M vqe_output :=
  let num_qubits := num_qubits hamiltonian in
  let* ansatz :=
    (if String.eqb ansatz_type "RealAmplitudes" then
       construct ansatz_init (RealAmplitudes num_qubits reps "linear")
     else if String.eqb ansatz_type "EfficientSU2" then
       construct ansatz_init (EfficientSU2 num_qubits reps "circular")
     else
       raise (ValueError ("Unknown ansatz type: " ++ ansatz_type))) in
  let energy_history := [] in
  let* optimizer := construct optimizer_init (COBYLA maxiter) in
  let* estimator := construct estimator_init Estimator in
  let* vqe := construct vqe_init (VQE estimator ansatz optimizer None) in
  let* rng := call (default_rng seed) (DefaultRng seed) in
  let* initial_point :=
    call (uniform rng (- np_pi)%float np_pi (num_parameters ansatz))
         (Uniform rng (- np_pi)%float np_pi (num_parameters ansatz)) in
  let vqe := set_initial_point vqe initial_point in
  let* '(energy_history, result) :=
    compute_minimum_eigenvalue vqe hamiltonian energy_history in
  ret {| energy := real (eigenvalue result);
         optimal_params := optimal_parameters result;
         energy_history := energy_history;
         num_params := num_parameters ansatz;
         out_ansatz_type := ansatz_type |}.

End Solvers.

Section Scan.
Context {L : Library}.

(** ** src/pes_scan.py *)

Definition newline : string := String (Ascii.ascii_of_nat 10) EmptyString.

(** The four lists the loop appends to. *)
Record columns := Columns {
  vqe_energies : list float;
  exact_energies : list float;
  errors : list float;
  nuclear_repulsions : list float
}.

(** [np.array(distances)] on a sequence of floats, and [.tolist()] back. *)
Definition np_array (distances : list float) : list float := distances.
Definition tolist (distances : list float) : list float := distances.

(** One iteration of the loop, at index [i] of [n] with parameter [d]. *)
Definition scan_step (molecule_builder : float -> M (SparsePauliOp * ElectronicStructureProblem))
    (ansatz_type : string) (reps maxiter seed : Z)
    (n i : nat) (d : float) (acc : columns) : M columns :=
  let* _ := print ("  [" ++ pretty (i + 1)%nat ++ "/" ++ pretty n ++ "] d = "
                   ++ format_fixed 3 d ++ " ...") " " in
  let* '(qubit_op, problem) := frame (Builder d) (molecule_builder d) in
  let nuc_repulsion := nuclear_repulsion_energy problem in
  let* vqe_result :=
    frame (RunVqe qubit_op ansatz_type reps maxiter (seed + Z.of_nat i))
          (run_vqe qubit_op ansatz_type reps maxiter (seed + Z.of_nat i)) in
  let vqe_e := (energy vqe_result + nuc_repulsion)%float in
  let* exact := frame (ExactEnergy qubit_op) (exact_energy qubit_op) in
  let exact_e := (exact + nuc_repulsion)%float in
  let error := abs (vqe_e - exact_e)%float in
  let acc := {| vqe_energies := vqe_energies acc ++ [vqe_e];
                exact_energies := exact_energies acc ++ [exact_e];
                errors := errors acc ++ [error];
                nuclear_repulsions := nuclear_repulsions acc ++ [nuc_repulsion] |} in
  let* _ := print ("VQE=" ++ format_fixed 6 vqe_e ++ ", Exact="
                   ++ format_fixed 6 exact_e ++ ", "
                   ++ "Error=" ++ format_fixed 2 (error * 1000)%float ++ " mHa")
                  newline in
  ret acc.

(** [for i, d in enumerate(distances)], from index [i] on. *)
Fixpoint scan_loop (molecule_builder : float -> M (SparsePauliOp * ElectronicStructureProblem))
    (ansatz_type : string) (reps maxiter seed : Z)
    (n i : nat) (distances : list float) (acc : columns) : M columns :=
  match distances with
  | [] => ret acc
  | d :: rest =>
      let* acc := scan_step molecule_builder ansatz_type reps maxiter seed n i d acc in
      scan_loop molecule_builder ansatz_type reps maxiter seed n (S i) rest acc
  end.

Definition scan_pes (molecule_builder : float -> M (SparsePauliOp * ElectronicStructureProblem))
    (distances : list float) (ansatz_type : string) (reps maxiter seed : Z)
    : M (gmap string (list float)) :=
  let distances := np_array distances in
  let acc := {| vqe_energies := []; exact_energies := []; errors := [];
                nuclear_repulsions := [] |} in
  let* acc := scan_loop molecule_builder ansatz_type reps maxiter seed
                        (length distances) 0 distances acc in
  ret (list_to_map
         [ ("distances", tolist distances);
           ("vqe_energies", vqe_energies acc);
           ("exact_energies", exact_energies acc);
           ("errors", errors acc);
           ("nuclear_repulsions", nuclear_repulsions acc) ]).

(** ** src/molecules.py, [build_beh2] *)

(** Lines 108-119: the coordinate string. *)
Definition beh2_atom_string (angle : float) : string :=
  let d := 1.326%float in
  let half_angle := np_radians (angle / 2.0)%float in
  let h1_y := (d * np_sin half_angle)%float in
  let h1_z := (d * np_cos half_angle)%float in
  "Be 0.0 0.0 0.0; "
  ++ "H 0.0 " ++ format_fixed 6 h1_y ++ " " ++ format_fixed 6 h1_z ++ "; "
  ++ "H 0.0 " ++ format_fixed 6 (- h1_y)%float ++ " " ++ format_fixed 6 h1_z.

Definition build_beh2 (angle : float)
    : M (SparsePauliOp * ElectronicStructureProblem) :=
  let atom_string := beh2_atom_string angle in
  let driver := {| atom := atom_string; basis := "sto3g"; charge := 0; spin := 0;
                   drv_unit := ANGSTROM |} in
  let* problem := call (driver_run driver) (DriverRun driver) in
  let transformer := {| num_electrons := 2; num_spatial_orbitals := 3 |} in
  let* problem := call (transformer_transform transformer problem)
                       (Transform transformer problem) in
  let mapper := JordanWignerMapper in
  let* second_q_op := call (second_q_op problem) (SecondQOp problem) in
  let* qubit_op := call (mapper_map mapper second_q_op)
                        (MapperMap mapper second_q_op) in
  ret (qubit_op, problem).

End Scan.

(** ** Reading a scan's trace

    The top-level events of a scan, column by column: the arguments the
    builder was called with, the seeds the runner was called with, and what
    the successful calls returned. *)

Section Observers.
Context {L : Library}.

Definition builder_args (t : list event) : list float :=
  omap (fun ev => match ev with Builder d _ _ => Some d | _ => None end) t.

Definition nuclear_terms (t : list event) : list float :=
  omap (fun ev => match ev with
                  | Builder _ _ (Returned (_, problem)) =>
                      Some (nuclear_repulsion_energy problem)
                  | _ => None
                  end) t.

Definition vqe_seeds (t : list event) : list Z :=
  omap (fun ev => match ev with
                  | RunVqe _ _ _ _ seed _ _ => Some seed
                  | _ => None
                  end) t.

Definition vqe_eigenvalues (t : list event) : list float :=
  omap (fun ev => match ev with
                  | RunVqe _ _ _ _ _ _ (Returned out) => Some (energy out)
                  | _ => None
                  end) t.

Definition exact_eigenvalues (t : list event) : list float :=
  omap (fun ev => match ev with
                  | ExactEnergy _ _ (Returned e) => Some e
                  | _ => None
                  end) t.

(** The seeds handed to [np.random.default_rng] in a trace. *)
Definition rng_seeds (t : list event) : list Z :=
  omap (fun ev => match ev with DefaultRng seed _ => Some seed | _ => None end) t.

(** The exception with which one of the scan's three calls ended, if it did. *)
Definition failure (ev : event) : option exn :=
  match ev with
  | Builder _ _ (Raised e) => Some e
  | RunVqe _ _ _ _ _ _ (Raised e) => Some e
  | ExactEnergy _ _ (Raised e) => Some e
  | _ => None
  end.

(** The outcome of a library call does not depend on the ambient state. *)
Definition deterministic {A} (f : World -> A * World) : Prop :=
  forall w1 w2, fst (f w1) = fst (f w2).

(** numpy's contract for [Generator.uniform] on the interval the runner asks
    for: [size] samples, each between the bounds. *)
Definition uniform_in_range : Prop :=
  forall rng size w x w1,
    uniform rng (- np_pi)%float np_pi size w = (Returned x, w1) ->
    length x = size /\
    Forall (fun y => (- np_pi <=? y)%float = true /\ (y <=? np_pi)%float = true) x.

End Observers.

(** ** Definitions used to state the properties *)

Section Specification.
Context {L : Library}.

(** Lines 53-63 for one point, given the two eigenvalues and the nuclear
    repulsion. *)
Definition append_point (acc : columns) (eig_vqe eig_exact nuc : float) : columns :=
  let vqe_e := (eig_vqe + nuc)%float in
  let exact_e := (eig_exact + nuc)%float in
  {| vqe_energies := vqe_energies acc ++ [vqe_e];
     exact_energies := exact_energies acc ++ [exact_e];
     errors := errors acc ++ [abs (vqe_e - exact_e)%float];
     nuclear_repulsions := nuclear_repulsions acc ++ [nuc] |}.

(** [scan_run ... i ds acc r t]: the loop, started at index [i] on the points
    [ds] with the lists [acc], ends with [r] and makes the calls [t]. *)
Inductive scan_run (ansatz_type : string) (reps maxiter seed : Z)
  : nat -> list float -> columns -> outcome columns -> list event -> Prop :=
| scan_done i acc :
    scan_run ansatz_type reps maxiter seed i [] acc (Returned acc) []
| scan_builder_raises i d rest acc s1 tb e :
    scan_run ansatz_type reps maxiter seed i (d :: rest) acc (Raised e)
      [Stdout s1; Builder d tb (Raised e)]
| scan_vqe_raises i d rest acc s1 tb q p tv e w0 w1 :
    run_vqe q ansatz_type reps maxiter (seed + Z.of_nat i) w0 = (Raised e, w1, tv) ->
    scan_run ansatz_type reps maxiter seed i (d :: rest) acc (Raised e)
      [Stdout s1; Builder d tb (Returned (q, p));
       RunVqe q ansatz_type reps maxiter (seed + Z.of_nat i) tv (Raised e)]
| scan_exact_raises i d rest acc s1 tb q p tv out te e w0 w1 :
    run_vqe q ansatz_type reps maxiter (seed + Z.of_nat i) w0 = (Returned out, w1, tv) ->
    scan_run ansatz_type reps maxiter seed i (d :: rest) acc (Raised e)
      [Stdout s1; Builder d tb (Returned (q, p));
       RunVqe q ansatz_type reps maxiter (seed + Z.of_nat i) tv (Returned out);
       ExactEnergy q te (Raised e)]
| scan_point i d rest acc s1 s2 tb q p tv out te ex r t w0 w1 :
    run_vqe q ansatz_type reps maxiter (seed + Z.of_nat i) w0 = (Returned out, w1, tv) ->
    scan_run ansatz_type reps maxiter seed (S i) rest
      (append_point acc (energy out) ex (nuclear_repulsion_energy p)) r t ->
    scan_run ansatz_type reps maxiter seed i (d :: rest) acc r
      (Stdout s1 :: Builder d tb (Returned (q, p))
       :: RunVqe q ansatz_type reps maxiter (seed + Z.of_nat i) tv (Returned out)
       :: ExactEnergy q te (Returned ex) :: Stdout s2 :: t).

(** The ansatz a name stands for, if any (lines 32-46). *)
Definition ansatz_named (ansatz_type : string) (num_qubits reps : Z) : option ansatz :=
  if String.eqb ansatz_type "RealAmplitudes" then
    Some (RealAmplitudes num_qubits reps "linear")
  else if String.eqb ansatz_type "EfficientSU2" then
    Some (EfficientSU2 num_qubits reps "circular")
  else None.

(** The exception with which the first constructor that rejects its
    arguments does so, if any: the circuit, then [COBYLA(maxiter=maxiter)],
    [Estimator()] and [VQE(...)] (lines 33-60). *)
Definition rejection (a : ansatz) (maxiter : Z) : option exn :=
  match ansatz_init a with
  | Some e => Some e
  | None =>
      match optimizer_init (COBYLA maxiter) with
      | Some e => Some e
      | None =>
          match estimator_init Estimator with
          | Some e => Some e
          | None => vqe_init (VQE Estimator a (COBYLA maxiter) None)
          end
      end
  end.

(** The runner after the objects have been built (lines 62-76). *)
Definition optimise (hamiltonian : SparsePauliOp) (ansatz_type : string)
    (maxiter seed : Z) (a : ansatz) (w : World)
    : outcome vqe_output * World * list event :=
  match default_rng seed w with
  | (Raised e, w1) => (Raised e, w1, [DefaultRng seed (Raised e)])
  | (Returned rng, w1) =>
      let size := num_parameters a in
      match uniform rng (- np_pi)%float np_pi size w1 with
      | (Raised e, w2) =>
          (Raised e, w2,
           [DefaultRng seed (Returned rng);
            Uniform rng (- np_pi)%float np_pi size (Raised e)])
      | (Returned x, w2) =>
          let v := VQE Estimator a (COBYLA maxiter) (Some x) in
          match vqe_compute_minimum_eigenvalue v hamiltonian w2 with
          | (evals, res, w3) =>
              (match res with
               | Returned result =>
                   Returned {| energy := real (eigenvalue result);
                               optimal_params := optimal_parameters result;
                               energy_history := map value evals;
                               num_params := size;
                               out_ansatz_type := ansatz_type |}
               | Raised e => Raised e
               end, w3,
               [DefaultRng seed (Returned rng);
                Uniform rng (- np_pi)%float np_pi size (Returned x);
                VqeCompute v hamiltonian evals res])
          end
      end
  end.

(** Inside a call of the runner, a generator is only ever seeded with the
    seed the runner was called with. *)
Definition seeds_generator (ev : event) : Prop :=
  match ev with
  | RunVqe _ _ _ _ sd inner _ => forall x, In x (rng_seeds inner) -> x = sd
  | _ => True
  end.

(** The dictionary returned at line 68, from the scanned points and the lists. *)
Definition table (distances : list float) (acc : columns) : gmap string (list float) :=
  list_to_map
    [ ("distances", tolist distances);
      ("vqe_energies", vqe_energies acc);
      ("exact_energies", exact_energies acc);
      ("errors", errors acc);
      ("nuclear_repulsions", nuclear_repulsions acc) ].

Definition table_keys : gset string :=
  {[ "distances"; "vqe_energies"; "exact_energies"; "errors"; "nuclear_repulsions" ]}.

Definition no_columns : columns :=
  {| vqe_energies := []; exact_energies := []; errors := [];
     nuclear_repulsions := [] |}.

(** One atom of a coordinate specification: the element and its x y z. *)
Definition atom_line (element x y z : string) : string :=
  element ++ " " ++ x ++ " " ++ y ++ " " ++ z.

End Specification.

(** ** A small concrete library, to run the definitions on

    Every call succeeds unless stated, counts itself in the state, and
    returns fixed numbers; sine and cosine are short Taylor polynomials. *)

Module Toy.

Definition seeded (seed : Z) (w : nat) : outcome Z * nat :=
  if (seed <? 0)%Z
  then (Raised (ValueError "expected non-negative integer"), w)
  else (Returned seed, S w).

Definition draw (rng : Z) (low high : float) (size : nat) (w : nat)
    : outcome (list float) * nat :=
  (Returned (repeat low size), S w).

(** The circuit constructors reject a negative repetition count. *)
Definition check_ansatz (a : ansatz) : option exn :=
  match a with
  | RealAmplitudes _ reps _ | EfficientSU2 _ reps _ =>
      if (reps <? 0)%Z
      then Some (ValueError "The value of reps should be larger than or equal to 0")
      else None
  end.

Definition count_parameters (a : ansatz) : nat :=
  match a with
  | RealAmplitudes n reps _ => Z.to_nat (n * (reps + 1))
  | EfficientSU2 n reps _ => Z.to_nat (2 * n * (reps + 1))
  end.

Definition minimise (v : vqe) (h : Z) (w : nat)
    : list evaluation * outcome vqe_result * nat :=
  match initial_point v with
  | Some x =>
      ([ Evaluation 1 x (-1.0)%float []; Evaluation 2 x (-1.125)%float [] ],
       Returned (VQEResult (Complex (-1.125)%float 0%float) []), S w)
  | None => ([], Raised (Exn "AlgorithmError" "no initial point"), w)
  end.

Definition diagonalise (s : numpy_solver) (h : Z) (w : nat)
    : outcome eigensolver_result * nat :=
  if (h <=? 0)%Z
  then (Raised (Exn "AlgorithmError" "empty operator"), w)
  else (Returned (EigensolverResult (Complex (-1.25)%float 0%float)), S w).

Definition lib : Library := {|
  World := nat;
  SparsePauliOp := Z;
  ElectronicStructureProblem := float;
  FermionicOp := Z;
  Generator := Z;
  ansatz_init := check_ansatz;
  optimizer_init := fun _ => None;
  estimator_init := fun _ => None;
  vqe_init := fun _ => None;
  num_qubits := fun h => h;
  num_parameters := count_parameters;
  nuclear_repulsion_energy := fun p => p;
  default_rng := seeded;
  uniform := draw;
  np_radians := fun x => (x * (np_pi / 180))%float;
  np_sin := fun x => (x - x * x * x / 6 + x * x * x * x * x / 120)%float;
  np_cos := fun x => (1 - x * x / 2 + x * x * x * x / 24)%float;
  format_fixed := fun _ x => if (x <? 0)%float then "-x" else "x";
  vqe_compute_minimum_eigenvalue := minimise;
  solver_compute_minimum_eigenvalue := diagonalise;
  driver_run := fun drv w => (Returned 0.5%float, S w);
  transformer_transform := fun t p w => (Returned p, S w);
  second_q_op := fun p w => (Returned 4%Z, S w);
  mapper_map := fun m op w => (Returned op, S w)
|}.

(** Two point charges at distance [d]: the repulsion is [1 / d]; a negative
    distance is rejected. *)
Definition builder (d : float) : @M lib (Z * float) :=
  if (d <? 0)%float
  then raise (Exn "RuntimeError" "negative distance")
  else ret (4%Z, (1 / d)%float).

End Toy.

(** A scan of two points with the concrete library, and the lists it fills. *)
Definition toy_scan (ansatz_type : string) (reps maxiter seed : Z)
    : outcome (gmap string (list float)) * nat * list (@event Toy.lib) :=
  @scan_pes Toy.lib Toy.builder [0.5%float; 1%float] ansatz_type reps maxiter seed 0%nat.

Definition toy_columns : columns :=
  {| vqe_energies := [0.875%float; (-0.125)%float];
     exact_energies := [0.75%float; (-0.25)%float];
     errors := [0.125%float; 0.125%float];
     nuclear_repulsions := [2%float; 1%float] |}.

(** ** src/molecules.py, [build_h2] and [build_lih]

    Both write the distance into the coordinate string with a bare
    [{distance}], that is with [str] of the float, which is taken as a
    parameter. *)

Section Diatomics.
Context {L : Library}.
Variable float_str : float -> string.

Definition h2_atom_string (distance : float) : string :=
  "H 0.0 0.0 0.0; H 0.0 0.0 " ++ float_str distance.

Definition build_h2 (distance : float)
    : M (SparsePauliOp * ElectronicStructureProblem) :=
  let atom_string := h2_atom_string distance in
  let driver := {| atom := atom_string; basis := "sto3g"; charge := 0; spin := 0;
                   drv_unit := ANGSTROM |} in
  let* problem := call (driver_run driver) (DriverRun driver) in
  let mapper := JordanWignerMapper in
  let* second_q_op := call (second_q_op problem) (SecondQOp problem) in
  let* qubit_op := call (mapper_map mapper second_q_op)
                        (MapperMap mapper second_q_op) in
  ret (qubit_op, problem).

Definition lih_atom_string (distance : float) : string :=
  "Li 0.0 0.0 0.0; H 0.0 0.0 " ++ float_str distance.

Definition build_lih (distance : float)
    : M (SparsePauliOp * ElectronicStructureProblem) :=
  let atom_string := lih_atom_string distance in
  let driver := {| atom := atom_string; basis := "sto3g"; charge := 0; spin := 0;
                   drv_unit := ANGSTROM |} in
  let* problem := call (driver_run driver) (DriverRun driver) in
  let transformer := {| num_electrons := 2; num_spatial_orbitals := 3 |} in
  let* problem := call (transformer_transform transformer problem)
                       (Transform transformer problem) in
  let mapper := JordanWignerMapper in
  let* second_q_op := call (second_q_op problem) (SecondQOp problem) in
  let* qubit_op := call (mapper_map mapper second_q_op)
                        (MapperMap mapper second_q_op) in
  ret (qubit_op, problem).

End Diatomics.

(** ** src/plotting.py

    The four plotting functions only read result tables and call
    matplotlib.  A matplotlib call is recorded by the name of what is called,
    its positional arguments (the receiver first, for a method) and its
    keyword arguments; figures, axes and arrays of axes are opaque objects.
    Only [plt.subplots] and indexing an array of axes return something the
    code uses.  A dictionary of tables is given by its items, in insertion
    order. *)

Inductive path :=
| Path (s : string)
| PathDiv (p : path) (name : string).

Inductive pyarg (O : Type) : Type :=
| PInt (z : Z)
| PFloat (x : float)
| PStr (s : string)
| PBool (b : bool)
| PFloats (l : list float)
| PTuple (a b : pyarg O)
| PPath (p : path)
| PObj (o : O).
Arguments PInt {O} z.
Arguments PFloat {O} x.
Arguments PStr {O} s.
Arguments PBool {O} b.
Arguments PFloats {O} l.
Arguments PTuple {O} a b.
Arguments PPath {O} p.
Arguments PObj {O} o.

Class Matplotlib := {
  PlotWorld : Type;
  PyObject : Type;
  (** [str.lower] *)
  str_lower : string -> string;
  mpl_invoke : string -> list (pyarg PyObject) -> list (string * pyarg PyObject) ->
               PlotWorld -> outcome unit * PlotWorld;
  mpl_subplots : list (pyarg PyObject) -> list (string * pyarg PyObject) ->
                 PlotWorld -> outcome (PyObject * PyObject) * PlotWorld;
  mpl_getitem : PyObject -> Z -> PlotWorld -> outcome PyObject * PlotWorld
}.

Section Plotting.
Context {P : Matplotlib}.

Inductive plot_event :=
| Invoke (callee : string) (args : list (pyarg PyObject))
         (kwargs : list (string * pyarg PyObject)) (r : outcome unit)
| Subplots (args : list (pyarg PyObject)) (kwargs : list (string * pyarg PyObject))
           (r : outcome (PyObject * PyObject))
| GetItem (o : PyObject) (i : Z) (r : outcome PyObject).

Definition PM (A : Type) : Type := PlotWorld -> outcome A * PlotWorld * list plot_event.

Definition pret {A} (a : A) : PM A := fun w => (Returned a, w, []).

Definition praise {A} (e : exn) : PM A := fun w => (Raised e, w, []).

Definition pbind {A B} (m : PM A) (k : A -> PM B) : PM B :=
  fun w =>
    match m w with
    | (Returned a, w1, t1) =>
        match k a w1 with
        | (r, w2, t2) => (r, w2, t1 ++ t2)
        end
    | (Raised e, w1, t1) => (Raised e, w1, t1)
    end.

Definition invoke (callee : string) (args : list (pyarg PyObject))
    (kwargs : list (string * pyarg PyObject)) : PM unit :=
  fun w => match mpl_invoke callee args kwargs w with
           | (r, w1) => (r, w1, [Invoke callee args kwargs r])
           end.

Definition subplots (args : list (pyarg PyObject))
    (kwargs : list (string * pyarg PyObject)) : PM (PyObject * PyObject) :=
  fun w => match mpl_subplots args kwargs w with
           | (r, w1) => (r, w1, [Subplots args kwargs r])
           end.

Definition getitem (o : PyObject) (i : Z) : PM PyObject :=
  fun w => match mpl_getitem o i w with
           | (r, w1) => (r, w1, [GetItem o i r])
           end.

Definition KeyError (key : string) : exn := Exn "KeyError" ("'" ++ key ++ "'").

Definition IndexError (msg : string) : exn := Exn "IndexError" msg.

(** [results[key]] *)
Definition getkey (results : gmap string (list float)) (key : string)
    : PM (list float) :=
  match results !! key with
  | Some column => pret column
  | None => praise (KeyError key)
  end.

(** [s.replace(" ", "_")] *)
Fixpoint replace_spaces (s : string) : string :=
  match s with
  | EmptyString => EmptyString
  | String c rest =>
      String (if Ascii.eqb c (Ascii.ascii_of_nat 32) then Ascii.ascii_of_nat 95 else c)
             (replace_spaces rest)
  end.

End Plotting.

Notation "'let+' x ':=' m 'in' k" := (pbind m (fun x => k))
  (at level 10, x name, m at level 100, k at level 200, only parsing).
Notation "'let+' ' pat ':=' m 'in' k" :=
  (pbind m (fun x => match x with pat => k end))
  (at level 10, pat pattern, m at level 100, k at level 200, only parsing).

Section PlotFunctions.
Context {P : Matplotlib}.

Definition plot_pes (results : gmap string (list float))
    (molecule_name save_dir : string) : PM unit :=
  let save_path := Path save_dir in
  let+ _ := invoke "Path.mkdir" [PPath save_path] [("exist_ok", PBool true)] in
  let+ '(fig, ax) := subplots [] [("figsize", PTuple (PInt 10) (PInt 6))] in
  let+ distances := getkey results "distances" in
  let+ exact := getkey results "exact_energies" in
  let+ _ := invoke "Axes.plot"
              [PObj ax; PFloats distances; PFloats exact; PStr "o-"]
              [("color", PStr "#2C3E50"); ("linewidth", PInt 2);
               ("markersize", PInt 6); ("label", PStr "Exact (FCI)")] in
  let+ vqe := getkey results "vqe_energies" in
  let+ _ := invoke "Axes.plot"
              [PObj ax; PFloats distances; PFloats vqe; PStr "s--"]
              [("color", PStr "#FF6B6B"); ("linewidth", PInt 2);
               ("markersize", PInt 6); ("alpha", PFloat 0.8);
               ("label", PStr "VQE")] in
  let+ _ := invoke "Axes.set_xlabel" [PObj ax; PStr "Distance / Angle"]
              [("fontsize", PInt 12)] in
  let+ _ := invoke "Axes.set_ylabel" [PObj ax; PStr "Energy (Hartree)"]
              [("fontsize", PInt 12)] in
  let+ _ := invoke "Axes.set_title"
              [PObj ax; PStr (molecule_name ++ " Potential Energy Surface")] [] in
  let+ _ := invoke "Axes.legend" [PObj ax] [("fontsize", PInt 11)] in
  let+ _ := invoke "Axes.grid" [PObj ax; PBool true] [("alpha", PFloat 0.3)] in
  let+ _ := invoke "pyplot.tight_layout" [] [] in
  let filename :=
    ("pes_" ++ replace_spaces (str_lower molecule_name) ++ ".png")%string in
  let+ _ := invoke "pyplot.savefig" [PPath (PathDiv save_path filename)]
              [("dpi", PInt 150)] in
  invoke "pyplot.close" [] [].

Definition plot_energy_error (results : gmap string (list float))
    (molecule_name save_dir : string) : PM unit :=
  let save_path := Path save_dir in
  let+ _ := invoke "Path.mkdir" [PPath save_path] [("exist_ok", PBool true)] in
  let+ '(fig, ax) := subplots [] [("figsize", PTuple (PInt 10) (PInt 5))] in
  let+ distances := getkey results "distances" in
  let+ errors := getkey results "errors" in
  let errors_mha := map (fun e => (e * 1000)%float) errors in
  let+ _ := invoke "Axes.plot"
              [PObj ax; PFloats distances; PFloats errors_mha; PStr "o-"]
              [("color", PStr "#E74C3C"); ("linewidth", PInt 2);
               ("markersize", PInt 8)] in
  let+ _ := invoke "Axes.axhline" [PObj ax]
              [("y", PFloat 1.6); ("color", PStr "#2ECC71");
               ("linestyle", PStr "--"); ("linewidth", PFloat 1.5);
               ("alpha", PFloat 0.7);
               ("label", PStr "Chemical accuracy (1.6 mHa)")] in
  let+ _ := invoke "Axes.set_xlabel" [PObj ax; PStr "Distance / Angle"]
              [("fontsize", PInt 12)] in
  let+ _ := invoke "Axes.set_ylabel" [PObj ax; PStr "|VQE - Exact| (mHa)"]
              [("fontsize", PInt 12)] in
  let title := "VQE Energy Error" in
  let title := if String.eqb molecule_name "" then title
               else (molecule_name ++ ": " ++ title)%string in
  let+ _ := invoke "Axes.set_title" [PObj ax; PStr title] [] in
  let+ _ := invoke "Axes.legend" [PObj ax] [("fontsize", PInt 11)] in
  let+ _ := invoke "Axes.grid" [PObj ax; PBool true] [("alpha", PFloat 0.3)] in
  let+ _ := invoke "pyplot.tight_layout" [] [] in
  let filename :=
    ("energy_error_" ++ replace_spaces (str_lower molecule_name) ++ ".png")%string in
  let filename := if String.eqb molecule_name "" then "energy_error.png"
                  else filename in
  let+ _ := invoke "pyplot.savefig" [PPath (PathDiv save_path filename)]
              [("dpi", PInt 150)] in
  invoke "pyplot.close" [] [].

Definition colors_exact : list string := ["#2C3E50"; "#1A5276"; "#1B4F72"].
Definition colors_vqe : list string := ["#FF6B6B"; "#4ECDC4"; "#45B7D1"].

(** [colors[i % len(colors)]] *)
Definition cycle (colors : list string) (i : nat) : string :=
  default "" (colors !! (i mod length colors)%nat).

(** [axes[i]], where [axes] is either the Python list [[axes]] built at line
    87 or the array [plt.subplots] returned. *)
Definition axes_at (axes : list PyObject + PyObject) (i : nat) : PM PyObject :=
  match axes with
  | inl wrapped =>
      match wrapped !! i with
      | Some ax => pret ax
      | None => praise (IndexError "list index out of range")
      end
  | inr array => getitem array (Z.of_nat i)
  end.

(** The body of the loop at lines 92-107, from index [i] on. *)
Fixpoint plot_molecules (axes : list PyObject + PyObject) (i : nat)
    (items : list (string * gmap string (list float))) : PM unit :=
  match items with
  | [] => pret tt
  | (name, results) :: rest =>
      let+ ax := axes_at axes i in
      let+ distances := getkey results "distances" in
      let+ exact := getkey results "exact_energies" in
      let+ _ := invoke "Axes.plot"
                  [PObj ax; PFloats distances; PFloats exact; PStr "o-"]
                  [("color", PStr (cycle colors_exact i)); ("linewidth", PInt 2);
                   ("markersize", PInt 5); ("label", PStr "Exact (FCI)")] in
      let+ vqe := getkey results "vqe_energies" in
      let+ _ := invoke "Axes.plot"
                  [PObj ax; PFloats distances; PFloats vqe; PStr "s--"]
                  [("color", PStr (cycle colors_vqe i)); ("linewidth", PInt 2);
                   ("markersize", PInt 5); ("alpha", PFloat 0.8);
                   ("label", PStr "VQE")] in
      let+ _ := invoke "Axes.set_xlabel" [PObj ax; PStr "Distance / Angle"]
                  [("fontsize", PInt 11)] in
      let+ _ := invoke "Axes.set_ylabel" [PObj ax; PStr "Energy (Ha)"]
                  [("fontsize", PInt 11)] in
      let+ _ := invoke "Axes.set_title" [PObj ax; PStr name]
                  [("fontsize", PInt 12)] in
      let+ _ := invoke "Axes.legend" [PObj ax] [("fontsize", PInt 9)] in
      let+ _ := invoke "Axes.grid" [PObj ax; PBool true] [("alpha", PFloat 0.3)] in
      plot_molecules axes (S i) rest
  end.

Definition plot_multi_molecule_comparison
    (results_dict : list (string * gmap string (list float))) (save_dir : string)
    : PM unit :=
  let save_path := Path save_dir in
  let+ _ := invoke "Path.mkdir" [PPath save_path] [("exist_ok", PBool true)] in
  let n_molecules := length results_dict in
  let+ '(fig, axes) :=
    subplots [PInt 1; PInt (Z.of_nat n_molecules)]
             [("figsize", PTuple (PInt (6 * Z.of_nat n_molecules)) (PInt 5))] in
  let axes := if Nat.eqb n_molecules 1 then inl [axes] else inr axes in
  let+ _ := plot_molecules axes 0 results_dict in
  let+ _ := invoke "pyplot.suptitle"
              [PStr "Potential Energy Surfaces: VQE vs Exact"]
              [("fontsize", PInt 14); ("y", PFloat 1.02)] in
  let+ _ := invoke "pyplot.tight_layout" [] [] in
  let+ _ := invoke "pyplot.savefig"
              [PPath (PathDiv save_path "multi_molecule_comparison.png")]
              [("dpi", PInt 150); ("bbox_inches", PStr "tight")] in
  invoke "pyplot.close" [] [].

(** [colors.get(name, 'gray')] for the dictionary at line 129. *)
Definition ansatz_color (name : string) : string :=
  if String.eqb name "RealAmplitudes" then "#FF6B6B"
  else if String.eqb name "EfficientSU2" then "#4ECDC4"
  else "gray".

(** The loop at lines 140-143. *)
Fixpoint plot_vqe_curves (ax : PyObject) (distances : list float)
    (items : list (string * gmap string (list float))) : PM unit :=
  match items with
  | [] => pret tt
  | (name, results) :: rest =>
      let+ vqe := getkey results "vqe_energies" in
      let+ _ := invoke "Axes.plot"
                  [PObj ax; PFloats distances; PFloats vqe; PStr "s--"]
                  [("color", PStr (ansatz_color name)); ("linewidth", PInt 2);
                   ("markersize", PInt 5); ("alpha", PFloat 0.8);
                   ("label", PStr ("VQE (" ++ name ++ ")"))] in
      plot_vqe_curves ax distances rest
  end.

(** The loop at lines 153-157. *)
Fixpoint plot_error_curves (ax : PyObject) (distances : list float)
    (items : list (string * gmap string (list float))) : PM unit :=
  match items with
  | [] => pret tt
  | (name, results) :: rest =>
      let+ errors := getkey results "errors" in
      let errors_mha := map (fun e => (e * 1000)%float) errors in
      let+ _ := invoke "Axes.plot"
                  [PObj ax; PFloats distances; PFloats errors_mha; PStr "o-"]
                  [("color", PStr (ansatz_color name)); ("linewidth", PInt 2);
                   ("markersize", PInt 6); ("label", PStr name)] in
      plot_error_curves ax distances rest
  end.

Definition plot_ansatz_comparison
    (results_by_ansatz : list (string * gmap string (list float)))
    (molecule_name save_dir : string) : PM unit :=
  let save_path := Path save_dir in
  let+ _ := invoke "Path.mkdir" [PPath save_path] [("exist_ok", PBool true)] in
  let+ '(fig, axes) :=
    subplots [PInt 1; PInt 2] [("figsize", PTuple (PInt 14) (PInt 5))] in
  let+ ax := getitem axes 0 in
  let+ first :=
    match results_by_ansatz with
    | (first_key, first_results) :: _ => pret first_results
    | [] => praise (IndexError "list index out of range")
    end in
  let+ distances := getkey first "distances" in
  let+ exact := getkey first "exact_energies" in
  let+ _ := invoke "Axes.plot"
              [PObj ax; PFloats distances; PFloats exact; PStr "o-"]
              [("color", PStr "#2C3E50"); ("linewidth", PInt 2);
               ("markersize", PInt 5); ("label", PStr "Exact (FCI)")] in
  let+ _ := plot_vqe_curves ax distances results_by_ansatz in
  let+ _ := invoke "Axes.set_xlabel" [PObj ax; PStr "Distance (A)"]
              [("fontsize", PInt 11)] in
  let+ _ := invoke "Axes.set_ylabel" [PObj ax; PStr "Energy (Ha)"]
              [("fontsize", PInt 11)] in
  let+ _ := invoke "Axes.set_title"
              [PObj ax; PStr (molecule_name ++ ": PES by Ansatz")] [] in
  let+ _ := invoke "Axes.legend" [PObj ax] [("fontsize", PInt 9)] in
  let+ _ := invoke "Axes.grid" [PObj ax; PBool true] [("alpha", PFloat 0.3)] in
  let+ ax := getitem axes 1 in
  let+ _ := plot_error_curves ax distances results_by_ansatz in
  let+ _ := invoke "Axes.axhline" [PObj ax]
              [("y", PFloat 1.6); ("color", PStr "#2ECC71");
               ("linestyle", PStr "--"); ("linewidth", PFloat 1.5);
               ("alpha", PFloat 0.7); ("label", PStr "Chemical accuracy")] in
  let+ _ := invoke "Axes.set_xlabel" [PObj ax; PStr "Distance (A)"]
              [("fontsize", PInt 11)] in
  let+ _ := invoke "Axes.set_ylabel" [PObj ax; PStr "|VQE - Exact| (mHa)"]
              [("fontsize", PInt 11)] in
  let+ _ := invoke "Axes.set_title"
              [PObj ax; PStr (molecule_name ++ ": VQE Error by Ansatz")] [] in
  let+ _ := invoke "Axes.legend" [PObj ax] [("fontsize", PInt 9)] in
  let+ _ := invoke "Axes.grid" [PObj ax; PBool true] [("alpha", PFloat 0.3)] in
  let+ _ := invoke "pyplot.tight_layout" [] [] in
  let filename :=
    ("ansatz_comparison_" ++ str_lower molecule_name ++ ".png")%string in
  let+ _ := invoke "pyplot.savefig" [PPath (PathDiv save_path filename)]
              [("dpi", PInt 150)] in
  invoke "pyplot.close" [] [].

End PlotFunctions.

(** ** Reading a plotting trace *)

Section PlotObservers.
Context {P : Matplotlib}.

(** The exception a matplotlib call ended with, if it raised. *)
Definition plot_raised_by (ev : plot_event) : option exn :=
  match ev with
  | Invoke _ _ _ (Raised e) => Some e
  | Subplots _ _ (Raised e) => Some e
  | GetItem _ _ (Raised e) => Some e
  | _ => None
  end.

(** A plotting computation whose only exceptions of its own are those in
    [own]: when it returns, no matplotlib call of its trace raised; when it
    raises, either the exception is the one its last matplotlib call raised
    (and no earlier call raised), or it is one of [own] and no call raised. *)
Definition plot_guarded {A} (own : exn -> Prop) (m : PM A) : Prop :=
  forall w r w1 t, m w = (r, w1, t) ->
  match r with
  | Returned _ => forall ev, In ev t -> plot_raised_by ev = None
  | Raised e =>
      (exists t0 ev, t = t0 ++ [ev] /\ plot_raised_by ev = Some e /\
                     forall ev0, In ev0 t0 -> plot_raised_by ev0 = None) \/
      (own e /\ forall ev, In ev t -> plot_raised_by ev = None)
  end.

(** The keys of a table that some plotting function reads. *)
Definition table_keys_read : list string :=
  ["distances"; "exact_energies"; "vqe_energies"; "errors"].

(** [e] is the KeyError for one of [keys] that [results] lacks. *)
Definition missing_key (results : gmap string (list float)) (keys : list string)
    (e : exn) : Prop :=
  exists key, In key keys /\ results !! key = None /\ e = KeyError key.

(** The positional arguments of the completed calls of [callee]. *)
Definition invoked (callee : string) (t : list plot_event)
    : list (list (pyarg PyObject)) :=
  omap (fun ev => match ev with
                  | Invoke c args _ (Returned _) =>
                      if String.eqb c callee then Some args else None
                  | _ => None
                  end) t.

(** Figures created and figures closed. *)
Definition opened (t : list plot_event) : nat :=
  length (omap (fun ev => match ev with
                          | Subplots _ _ (Returned _) => Some ev
                          | _ => None
                          end) t).

Definition closed (t : list plot_event) : nat :=
  length (invoked "pyplot.close" t).

(** The files written. *)
Definition saved (t : list plot_event) : list path :=
  omap (fun args => match args with PPath p :: _ => Some p | _ => None end)
       (invoked "pyplot.savefig" t).

(** The curves drawn: the abscissae and the ordinates. *)
Definition curves (t : list plot_event) : list (list float * list float) :=
  omap (fun args => match args with
                    | _ :: PFloats xs :: PFloats ys :: _ => Some (xs, ys)
                    | _ => None
                    end)
       (invoked "Axes.plot" t).

(** A table that has every key a plotting function reads. *)
Definition plottable (results : gmap string (list float)) : Prop :=
  forall key, In key table_keys_read -> is_Some (results !! key).

(** A column of a table, empty when the key is absent. *)
Definition column (results : gmap string (list float)) (key : string) : list float :=
  default [] (results !! key).

(** Errors in millihartree, as plotted (lines 47 and 154). *)
Definition millihartree (errors : list float) : list float :=
  map (fun e => (e * 1000)%float) errors.

Definition has_space (s : string) : bool :=
  existsb (fun c => Ascii.eqb c (Ascii.ascii_of_nat 32)) (list_ascii_of_string s).

(** A computation that never completes a call of [callee]. *)
Definition never {A} (callee : string) (m : PM A) : Prop :=
  forall w r w1 t, m w = (r, w1, t) -> invoked callee t = [].

(** A computation that creates no figure. *)
Definition opens_nothing {A} (m : PM A) : Prop :=
  forall w r w1 t, m w = (r, w1, t) -> opened t = 0%nat.

(** A computation that completes [plt.close()] once if it returns and not at
    all if it raises. *)
Definition closes_on_return {A} (m : PM A) : Prop :=
  forall w r w1 t, m w = (r, w1, t) ->
  closed t = match r with Returned _ => 1%nat | Raised _ => 0%nat end.

(** A plotting function's use of its figure: it creates at most one, creates
    one whenever it returns, and closes it exactly when it returns. *)
Definition figure_scoped {A} (m : PM A) : Prop :=
  forall w r w1 t, m w = (r, w1, t) ->
  (opened t <= 1)%nat /\
  match r with
  | Returned _ => opened t = 1%nat /\ closed t = 1%nat
  | Raised _ => closed t = 0%nat
  end.

(** A plotting function's use of the file system: it writes at most one
    file, and when it returns it has written exactly [target]. *)
Definition writes {A} (target : path) (m : PM A) : Prop :=
  forall w r w1 t, m w = (r, w1, t) ->
  (saved t = [] \/ saved t = [target]) /\
  match r with
  | Returned _ => saved t = [target]
  | Raised _ => True
  end.

End PlotObservers.

(** A concrete matplotlib: objects are numbered, every call succeeds except
    a grid of no columns, and [str.lower] lowers the ASCII capitals. *)
Module ToyPlot.

Definition lower_char (c : Ascii.ascii) : Ascii.ascii :=
  let n := Ascii.nat_of_ascii c in
  if ((65 <=? n) && (n <=? 90))%nat then Ascii.ascii_of_nat (n + 32) else c.

Fixpoint lower (s : string) : string :=
  match s with
  | EmptyString => EmptyString
  | String c rest => String (lower_char c) (lower rest)
  end.

Definition make_subplots (args : list (pyarg nat)) (kwargs : list (string * pyarg nat))
    (w : nat) : outcome (nat * nat) * nat :=
  match args with
  | [PInt _; PInt 0] =>
      (Raised (ValueError "Number of columns must be a positive integer, not 0"), w)
  | _ => (Returned (w, S w), S (S w))
  end.

Definition lib : Matplotlib := {|
  PlotWorld := nat;
  PyObject := nat;
  str_lower := lower;
  mpl_invoke := fun callee args kwargs w => (Returned tt, w);
  mpl_subplots := make_subplots;
  mpl_getitem := fun o i w => (Returned (o + 10 * S (Z.to_nat i))%nat, w)
|}.

End ToyPlot.

(** ** More ways to read a trace, and properties of computations *)

Section MoreObservers.
Context {L : Library}.

(** The exception a library call ended with, if it raised. *)
Definition raised_by (ev : event) : option exn :=
  match ev with
  | DefaultRng _ (Raised e) => Some e
  | Uniform _ _ _ _ (Raised e) => Some e
  | VqeCompute _ _ _ (Raised e) => Some e
  | SolverCompute _ _ (Raised e) => Some e
  | DriverRun _ (Raised e) => Some e
  | Transform _ _ (Raised e) => Some e
  | SecondQOp _ (Raised e) => Some e
  | MapperMap _ _ (Raised e) => Some e
  | _ => None
  end.

(** A computation that neither swallows nor invents exceptions: when it
    returns, no library call of its trace raised; when it raises, the
    exception is the one its last library call raised, and no earlier call
    raised. *)
Definition transparent {A} (m : M A) : Prop :=
  forall w r w1 t, m w = (r, w1, t) ->
  match r with
  | Returned _ => forall ev, In ev t -> raised_by ev = None
  | Raised e =>
      exists t0 ev, t = t0 ++ [ev] /\ raised_by ev = Some e /\
                    forall ev0, In ev0 t0 -> raised_by ev0 = None
  end.

(** A computation whose outcome and calls do not depend on the state of the
    process it starts in. *)
Definition steady {A} (m : M A) : Prop :=
  forall w1 w2, fst (fst (m w1)) = fst (fst (m w2)) /\ snd (m w1) = snd (m w2).

(** The operators the builder returned, and the operators the runner and the
    exact solver were called on. *)
Definition built_ops (t : list event) : list SparsePauliOp :=
  omap (fun ev => match ev with
                  | Builder _ _ (Returned (qubit_op, _)) => Some qubit_op
                  | _ => None
                  end) t.

Definition vqe_ops (t : list event) : list SparsePauliOp :=
  omap (fun ev => match ev with RunVqe h _ _ _ _ _ _ => Some h | _ => None end) t.

Definition exact_ops (t : list event) : list SparsePauliOp :=
  omap (fun ev => match ev with ExactEnergy h _ _ => Some h | _ => None end) t.

(** The configuration each runner call was given. *)
Definition vqe_configs (t : list event) : list (string * Z * Z) :=
  omap (fun ev => match ev with
                  | RunVqe _ ansatz_type reps maxiter _ _ _ =>
                      Some (ansatz_type, reps, maxiter)
                  | _ => None
                  end) t.

(** What was written to standard output. *)
Definition stdout (t : list event) : list string :=
  omap (fun ev => match ev with Stdout text => Some text | _ => None end) t.

(** The coordinate strings the driver was run on inside the builder calls. *)
Definition driver_atoms (t : list event) : list string :=
  omap (fun ev => match ev with DriverRun drv _ => Some (atom drv) | _ => None end) t.

Definition builder_atoms (t : list event) : list (list string) :=
  omap (fun ev => match ev with
                  | Builder _ inner _ => Some (driver_atoms inner)
                  | _ => None
                  end) t.

(** The two lines the scan prints for a point (lines 43 and 65-66). *)
Definition header (n i : nat) (d : float) : string :=
  ("  [" ++ pretty (i + 1)%nat ++ "/" ++ pretty n ++ "] d = "
   ++ format_fixed 3 d ++ " ...") ++ " ".

Definition result_line (vqe_e exact_e error : float) : string :=
  ("VQE=" ++ format_fixed 6 vqe_e ++ ", Exact=" ++ format_fixed 6 exact_e ++ ", "
   ++ "Error=" ++ format_fixed 2 (error * 1000)%float ++ " mHa") ++ newline.

(** [scan_exec ... n i ds acc w r w1 t]: the loop over [ds] from index [i],
    started in state [w] with the lists [acc], ends in state [w1] with [r]
    after the calls [t]; every call is tied to the state it was made in. *)
Inductive scan_exec
    (molecule_builder : float -> M (SparsePauliOp * ElectronicStructureProblem))
    (ansatz_type : string) (reps maxiter seed : Z) (n : nat)
  : nat -> list float -> columns -> World -> outcome columns -> World ->
    list event -> Prop :=
| exec_done i acc w :
    scan_exec molecule_builder ansatz_type reps maxiter seed n
      i [] acc w (Returned acc) w []
| exec_builder_raises i d rest acc w e w1 tb :
    molecule_builder d w = (Raised e, w1, tb) ->
    scan_exec molecule_builder ansatz_type reps maxiter seed n
      i (d :: rest) acc w (Raised e) w1
      [Stdout (header n i d); Builder d tb (Raised e)]
| exec_vqe_raises i d rest acc w q p w1 tb e w2 tv :
    molecule_builder d w = (Returned (q, p), w1, tb) ->
    run_vqe q ansatz_type reps maxiter (seed + Z.of_nat i) w1 = (Raised e, w2, tv) ->
    scan_exec molecule_builder ansatz_type reps maxiter seed n
      i (d :: rest) acc w (Raised e) w2
      [Stdout (header n i d); Builder d tb (Returned (q, p));
       RunVqe q ansatz_type reps maxiter (seed + Z.of_nat i) tv (Raised e)]
| exec_exact_raises i d rest acc w q p w1 tb out w2 tv e w3 te :
    molecule_builder d w = (Returned (q, p), w1, tb) ->
    run_vqe q ansatz_type reps maxiter (seed + Z.of_nat i) w1 = (Returned out, w2, tv) ->
    exact_energy q w2 = (Raised e, w3, te) ->
    scan_exec molecule_builder ansatz_type reps maxiter seed n
      i (d :: rest) acc w (Raised e) w3
      [Stdout (header n i d); Builder d tb (Returned (q, p));
       RunVqe q ansatz_type reps maxiter (seed + Z.of_nat i) tv (Returned out);
       ExactEnergy q te (Raised e)]
| exec_point i d rest acc w q p w1 tb out w2 tv ex w3 te r w4 t :
    molecule_builder d w = (Returned (q, p), w1, tb) ->
    run_vqe q ansatz_type reps maxiter (seed + Z.of_nat i) w1 = (Returned out, w2, tv) ->
    exact_energy q w2 = (Returned ex, w3, te) ->
    let nuc := nuclear_repulsion_energy p in
    let vqe_e := (energy out + nuc)%float in
    let exact_e := (ex + nuc)%float in
    scan_exec molecule_builder ansatz_type reps maxiter seed n
      (S i) rest (append_point acc (energy out) ex nuc) w3 r w4 t ->
    scan_exec molecule_builder ansatz_type reps maxiter seed n
      i (d :: rest) acc w r w4
      (Stdout (header n i d) :: Builder d tb (Returned (q, p))
       :: RunVqe q ansatz_type reps maxiter (seed + Z.of_nat i) tv (Returned out)
       :: ExactEnergy q te (Returned ex)
       :: Stdout (result_line vqe_e exact_e (abs (vqe_e - exact_e)%float)) :: t).

(** The operator and the seed of every call of the runner. *)
Definition runner_calls (t : list event) : list (SparsePauliOp * Z) :=
  omap (fun ev => match ev with
                  | RunVqe h _ _ _ seed _ _ => Some (h, seed)
                  | _ => None
                  end) t.

(** What a scan obtained at one point it completed: the point, what the
    builder returned for it and the calls the builder made, what the runner
    and the exact solver returned on the built operator and the calls they
    made. *)
Record point := Point {
  pt_distance : float;
  pt_builder_calls : list event;
  pt_operator : SparsePauliOp;
  pt_problem : ElectronicStructureProblem;
  pt_vqe_calls : list event;
  pt_vqe : vqe_output;
  pt_exact_calls : list event;
  pt_exact : float
}.

(** The four numbers appended for a point (lines 46-63). *)
Definition pt_nuclear (pt : point) : float :=
  nuclear_repulsion_energy (pt_problem pt).

Definition pt_vqe_energy (pt : point) : float :=
  (energy (pt_vqe pt) + pt_nuclear pt)%float.

Definition pt_exact_energy (pt : point) : float :=
  (pt_exact pt + pt_nuclear pt)%float.

Definition pt_error (pt : point) : float :=
  abs (pt_vqe_energy pt - pt_exact_energy pt)%float.

(** The five events of a completed iteration at index [i] of [n]. *)
Definition point_events (ansatz_type : string) (reps maxiter seed : Z)
    (n i : nat) (pt : point) : list event :=
  [Stdout (header n i (pt_distance pt));
   Builder (pt_distance pt) (pt_builder_calls pt)
           (Returned (pt_operator pt, pt_problem pt));
   RunVqe (pt_operator pt) ansatz_type reps maxiter (seed + Z.of_nat i)
          (pt_vqe_calls pt) (Returned (pt_vqe pt));
   ExactEnergy (pt_operator pt) (pt_exact_calls pt) (Returned (pt_exact pt));
   Stdout (result_line (pt_vqe_energy pt) (pt_exact_energy pt) (pt_error pt))].

Fixpoint points_events (ansatz_type : string) (reps maxiter seed : Z)
    (n i : nat) (pts : list point) : list event :=
  match pts with
  | [] => []
  | pt :: rest =>
      point_events ansatz_type reps maxiter seed n i pt
      ++ points_events ansatz_type reps maxiter seed n (S i) rest
  end.

(** The record [pt] holds what the three calls of the iteration at index [i]
    returned: the builder on the point, then the runner on the built
    operator with seed [seed + i], then the exact solver on that operator,
    each started in the state the previous one left. *)
Definition computed
    (molecule_builder : float -> M (SparsePauliOp * ElectronicStructureProblem))
    (ansatz_type : string) (reps maxiter seed : Z) (i : nat) (pt : point) : Prop :=
  exists w0 w1 w2 w3,
    molecule_builder (pt_distance pt) w0
    = (Returned (pt_operator pt, pt_problem pt), w1, pt_builder_calls pt) /\
    run_vqe (pt_operator pt) ansatz_type reps maxiter (seed + Z.of_nat i) w1
    = (Returned (pt_vqe pt), w2, pt_vqe_calls pt) /\
    exact_energy (pt_operator pt) w2 = (Returned (pt_exact pt), w3, pt_exact_calls pt).

End MoreObservers.

(** The lines a completed scan has printed, from the points and the three
    columns it filled. *)
Fixpoint progress_lines {L : Library} (n i : nat) (ds vqe exact errs : list float)
    : list string :=
  match ds, vqe, exact, errs with
  | d :: ds, v :: vqe, e :: exact, err :: errs =>
      header n i d :: result_line v e err
      :: progress_lines n (S i) ds vqe exact errs
  | _, _, _, _ => []
  end.

(** A second concrete library: as the first, but the driver does not
    converge on lithium and the active-space reduction halves the problem. *)
Module Faulty.

Definition run_driver (drv : pyscf_driver) (w : nat) : outcome float * nat :=
  if String.prefix "Li" (atom drv)
  then (Raised (Exn "RuntimeError" "SCF not converged"), S w)
  else (Returned 0.5%float, S w).

Definition lib : Library := {|
  World := nat;
  SparsePauliOp := Z;
  ElectronicStructureProblem := float;
  FermionicOp := Z;
  Generator := Z;
  ansatz_init := Toy.check_ansatz;
  optimizer_init := fun _ => None;
  estimator_init := fun _ => None;
  vqe_init := fun _ => None;
  num_qubits := fun h => h;
  num_parameters := Toy.count_parameters;
  nuclear_repulsion_energy := fun p => p;
  default_rng := Toy.seeded;
  uniform := Toy.draw;
  np_radians := fun x => (x * (np_pi / 180))%float;
  np_sin := fun x => (x - x * x * x / 6 + x * x * x * x * x / 120)%float;
  np_cos := fun x => (1 - x * x / 2 + x * x * x * x / 24)%float;
  format_fixed := fun _ x => if (x <? 0)%float then "-x" else "x";
  vqe_compute_minimum_eigenvalue := Toy.minimise;
  solver_compute_minimum_eigenvalue := Toy.diagonalise;
  driver_run := run_driver;
  transformer_transform := fun t p w => (Returned (p / 2)%float, S w);
  second_q_op := fun p w => (Returned 6%Z, S w);
  mapper_map := fun m op w => (Returned op, S w)
|}.

End Faulty.

(** ** Agreement up to a tolerance *)





(** A third concrete library: as the first, but the eigensolver's last bits
    depend on the state of the process, as those of an iterative sparse
    eigensolver started from a random vector do. *)
Module Jitter.

Definition diagonalise (s : numpy_solver) (h : Z) (w : nat)
    : outcome eigensolver_result * nat :=
  if (h <=? 0)%Z
  then (Raised (Exn "AlgorithmError" "empty operator"), w)
  else
    let noise := if Nat.even w then 0%float else 0x1p-50%float in
    (Returned (EigensolverResult (Complex (-1.25 + noise)%float 0%float)), S w).

Definition lib : Library := {|
  World := nat;
  SparsePauliOp := Z;
  ElectronicStructureProblem := float;
  FermionicOp := Z;
  Generator := Z;
  ansatz_init := Toy.check_ansatz;
  optimizer_init := fun _ => None;
  estimator_init := fun _ => None;
  vqe_init := fun _ => None;
  num_qubits := fun h => h;
  num_parameters := Toy.count_parameters;
  nuclear_repulsion_energy := fun p => p;
  default_rng := Toy.seeded;
  uniform := Toy.draw;
  np_radians := fun x => (x * (np_pi / 180))%float;
  np_sin := fun x => (x - x * x * x / 6 + x * x * x * x * x / 120)%float;
  np_cos := fun x => (1 - x * x / 2 + x * x * x * x / 24)%float;
  format_fixed := fun _ x => if (x <? 0)%float then "-x" else "x";
  vqe_compute_minimum_eigenvalue := Toy.minimise;
  solver_compute_minimum_eigenvalue := diagonalise;
  driver_run := fun drv w => (Returned 0.5%float, S w);
  transformer_transform := fun t p w => (Returned p, S w);
  second_q_op := fun p w => (Returned 4%Z, S w);
  mapper_map := fun m op w => (Returned op, S w)
|}.

End Jitter.

(** * Properties *)

(** ** The loop as a relation on traces *)

Section ScanRuns.
Context {L : Library}.
Variable molecule_builder : float -> M (SparsePauliOp * ElectronicStructureProblem).
Variables (ansatz_type : string) (reps maxiter seed : Z).

Lemma scan_loop_run n distances : forall i acc w r w1 t,
  scan_loop molecule_builder ansatz_type reps maxiter seed n i distances acc w
    = (r, w1, t) ->
  scan_run ansatz_type reps maxiter seed i distances acc r t.
Proof.
  induction distances as [|d rest IH]; intros i acc w r w1 t H.
  - cbn in H. injection H as <- _ <-. constructor.
  - cbn [scan_loop] in H. unfold bind at 1 in H.
    unfold scan_step, bind, frame, print, ret in H. cbn beta iota in H.
    destruct (molecule_builder d w) as [[[[q p]|e] wb] tb]; cbn in H.
    2:{ injection H as <- _ <-. constructor. }
    destruct (run_vqe q ansatz_type reps maxiter (seed + Z.of_nat i) wb)
      as [[[out|e] wv] tv] eqn:Hv; cbn in H.
    2:{ injection H as <- _ <-. econstructor; eassumption. }
    destruct (exact_energy q wv) as [[[ex|e] we] te]; cbn in H.
    2:{ injection H as <- _ <-. econstructor; eassumption. }
    destruct (scan_loop _ _ _ _ _ _ _ _ _ we) as [[r' w'] t'] eqn:Hl.
    injection H as <- _ <-.
    eapply scan_point; [eassumption|]. eapply IH. exact Hl.
Qed.

End ScanRuns.

(** ** What one run of the VQE runner does *)

Section RunnerFacts.
Context {L : Library}.

Lemma ansatz_named_supported ansatz_type num_qubits reps :
  (ansatz_type = "RealAmplitudes" \/ ansatz_type = "EfficientSU2") <->
  is_Some (ansatz_named ansatz_type num_qubits reps).
Proof.
  unfold ansatz_named.
  destruct (String.eqb_spec ansatz_type "RealAmplitudes") as [->|H1].
  { split; [eauto | auto]. }
  destruct (String.eqb_spec ansatz_type "EfficientSU2") as [->|H2].
  { split; [eauto | auto]. }
  split; [intros [?|?]; congruence | intros [? ?]; discriminate].
Qed.

Lemma fold_callback evals : forall history,
  fold_left callback evals history = history ++ map value evals.
Proof.
  induction evals as [|ev evals IH]; intros history; cbn.
  - now rewrite app_nil_r.
  - rewrite IH. unfold callback. now rewrite <- app_assoc.
Qed.

Lemma run_vqe_unfold hamiltonian ansatz_type reps maxiter seed w :
  run_vqe hamiltonian ansatz_type reps maxiter seed w =
  match ansatz_named ansatz_type (num_qubits hamiltonian) reps with
  | Some a =>
      match rejection a maxiter with
      | Some e => (Raised e, w, [])
      | None => optimise hamiltonian ansatz_type maxiter seed a w
      end
  | None => (Raised (ValueError ("Unknown ansatz type: " ++ ansatz_type)), w, [])
  end.
Proof.
  unfold run_vqe, ansatz_named.
  assert (Hbody : forall a,
    bind (construct ansatz_init a) (fun a0 : ansatz =>
      let* optimizer := construct optimizer_init (COBYLA maxiter) in
      let* estimator := construct estimator_init Estimator in
      let* vqe := construct vqe_init (VQE estimator a0 optimizer None) in
      let* rng := call (default_rng seed) (DefaultRng seed) in
      let* initial_point :=
        call (uniform rng (- np_pi)%float np_pi (num_parameters a0))
             (Uniform rng (- np_pi)%float np_pi (num_parameters a0)) in
      let* '(energy_history, result) :=
        compute_minimum_eigenvalue (set_initial_point vqe initial_point)
          hamiltonian [] in
      ret {| energy := real (eigenvalue result);
             optimal_params := optimal_parameters result;
             energy_history := energy_history;
             num_params := num_parameters a0;
             out_ansatz_type := ansatz_type |}) w
    = match rejection a maxiter with
      | Some e => (Raised e, w, [])
      | None => optimise hamiltonian ansatz_type maxiter seed a w
      end).
  { intros a. unfold rejection, construct, bind at 1.
    destruct (ansatz_init a) as [e|]; [reflexivity|]. cbn [ret raise].
    unfold bind at 1. destruct (optimizer_init (COBYLA maxiter)) as [e|];
      [reflexivity|]. cbn [ret raise].
    unfold bind at 1. destruct (estimator_init Estimator) as [e|];
      [reflexivity|]. cbn [ret raise].
    unfold bind at 1.
    destruct (vqe_init (VQE Estimator a (COBYLA maxiter) None)) as [e|];
      [reflexivity|]. cbn [ret raise].
    unfold optimise, bind, ret, call, compute_minimum_eigenvalue,
      set_initial_point. cbn.
    destruct (default_rng seed w) as [[rng|e] w1]; cbn; [|reflexivity].
    destruct (uniform rng _ _ _ w1) as [[x|e] w2]; cbn; [|reflexivity].
    destruct (vqe_compute_minimum_eigenvalue _ hamiltonian w2) as [[evals [res|e]] w3];
      cbn; [|reflexivity].
    now rewrite fold_callback. }
  destruct (String.eqb ansatz_type "RealAmplitudes"); [apply Hbody|].
  destruct (String.eqb ansatz_type "EfficientSU2"); [apply Hbody|].
  reflexivity.
Qed.

End RunnerFacts.

Section RunnerClaims.
Context {L : Library}.

Lemma deterministic_eq {A} (f : World -> A * World) w1 w2 :
  deterministic f -> exists a v1 v2, f w1 = (a, v1) /\ f w2 = (a, v2).
Proof.
  intros H. specialize (H w1 w2).
  destruct (f w1) as [a v1], (f w2) as [b v2]. cbn in H. subst b. eauto.
Qed.

(** C5. The runner accepts exactly the names 'RealAmplitudes' and
    'EfficientSU2'.  For either of them it builds the circuit family of that
    name, on the operator's qubit count with the given repetitions, and then
    the optimizer, the estimator and the VQE object; if one of these
    constructors rejects its arguments the run ends with that exception
    before anything is called, otherwise the run goes on to seed the
    generator and any optimisation it starts uses the circuit of that name.
    For every other name it raises ValueError at once: nothing has been
    constructed or called (the trace is empty, the world untouched), so no
    optimizer iteration or energy evaluation has taken place and no
    supported kind was substituted. *)
Theorem run_vqe_ansatz_kinds (hamiltonian : SparsePauliOp) (ansatz_type : string)
    (reps maxiter seed : Z) (w : World) :
  let run := run_vqe hamiltonian ansatz_type reps maxiter seed w in
  let proceeds (a : ansatz) : Prop :=
    match rejection a maxiter with
    | Some e => run = (Raised e, w, [])
    | None =>
        (exists r t, snd run = DefaultRng seed r :: t) /\
        (forall v h evals res,
           In (VqeCompute v h evals res) (snd run) -> vqe_ansatz v = a)
    end in
  (ansatz_type = "RealAmplitudes" /\
   proceeds (RealAmplitudes (num_qubits hamiltonian) reps "linear"))
  \/
  (ansatz_type = "EfficientSU2" /\
   proceeds (EfficientSU2 (num_qubits hamiltonian) reps "circular"))
  \/
  (ansatz_type <> "RealAmplitudes" /\ ansatz_type <> "EfficientSU2" /\
   run = (Raised (ValueError ("Unknown ansatz type: " ++ ansatz_type)), w, [])).
Proof.
  cbv zeta. rewrite run_vqe_unfold. unfold ansatz_named.
  assert (Hopt : forall a,
    (exists r t, snd (optimise hamiltonian ansatz_type maxiter seed a w)
                 = DefaultRng seed r :: t) /\
    (forall v h evals res,
       In (VqeCompute v h evals res)
          (snd (optimise hamiltonian ansatz_type maxiter seed a w)) ->
       vqe_ansatz v = a)).
  { intros a. unfold optimise.
    destruct (default_rng seed w) as [[rng|e] w1]; cbn.
    2:{ split; [eauto|]. intros v h evals res [H|[]]. discriminate. }
    destruct (uniform rng _ _ _ w1) as [[x|e] w2]; cbn.
    2:{ split; [eauto|]. intros v h evals res [H|[H|[]]]; discriminate. }
    destruct (vqe_compute_minimum_eigenvalue _ hamiltonian w2) as [[evals res] w3].
    cbn. split; [eauto|].
    intros v h evals' res' [H|[H|[H|[]]]]; try discriminate.
    injection H as <- _ _ _. reflexivity. }
  destruct (String.eqb_spec ansatz_type "RealAmplitudes") as [E1|N1].
  { left. split; [exact E1|].
    destruct (rejection _ maxiter) as [e|]; [reflexivity|apply Hopt]. }
  destruct (String.eqb_spec ansatz_type "EfficientSU2") as [E2|N2].
  { right. left. split; [exact E2|].
    destruct (rejection _ maxiter) as [e|]; [reflexivity|apply Hopt]. }
  right. right. auto.
Qed.

(** C6. In every run that reaches the optimisation, the generator is created
    from the caller's seed, the initial point is the array that generator
    returns for [uniform(-pi, pi, ansatz.num_parameters)], and this array is
    what the VQE object holds when it is minimised.  By numpy's contract for
    [uniform] it has one component per ansatz parameter, each in [-pi, pi]. *)
Theorem initial_point_drawn (Hnumpy : uniform_in_range)
    (hamiltonian : SparsePauliOp) (ansatz_type : string) (reps maxiter seed : Z)
    (w w1 : World) (out : outcome vqe_output) (t : list event)
    (v : vqe) (h : SparsePauliOp) (evals : list evaluation) (res : outcome vqe_result) :
  run_vqe hamiltonian ansatz_type reps maxiter seed w = (out, w1, t) ->
  In (VqeCompute v h evals res) t ->
  exists rng x,
    t = [DefaultRng seed (Returned rng);
         Uniform rng (- np_pi)%float np_pi (num_parameters (vqe_ansatz v)) (Returned x);
         VqeCompute v h evals res] /\
    initial_point v = Some x /\
    length x = num_parameters (vqe_ansatz v) /\
    Forall (fun y => (- np_pi <=? y)%float = true /\ (y <=? np_pi)%float = true) x.
Proof.
  rewrite run_vqe_unfold.
  destruct (ansatz_named ansatz_type (num_qubits hamiltonian) reps) as [a|].
  2:{ intros H. injection H as _ _ <-. intros []. }
  destruct (rejection a maxiter) as [e|].
  { intros H. injection H as _ _ <-. intros []. }
  unfold optimise.
  destruct (default_rng seed w) as [[rng|e] wa].
  2:{ intros H. injection H as _ _ <-. intros [H|[]]. discriminate. }
  destruct (uniform rng _ _ _ wa) as [[x|e] wb] eqn:Hdraw.
  2:{ intros H. injection H as _ _ <-. intros [H|[H|[]]]; discriminate. }
  destruct (vqe_compute_minimum_eigenvalue _ hamiltonian wb) as [[evals' res'] wc].
  intros H. injection H as _ _ <-.
  intros [H|[H|[H|[]]]]; try discriminate.
  injection H as <- <- <- <-. cbn.
  exists rng, x. destruct (Hnumpy _ _ _ _ _ Hdraw) as [Hlen Hrange].
  repeat split; assumption.
Qed.

(** C2. When the library calls the runner makes (seeding a generator,
    drawing from it, the hybrid optimisation loop) are functions of their
    arguments, two runs on the same operator with the same configuration,
    started in any two states of the process, end alike: the same energy
    and the same energy history, or the same exception; they also make the
    same calls.  The runner adds no source of variation of its own. *)
Theorem run_vqe_deterministic
    (Hrng : forall seed, deterministic (default_rng seed))
    (Huniform : forall rng low high size, deterministic (uniform rng low high size))
    (Hvqe : forall v h, deterministic (vqe_compute_minimum_eigenvalue v h))
    (hamiltonian : SparsePauliOp) (ansatz_type : string) (reps maxiter seed : Z)
    (w1 w2 : World) :
  fst (fst (run_vqe hamiltonian ansatz_type reps maxiter seed w1))
  = fst (fst (run_vqe hamiltonian ansatz_type reps maxiter seed w2)) /\
  snd (run_vqe hamiltonian ansatz_type reps maxiter seed w1)
  = snd (run_vqe hamiltonian ansatz_type reps maxiter seed w2) /\
  (forall out1 out2,
     fst (fst (run_vqe hamiltonian ansatz_type reps maxiter seed w1)) = Returned out1 ->
     fst (fst (run_vqe hamiltonian ansatz_type reps maxiter seed w2)) = Returned out2 ->
     energy out1 = energy out2 /\ energy_history out1 = energy_history out2).
Proof.
  assert (Hsame :
    fst (fst (run_vqe hamiltonian ansatz_type reps maxiter seed w1))
    = fst (fst (run_vqe hamiltonian ansatz_type reps maxiter seed w2)) /\
    snd (run_vqe hamiltonian ansatz_type reps maxiter seed w1)
    = snd (run_vqe hamiltonian ansatz_type reps maxiter seed w2)).
  { rewrite !run_vqe_unfold.
    destruct (ansatz_named ansatz_type (num_qubits hamiltonian) reps) as [a|];
      [|split; reflexivity].
    destruct (rejection a maxiter) as [e|]; [split; reflexivity|].
    unfold optimise.
    destruct (deterministic_eq _ w1 w2 (Hrng seed)) as (r & v1 & v2 & -> & ->).
    destruct r as [rng|e]; [|split; reflexivity].
    destruct (deterministic_eq _ v1 v2
                (Huniform rng (- np_pi)%float np_pi (num_parameters a)))
      as (r & u1 & u2 & -> & ->).
    destruct r as [x|e]; [|split; reflexivity].
    destruct (deterministic_eq _ u1 u2
                (Hvqe (VQE Estimator a (COBYLA maxiter) (Some x)) hamiltonian))
      as ([evals res] & x1 & x2 & -> & ->).
    split; reflexivity. }
  destruct Hsame as [Hout Htrace]. split; [exact Hout|]. split; [exact Htrace|].
  intros out1 out2 H1 H2. rewrite Hout, H2 in H1. injection H1 as <-. auto.
Qed.


End RunnerClaims.

(** ** Arithmetic of the error column (IEEE-754 binary64) *)

Section FloatFacts.
Local Open Scope float_scope.

Lemma abs_not_negative x : (abs x <? 0) = false.
Proof.
  rewrite FloatAxioms.ltb_spec, FloatAxioms.abs_spec.
  destruct (Prim2SF x); reflexivity.
Qed.

Lemma abs_nonneg x : is_nan (abs x) = false -> (0 <=? abs x) = true.
Proof.
  unfold is_nan.
  rewrite FloatAxioms.eqb_spec, FloatAxioms.leb_spec, FloatAxioms.abs_spec.
  destruct (Prim2SF x); cbn; try reflexivity. discriminate.
Qed.

Lemma abs_opp x : abs (- x) = abs x.
Proof.
  apply Prim2SF_inj. rewrite !FloatAxioms.abs_spec, FloatAxioms.opp_spec.
  destruct (Prim2SF x); reflexivity.
Qed.

End FloatFacts.

(** ** Facts about scans *)

Section ScanFacts.
Context {L : Library}.
Variables (ansatz_type : string) (reps maxiter seed : Z).

(** The columns a completed loop has appended, read off its trace. *)
Lemma scan_run_columns i ds acc r t :
  scan_run ansatz_type reps maxiter seed i ds acc r t -> forall acc', r = Returned acc' ->
  builder_args t = ds /\
  length (vqe_seeds t) = length ds /\
  length (nuclear_terms t) = length ds /\
  length (vqe_eigenvalues t) = length ds /\
  length (exact_eigenvalues t) = length ds /\
  nuclear_repulsions acc' = nuclear_repulsions acc ++ nuclear_terms t /\
  vqe_energies acc' =
    vqe_energies acc ++ zip_with PrimFloat.add (vqe_eigenvalues t) (nuclear_terms t) /\
  exact_energies acc' =
    exact_energies acc ++ zip_with PrimFloat.add (exact_eigenvalues t) (nuclear_terms t) /\
  errors acc' =
    errors acc ++
    zip_with (fun v e => abs (v - e)%float)
      (zip_with PrimFloat.add (vqe_eigenvalues t) (nuclear_terms t))
      (zip_with PrimFloat.add (exact_eigenvalues t) (nuclear_terms t)).
Proof.
  induction 1 as [i acc| | | |i d rest acc s1 s2 tb q p tv out te ex r t w0 w1 Hv Hrun IH];
    intros acc' Hr; try discriminate.
  - injection Hr as <-. cbn. rewrite !app_nil_r. repeat split; reflexivity.
  - destruct (IH acc' Hr) as (Hb & Hs & Hn & Hve & Hee & Hnuc & Hvqe & Hex & Herr).
    unfold builder_args, vqe_seeds, nuclear_terms, vqe_eigenvalues,
      exact_eigenvalues in *.
    cbn. rewrite Hb, Hs, Hn, Hve, Hee, Hnuc, Hvqe, Hex, Herr. cbn.
    rewrite <- !app_assoc. repeat split; reflexivity.
Qed.

(** The runner is called with [seed + i] at the point of index [i]. *)
Lemma scan_run_seeds i ds acc r t :
  scan_run ansatz_type reps maxiter seed i ds acc r t ->
  vqe_seeds t = map (fun k => (seed + Z.of_nat k)%Z) (seq i (length (vqe_seeds t))).
Proof.
  induction 1; cbn; try reflexivity.
  f_equal. assumption.
Qed.

Lemma run_vqe_rng_seeds h a r m s w out w1 t x :
  run_vqe h a r m s w = (out, w1, t) -> In x (rng_seeds t) -> x = s.
Proof.
  rewrite run_vqe_unfold. destruct (ansatz_named a (num_qubits h) r) as [k|].
  2:{ intros H. injection H as _ _ <-. intros []. }
  destruct (rejection k m) as [e|].
  { intros H. injection H as _ _ <-. intros []. }
  unfold optimise.
  destruct (default_rng s w) as [[rng|e] wa].
  2:{ intros H. injection H as _ _ <-. cbn. intros [H|[]]. auto. }
  destruct (uniform rng _ _ _ wa) as [[y|e] wb].
  2:{ intros H. injection H as _ _ <-. cbn. intros [H|[]]. auto. }
  destruct (vqe_compute_minimum_eigenvalue _ h wb) as [[evals res] wc].
  intros H. injection H as _ _ <-. cbn. intros [H|[]]. auto.
Qed.

Lemma scan_run_generators i ds acc r t :
  scan_run ansatz_type reps maxiter seed i ds acc r t -> Forall seeds_generator t.
Proof.
  induction 1; repeat constructor; cbn; auto;
    intros x Hx; eapply run_vqe_rng_seeds; eassumption.
Qed.

(** A raised exception ends the loop at once and is its outcome. *)
Lemma scan_run_failure i ds acc r t :
  scan_run ansatz_type reps maxiter seed i ds acc r t -> forall ev e,
  In ev t -> failure ev = Some e -> r = Raised e /\ last t = Some ev.
Proof.
  induction 1 as [| | | |i d rest acc s1 s2 tb q p tv out te ex r t w0 w1 Hv Hrun IH];
    intros ev e' Hin Hf.
  - destruct Hin.
  - destruct Hin as [<-|[<-|[]]]; cbn in Hf; [discriminate|].
    injection Hf as <-. auto.
  - destruct Hin as [<-|[<-|[<-|[]]]]; cbn in Hf; try discriminate.
    injection Hf as <-. auto.
  - destruct Hin as [<-|[<-|[<-|[<-|[]]]]]; cbn in Hf; try discriminate.
    injection Hf as <-. auto.
  - destruct Hin as [<-|[<-|[<-|[<-|[<-|Hin]]]]]; cbn in Hf; try discriminate.
    destruct (IH ev e' Hin Hf) as [-> Hlast]. split; [reflexivity|].
    destruct t as [|ev0 t]; [destruct Hin|]. exact Hlast.
Qed.

End ScanFacts.

Section ScanMore.
Context {L : Library}.
Variable molecule_builder : float -> M (SparsePauliOp * ElectronicStructureProblem).
Variables (ansatz_type : string) (reps maxiter seed : Z).

Lemma scan_loop_exec n distances : forall i acc w r w1 t,
  scan_loop molecule_builder ansatz_type reps maxiter seed n i distances acc w
    = (r, w1, t) ->
  scan_exec molecule_builder ansatz_type reps maxiter seed n i distances acc w r w1 t.
Proof.
  induction distances as [|d rest IH]; intros i acc w r w1 t H.
  - cbn in H. injection H as <- <- <-. constructor.
  - cbn [scan_loop] in H. unfold bind at 1 in H.
    unfold scan_step, bind, frame, print, ret in H. cbn beta iota in H.
    destruct (molecule_builder d w) as [[[[q p]|e] wb] tb] eqn:Hb; cbn in H.
    2:{ injection H as <- <- <-. apply exec_builder_raises. exact Hb. }
    destruct (run_vqe q ansatz_type reps maxiter (seed + Z.of_nat i) wb)
      as [[[out|e] wv] tv] eqn:Hv; cbn in H.
    2:{ injection H as <- <- <-. eapply exec_vqe_raises; eassumption. }
    destruct (exact_energy q wv) as [[[ex|e] we] te] eqn:He; cbn in H.
    2:{ injection H as <- <- <-. eapply exec_exact_raises; eassumption. }
    destruct (scan_loop _ _ _ _ _ _ _ _ _ we) as [[r' w'] t'] eqn:Hl.
    injection H as <- <- <-.
    eapply exec_point; [eassumption..|]. eapply IH. exact Hl.
Qed.

Lemma scan_pes_exec distances w out w1 t :
  scan_pes molecule_builder distances ansatz_type reps maxiter seed w = (out, w1, t) ->
  exists r,
    scan_exec molecule_builder ansatz_type reps maxiter seed (length distances)
      0 distances no_columns w r w1 t /\
    out = match r with
          | Returned acc => Returned (table distances acc)
          | Raised e => Raised e
          end.
Proof.
  unfold scan_pes, bind, np_array. intros H.
  destruct (scan_loop _ _ _ _ _ _ _ _ _ w) as [[r w2] t2] eqn:Hloop.
  apply scan_loop_exec in Hloop. exists r.
  destruct r as [acc|e]; cbn in H.
  - injection H as <- <- <-. rewrite app_nil_r. split; [exact Hloop|reflexivity].
  - injection H as <- <- <-. split; [exact Hloop|reflexivity].
Qed.

End ScanMore.

Section ScanOrder.
Context {L : Library}.

Lemma scan_run_order ansatz_type reps maxiter seed i ds acc r t :
  scan_run ansatz_type reps maxiter seed i ds acc r t ->
  builder_args t `prefix_of` ds /\
  (length (exact_ops t) <= length (vqe_seeds t))%nat /\
  (length (vqe_seeds t) <= length (builder_args t))%nat /\
  (length (builder_args t) <= length (exact_ops t) + 1)%nat /\
  vqe_ops t = built_ops t /\
  exact_ops t `prefix_of` built_ops t /\
  Forall (fun c => c = (ansatz_type, reps, maxiter)) (vqe_configs t).
Proof.
  induction 1 as [i acc| | | |i d rest acc s1 s2 tb q p tv out te ex r t w0 w1 Hv Hrun IH].
  - cbn. repeat split; try lia; try apply prefix_nil; constructor.
  - cbn. repeat split; try lia; try apply prefix_nil; try constructor.
    apply prefix_cons, prefix_nil.
  - cbn. repeat split; try lia; try apply prefix_nil; repeat constructor.
    apply prefix_cons, prefix_nil.
  - cbn. repeat split; try lia; repeat constructor;
      apply prefix_cons, prefix_nil.
  - destruct IH as (Hp & H1 & H2 & H3 & Hops & Hex & Hcfg).
    unfold builder_args, vqe_seeds, exact_ops, vqe_ops, built_ops, vqe_configs in *.
    cbn. repeat split; try lia.
    + apply prefix_cons. exact Hp.
    + f_equal. exact Hops.
    + apply prefix_cons. exact Hex.
    + constructor; [reflexivity|exact Hcfg].
Qed.

End ScanOrder.

Section ScanPoints.
Context {L : Library}.
Variable molecule_builder : float -> M (SparsePauliOp * ElectronicStructureProblem).
Variables (ansatz_type : string) (reps maxiter seed : Z).

(** A loop that returns has completed every point: its trace is the
    sequence of the points' events and its lists grew by one entry per
    point. *)
Lemma scan_exec_points n i ds acc w r w1 t :
  scan_exec molecule_builder ansatz_type reps maxiter seed n i ds acc w r w1 t ->
  forall acc', r = Returned acc' ->
  exists pts,
    map pt_distance pts = ds /\
    (forall k pt, pts !! k = Some pt ->
       computed molecule_builder ansatz_type reps maxiter seed (i + k) pt) /\
    t = points_events ansatz_type reps maxiter seed n i pts /\
    vqe_energies acc' = vqe_energies acc ++ map pt_vqe_energy pts /\
    exact_energies acc' = exact_energies acc ++ map pt_exact_energy pts /\
    errors acc' = errors acc ++ map pt_error pts /\
    nuclear_repulsions acc' = nuclear_repulsions acc ++ map pt_nuclear pts.
Proof.
  induction 1 as [i acc w| | |
                 |i d rest acc w q p w1 tb out w2 tv ex w3 te r w4 t Hb Hv He
                    nuc vqe_e exact_e Hrun IH];
    intros acc' Hr; try discriminate.
  - injection Hr as <-. exists []. rewrite !app_nil_r.
    repeat split; try reflexivity. intros k pt Hk. discriminate.
  - destruct (IH acc' Hr) as (pts & Hd & Hc & Ht & H1 & H2 & H3 & H4).
    exists (Point d tb q p tv out te ex :: pts).
    cbn in H1, H2, H3, H4.
    rewrite H1, H2, H3, H4, <- !app_assoc.
    split; [cbn; f_equal; exact Hd|].
    split.
    { intros [|k] pt Hk.
      - injection Hk as <-. rewrite Nat.add_0_r.
        exists w, w1, w2, w3. auto.
      - replace (i + S k)%nat with (S i + k)%nat by lia. apply Hc. exact Hk. }
    split; [cbn; rewrite Ht; reflexivity|].
    repeat split; reflexivity.
Qed.

(** In every loop, finished or not: the runner has been called once for
    each build that succeeded, on the operator built and with the seed of
    that index; only the last build can have failed; and a loop over at
    least one point has called the builder. *)
Lemma scan_run_calls i ds acc r t :
  scan_run ansatz_type reps maxiter seed i ds acc r t ->
  runner_calls t
  = zip (built_ops t)
        (map (fun k => (seed + Z.of_nat k)%Z) (seq i (length (built_ops t)))) /\
  (length (builder_args t) <= length (built_ops t) + 1)%nat /\
  (ds <> [] -> builder_args t <> []).
Proof.
  induction 1 as [i acc| | | |i d rest acc s1 s2 tb q p tv out te ex r t w0 w1 Hv Hrun IH].
  - cbn. repeat split; [lia|congruence].
  - cbn. repeat split; [lia|discriminate].
  - cbn. repeat split; [lia|discriminate].
  - cbn. repeat split; [lia|discriminate].
  - destruct IH as (Hc & Hl & _).
    unfold runner_calls, built_ops, builder_args in *. cbn.
    rewrite Hc. repeat split; [lia|discriminate].
Qed.

End ScanPoints.

(** ** The scanner's claims *)

Section ScanClaims.
Context {L : Library}.
Local Open Scope Z_scope.

Lemma scan_pes_run molecule_builder distances ansatz_type reps maxiter seed w out w1 t :
  scan_pes molecule_builder distances ansatz_type reps maxiter seed w = (out, w1, t) ->
  exists r,
    scan_run ansatz_type reps maxiter seed 0 distances no_columns r t /\
    out = match r with
          | Returned acc => Returned (table distances acc)
          | Raised e => Raised e
          end.
Proof.
  unfold scan_pes, bind, np_array. intros H.
  destruct (scan_loop _ _ _ _ _ _ _ _ _ w) as [[r w2] t2] eqn:Hloop.
  apply scan_loop_run in Hloop. exists r.
  destruct r as [acc|e]; cbn in H.
  - injection H as <- _ <-. rewrite app_nil_r. split; [exact Hloop|reflexivity].
  - injection H as <- _ <-. split; [exact Hloop|reflexivity].
Qed.

Lemma Returned_inj {A} (a b : A) : Returned a = Returned b -> a = b.
Proof. congruence. Qed.

Lemma table_dom distances acc : dom (table distances acc) = table_keys.
Proof.
  unfold table, table_keys. rewrite dom_list_to_map_L. cbn. set_solver.
Qed.

Lemma table_lookup distances acc :
  table distances acc !! "distances" = Some distances /\
  table distances acc !! "vqe_energies" = Some (vqe_energies acc) /\
  table distances acc !! "exact_energies" = Some (exact_energies acc) /\
  table distances acc !! "errors" = Some (errors acc) /\
  table distances acc !! "nuclear_repulsions" = Some (nuclear_repulsions acc).
Proof. repeat split; reflexivity. Qed.

Lemma table_columns distances acc key column :
  table distances acc !! key = Some column ->
  column = distances \/ column = vqe_energies acc \/ column = exact_energies acc \/
  column = errors acc \/ column = nuclear_repulsions acc.
Proof.
  intros H. apply elem_of_list_to_map_2 in H.
  repeat (apply elem_of_cons in H; destruct H as [H|H]; [injection H as _ ->; tauto|]).
  apply elem_of_nil in H. destruct H.
Qed.

(** C1. A scan that returns hands back a dictionary with exactly the keys
    'distances', 'vqe_energies', 'exact_energies', 'errors' and
    'nuclear_repulsions'; every column has one entry per input point; the
    'distances' column is the input sequence itself; and the builder, the
    runner and the exact solver were each called once per point, the builder
    on the points in input order.  Entry i of every column comes from the
    i-th point: there is one record per point, in input order, whose
    distance is the i-th input point, which holds what the builder returned
    on that point and what the runner and the exact solver returned on the
    operator built for it, whose five events are the i-th block of the
    scan's trace, and from which entry i of 'vqe_energies', 'exact_energies',
    'errors' and 'nuclear_repulsions' is computed. *)
Theorem scan_table_shape
    (molecule_builder : float -> M (SparsePauliOp * ElectronicStructureProblem))
    (distances : list float) (ansatz_type : string) (reps maxiter seed : Z)
    (w w1 : World) (tbl : gmap string (list float)) (t : list event) :
  scan_pes molecule_builder distances ansatz_type reps maxiter seed w
    = (Returned tbl, w1, t) ->
  dom tbl = table_keys /\
  (forall key column, tbl !! key = Some column -> length column = length distances) /\
  tbl !! "distances" = Some distances /\
  builder_args t = distances /\
  length (vqe_seeds t) = length distances /\
  length (exact_eigenvalues t) = length distances /\
  tbl !! "nuclear_repulsions" = Some (nuclear_terms t) /\
  exists pts : list point,
    map pt_distance pts = distances /\
    (forall (i : nat) pt, pts !! i = Some pt ->
       computed molecule_builder ansatz_type reps maxiter seed i pt) /\
    t = points_events ansatz_type reps maxiter seed (length distances) 0 pts /\
    tbl !! "vqe_energies" = Some (map pt_vqe_energy pts) /\
    tbl !! "exact_energies" = Some (map pt_exact_energy pts) /\
    tbl !! "errors" = Some (map pt_error pts) /\
    tbl !! "nuclear_repulsions" = Some (map pt_nuclear pts).
Proof.
  intros H.
  destruct (scan_pes_exec _ _ _ _ _ _ _ _ _ _ H) as (r' & Hexec & Hout').
  apply scan_pes_run in H as (r & Hrun & Hout).
  destruct r as [acc|e]; [|discriminate]. injection Hout as ->.
  destruct r' as [acc0|e]; [|discriminate]. apply Returned_inj in Hout' as Hacc.
  destruct (scan_run_columns _ _ _ _ _ _ _ _ _ Hrun acc eq_refl)
    as (Hb & Hs & Hn & Hve & Hee & Hnuc & Hvqe & Hex & Herr).
  cbn in Hnuc, Hvqe, Hex, Herr.
  assert (Hlv : length (vqe_energies acc) = length distances).
  { rewrite Hvqe, length_zip_with_l_eq; lia. }
  assert (Hle : length (exact_energies acc) = length distances).
  { rewrite Hex, length_zip_with_l_eq; lia. }
  split; [apply table_dom|]. split.
  { intros key column Hk.
    destruct (table_columns _ _ _ _ Hk) as [->|[->|[->|[->| ->]]]];
      [reflexivity|exact Hlv|exact Hle| |rewrite Hnuc; exact Hn].
    rewrite Herr, length_zip_with_l_eq; rewrite <- Hvqe, <- ?Hex; lia. }
  destruct (table_lookup distances acc) as (Hd & _ & _ & _ & Hnr).
  split; [exact Hd|]. split; [exact Hb|]. split; [exact Hs|]. split; [exact Hee|].
  split; [rewrite <- Hnuc; exact Hnr|].
  destruct (scan_exec_points _ _ _ _ _ _ _ _ _ _ _ _ _ Hexec acc0 eq_refl)
    as (pts & Hpd & Hpc & Hpt & Hp1 & Hp2 & Hp3 & Hp4).
  cbn in Hp1, Hp2, Hp3, Hp4.
  exists pts. rewrite Hacc.
  destruct (table_lookup distances acc0) as (_ & Hv0 & He0 & Hr0 & Hn0).
  rewrite <- Hp1, <- Hp2, <- Hp3, <- Hp4.
  split; [exact Hpd|]. split; [exact Hpc|]. split; [exact Hpt|].
  split; [exact Hv0|]. split; [exact He0|]. split; [exact Hr0|exact Hn0].
Qed.

(** C3. In a scan that returns, entry i of 'nuclear_repulsions' is
    the nuclear repulsion of the problem built for point i, entry i of
    'vqe_energies' is the energy the runner returned at point i plus that
    repulsion, entry i of 'exact_energies' is the exact solver's value plus
    that repulsion, and entry i of 'errors' is the float absolute value of
    their difference.  Hence no error entry is negative, and an error entry
    is at least zero unless it is NaN. *)
Theorem scan_energies
    (molecule_builder : float -> M (SparsePauliOp * ElectronicStructureProblem))
    (distances : list float) (ansatz_type : string) (reps maxiter seed : Z)
    (w w1 : World) (tbl : gmap string (list float)) (t : list event) :
  scan_pes molecule_builder distances ansatz_type reps maxiter seed w
    = (Returned tbl, w1, t) ->
  let nucs := nuclear_terms t in
  let vqe := zip_with PrimFloat.add (vqe_eigenvalues t) nucs in
  let exact := zip_with PrimFloat.add (exact_eigenvalues t) nucs in
  let errs := zip_with (fun v e => abs (v - e)%float) vqe exact in
  tbl !! "nuclear_repulsions" = Some nucs /\
  tbl !! "vqe_energies" = Some vqe /\
  tbl !! "exact_energies" = Some exact /\
  tbl !! "errors" = Some errs /\
  length errs = length distances /\
  Forall (fun e => (e <? 0)%float = false /\
                   (is_nan e = false -> (0 <=? e)%float = true)) errs.
Proof.
  intros H. apply scan_pes_run in H as (r & Hrun & Hout).
  destruct r as [acc|e]; [|discriminate]. injection Hout as ->.
  destruct (scan_run_columns _ _ _ _ _ _ _ _ _ Hrun acc eq_refl)
    as (Hb & Hs & Hn & Hve & Hee & Hnuc & Hvqe & Hex & Herr).
  cbn in Hnuc, Hvqe, Hex, Herr. cbn zeta.
  destruct (table_lookup distances acc) as (_ & Hv & He & Hr & Hnr).
  rewrite Hv, He, Hr, Hnr, Hnuc, Hvqe, Hex, Herr.
  repeat (split; [reflexivity|]). split.
  { assert (Hlv : length (zip_with PrimFloat.add (vqe_eigenvalues t) (nuclear_terms t))
                  = length distances)
      by (rewrite length_zip_with_l_eq; lia).
    assert (Hle : length (zip_with PrimFloat.add (exact_eigenvalues t) (nuclear_terms t))
                  = length distances)
      by (rewrite length_zip_with_l_eq; lia).
    rewrite length_zip_with_l_eq; lia. }
  apply Forall_forall. intros e Hin.
  apply elem_of_zip_with in Hin as (v & x & -> & _ & _).
  split; [apply abs_not_negative | apply abs_nonneg].
Qed.

(** C4. In every scan, finished or not, the builder is called on the points
    in input order, only the last build can have failed, and the runner has
    been called exactly once for every build that succeeded: the k-th call
    of the runner (k from zero) is on the operator built for the k-th point
    and gets the seed [seed + k]; a generator created inside that call is
    seeded with exactly this number.  A scan of at least one point calls the
    builder, and a scan that returns has called the runner at every point,
    with the seeds [seed], [seed + 1], ..., [seed + n - 1].  With a different
    base seed the runner gets a different seed at every point, and the
    'distances' column, the input points in input order, stays as it was. *)
Theorem scan_seeds
    (molecule_builder : float -> M (SparsePauliOp * ElectronicStructureProblem))
    (distances : list float) (ansatz_type : string) (reps maxiter seed seed' : Z)
    (w w' : World) :
  let run := scan_pes molecule_builder distances ansatz_type reps maxiter seed w in
  let run' := scan_pes molecule_builder distances ansatz_type reps maxiter seed' w' in
  builder_args (snd run) `prefix_of` distances /\
  (length (builder_args (snd run)) <= length (built_ops (snd run)) + 1)%nat /\
  (distances <> [] -> builder_args (snd run) <> []) /\
  runner_calls (snd run)
  = zip (built_ops (snd run))
        (map (fun k => seed + Z.of_nat k) (seq 0 (length (built_ops (snd run))))) /\
  Forall seeds_generator (snd run) /\
  (forall tbl, fst (fst run) = Returned tbl ->
     vqe_seeds (snd run) = map (fun k => seed + Z.of_nat k) (seq 0 (length distances)) /\
     tbl !! "distances" = Some distances) /\
  (seed <> seed' -> forall (k : nat) s s',
     vqe_seeds (snd run) !! k = Some s -> vqe_seeds (snd run') !! k = Some s' ->
     s = seed + Z.of_nat k /\ s' = seed' + Z.of_nat k /\ s <> s') /\
  (forall tbl tbl', fst (fst run) = Returned tbl -> fst (fst run') = Returned tbl' ->
     tbl !! "distances" = tbl' !! "distances").
Proof.
  cbn zeta.
  destruct (scan_pes molecule_builder distances ansatz_type reps maxiter seed w)
    as [[out w1] t] eqn:E.
  destruct (scan_pes molecule_builder distances ansatz_type reps maxiter seed' w')
    as [[out' w1'] t'] eqn:E'.
  cbn [fst snd].
  destruct (scan_pes_run _ _ _ _ _ _ _ _ _ _ E) as (r & Hrun & Hout).
  destruct (scan_pes_run _ _ _ _ _ _ _ _ _ _ E') as (r' & Hrun' & Hout').
  destruct (scan_run_order _ _ _ _ _ _ _ _ _ Hrun) as (Hp & _).
  destruct (scan_run_calls _ _ _ _ _ _ _ _ _ Hrun) as (Hcalls & Hlast & Hfirst).
  pose proof (scan_run_seeds _ _ _ _ _ _ _ _ _ Hrun) as Hseeds.
  pose proof (scan_run_seeds _ _ _ _ _ _ _ _ _ Hrun') as Hseeds'.
  assert (Hat : forall sd (l : list Z) (k : nat) s,
            l = map (fun k => sd + Z.of_nat k) (seq 0 (length l)) ->
            l !! k = Some s -> s = sd + Z.of_nat k).
  { intros sd l k s Hl Hk. rewrite Hl in Hk.
    rewrite list_lookup_fmap in Hk.
    destruct (seq 0 (length l) !! k) as [j|] eqn:Hj; [|discriminate].
    apply lookup_seq in Hj as [-> _]. injection Hk as <-. reflexivity. }
  split; [exact Hp|]. split; [exact Hlast|]. split; [exact Hfirst|].
  split; [exact Hcalls|].
  split; [exact (scan_run_generators _ _ _ _ _ _ _ _ _ Hrun)|].
  split.
  { intros tbl ->. destruct r as [acc|e]; [|discriminate]. injection Hout as ->.
    destruct (scan_run_columns _ _ _ _ _ _ _ _ _ Hrun acc eq_refl) as (_ & Hs & _).
    rewrite Hs in Hseeds. split; [exact Hseeds|].
    apply (table_lookup distances acc). }
  split.
  { intros Hne k s s' Hk Hk'.
    pose proof (Hat _ _ _ _ Hseeds Hk) as ->.
    pose proof (Hat _ _ _ _ Hseeds' Hk') as ->.
    repeat split. lia. }
  intros tbl tbl' -> ->.
  destruct r as [acc|e]; [|discriminate]. injection Hout as ->.
  destruct r' as [acc'|e]; [|discriminate]. injection Hout' as ->.
  destruct (table_lookup distances acc) as (-> & _).
  destruct (table_lookup distances acc') as (-> & _).
  reflexivity.
Qed.

(** C7. If, at any point of a scan, the molecule builder, the runner or the
    exact solver raises, that call is the last thing the scan does and the
    scan ends with the very same exception: no table is returned, whatever
    the earlier points produced. *)
Theorem scan_fails_fast
    (molecule_builder : float -> M (SparsePauliOp * ElectronicStructureProblem))
    (distances : list float) (ansatz_type : string) (reps maxiter seed : Z)
    (w : World) (ev : event) (e : exn) :
  let run := scan_pes molecule_builder distances ansatz_type reps maxiter seed w in
  In ev (snd run) -> failure ev = Some e ->
  fst (fst run) = Raised e /\ last (snd run) = Some ev.
Proof.
  intros run Hin Hf. destruct run as [[out w1] t] eqn:E. cbn in *.
  destruct (scan_pes_run _ _ _ _ _ _ _ _ _ _ E) as (r & Hrun & ->).
  destruct (scan_run_failure _ _ _ _ _ _ _ _ _ Hrun ev e Hin Hf) as [-> Hlast].
  auto.
Qed.

(** C10. On the empty sequence of points the scan returns at once: it calls
    neither the builder nor the runner nor the exact solver (its trace is
    empty and the world unchanged), and all five columns of the table are
    empty. *)
Theorem scan_empty
    (molecule_builder : float -> M (SparsePauliOp * ElectronicStructureProblem))
    (ansatz_type : string) (reps maxiter seed : Z) (w : World) :
  exists tbl,
    scan_pes molecule_builder [] ansatz_type reps maxiter seed w = (Returned tbl, w, []) /\
    dom tbl = table_keys /\
    tbl !! "distances" = Some [] /\
    tbl !! "vqe_energies" = Some [] /\
    tbl !! "exact_energies" = Some [] /\
    tbl !! "errors" = Some [] /\
    tbl !! "nuclear_repulsions" = Some [].
Proof.
  exists (table [] no_columns). split; [reflexivity|].
  split; [apply table_dom|]. apply (table_lookup [] no_columns).
Qed.

End ScanClaims.

(** ** The BeH2 geometry *)

Section Geometry.
Context {L : Library}.

Lemma append_assoc (a b c : string) : ((a ++ b) ++ c = a ++ (b ++ c))%string.
Proof.
  induction a as [|ch a IH]; [reflexivity|].
  change (String ch ((a ++ b) ++ c) = String ch (a ++ (b ++ c)))%string.
  f_equal. exact IH.
Qed.

(** C9. For every angle (degrees) the coordinate string lists three atoms
    separated by '; ': Be at 0.0 0.0 0.0 and two H atoms at x = 0.0 with
    y = +d sin(h) and y = -d sin(h), both at z = d cos(h), where d = 1.326
    and h is half the angle converted to radians; y and z are printed with
    six decimals.  The two y coordinates are mirror images (equal
    magnitude), and this string is what the driver is run on. *)
Theorem beh2_geometry (angle : float) (w : World) :
  let d := 1.326%float in
  let half_angle := np_radians (angle / 2)%float in
  let y := (d * np_sin half_angle)%float in
  let z := (d * np_cos half_angle)%float in
  beh2_atom_string angle =
    String.concat "; "
      [ atom_line "Be" "0.0" "0.0" "0.0";
        atom_line "H" "0.0" (format_fixed 6 y) (format_fixed 6 z);
        atom_line "H" "0.0" (format_fixed 6 (- y)%float) (format_fixed 6 z) ] /\
  abs (- y)%float = abs y /\
  exists res t,
    snd (build_beh2 angle w) =
    DriverRun {| atom := beh2_atom_string angle; basis := "sto3g"; charge := 0;
                 spin := 0; drv_unit := ANGSTROM |} res :: t.
Proof.
  cbn zeta. split; [|split].
  - unfold beh2_atom_string, atom_line. cbn [String.concat].
    rewrite !append_assoc. reflexivity.
  - apply abs_opp.
  - unfold build_beh2, bind, call, ret.
    destruct (driver_run _ w) as [[problem|e] w1]; [|eauto].
    destruct (transformer_transform _ problem w1) as [[problem'|e] w2]; [|eauto].
    destruct (second_q_op problem' w2) as [[op|e] w3]; [|eauto].
    destruct (mapper_map _ op w3) as [[qubit_op|e] w4]; eauto.
Qed.

End Geometry.

(** ** The claims on the concrete library *)

Module ToyFacts.

Lemma seeded_deterministic seed : @deterministic Toy.lib _ (Toy.seeded seed).
Proof. intros w1 w2. unfold Toy.seeded. destruct (seed <? 0)%Z; reflexivity. Qed.

Lemma draw_deterministic rng low high size :
  @deterministic Toy.lib _ (Toy.draw rng low high size).
Proof. intros w1 w2. reflexivity. Qed.

Lemma minimise_deterministic v h : @deterministic Toy.lib _ (Toy.minimise v h).
Proof.
  intros w1 w2. unfold Toy.minimise. destruct (initial_point v); reflexivity.
Qed.

Lemma diagonalise_deterministic s h : @deterministic Toy.lib _ (Toy.diagonalise s h).
Proof.
  intros w1 w2. unfold Toy.diagonalise. destruct (h <=? 0)%Z; reflexivity.
Qed.

Lemma draw_in_range : @uniform_in_range Toy.lib.
Proof.
  intros rng size w x w1 H. cbn in H. unfold Toy.draw in H.
  injection H as <- _. split; [apply repeat_length|].
  induction size as [|size IH]; constructor; [|exact IH].
  split; reflexivity.
Qed.

End ToyFacts.

(** C1 on a scan of two points. *)
Lemma scan_table_shape_witness :
  let run := toy_scan "RealAmplitudes" 1 200 42 in
  let tbl := table [0.5%float; 1%float] toy_columns in
  run = (Returned tbl, 8%nat, snd run) /\
  dom tbl = table_keys /\
  (forall key column, tbl !! key = Some column -> length column = 2%nat) /\
  tbl !! "distances" = Some [0.5%float; 1%float] /\
  builder_args (snd run) = [0.5%float; 1%float] /\
  length (vqe_seeds (snd run)) = 2%nat /\
  length (exact_eigenvalues (snd run)) = 2%nat /\
  tbl !! "nuclear_repulsions" = Some (nuclear_terms (snd run)) /\
  exists pts : list (@point Toy.lib),
    map pt_distance pts = [0.5%float; 1%float] /\
    (forall (i : nat) pt, pts !! i = Some pt ->
       computed Toy.builder "RealAmplitudes" 1 200 42 i pt) /\
    snd run = points_events "RealAmplitudes" 1 200 42 2 0 pts /\
    tbl !! "vqe_energies" = Some (map pt_vqe_energy pts) /\
    tbl !! "exact_energies" = Some (map pt_exact_energy pts) /\
    tbl !! "errors" = Some (map pt_error pts) /\
    tbl !! "nuclear_repulsions" = Some (map pt_nuclear pts).
Proof.
  cbn zeta.
  assert (Hrun : toy_scan "RealAmplitudes" 1 200 42
                 = (Returned (table [0.5%float; 1%float] toy_columns), 8%nat,
                    snd (toy_scan "RealAmplitudes" 1 200 42)))
    by (vm_cast_no_check (eq_refl (toy_scan "RealAmplitudes" 1 200 42))).
  split; [exact Hrun|].
  exact (@scan_table_shape Toy.lib Toy.builder [0.5%float; 1%float]
           "RealAmplitudes" 1 200 42 0%nat _ _ _ Hrun).
Defined.

(** C4 on two scans of two points, from the base seeds 42 and 7. *)
Lemma scan_seeds_witness :
  let run := toy_scan "RealAmplitudes" 1 200 42 in
  let run' := toy_scan "RealAmplitudes" 1 200 7 in
  let tbl := table [0.5%float; 1%float] toy_columns in
  fst (fst run) = Returned tbl /\
  runner_calls (snd run) = [(4%Z, 42%Z); (4%Z, 43%Z)] /\
  runner_calls (snd run)
  = zip (built_ops (snd run))
        (map (fun k => (42 + Z.of_nat k)%Z) (seq 0 (length (built_ops (snd run))))) /\
  vqe_seeds (snd run) = map (fun k => (42 + Z.of_nat k)%Z) (seq 0 2) /\
  tbl !! "distances" = Some [0.5%float; 1%float] /\
  (42%Z <> 7%Z -> forall (k : nat) s s',
     vqe_seeds (snd run) !! k = Some s -> vqe_seeds (snd run') !! k = Some s' ->
     s = (42 + Z.of_nat k)%Z /\ s' = (7 + Z.of_nat k)%Z /\ s <> s').
Proof.
  cbn zeta.
  assert (Hrun : fst (fst (toy_scan "RealAmplitudes" 1 200 42))
                 = Returned (table [0.5%float; 1%float] toy_columns))
    by (vm_cast_no_check
          (eq_refl (fst (fst (toy_scan "RealAmplitudes" 1 200 42))))).
  assert (Hcalls : runner_calls (snd (toy_scan "RealAmplitudes" 1 200 42))
                   = [(4%Z, 42%Z); (4%Z, 43%Z)])
    by (vm_cast_no_check
          (eq_refl (runner_calls (snd (toy_scan "RealAmplitudes" 1 200 42))))).
  destruct (@scan_seeds Toy.lib Toy.builder [0.5%float; 1%float]
              "RealAmplitudes" 1 200 42 7 0%nat 0%nat)
    as (_ & _ & _ & Hzip & _ & Hret & Hdiff & _).
  split; [exact Hrun|]. split; [exact Hcalls|]. split; [exact Hzip|].
  destruct (Hret _ Hrun) as [Hseeds Hd].
  split; [exact Hseeds|]. split; [exact Hd|exact Hdiff].
Defined.

(** C3 on a scan of two points. *)
Lemma scan_energies_witness :
  let run := toy_scan "EfficientSU2" 2 100 7 in
  let tbl := table [0.5%float; 1%float] toy_columns in
  run = (Returned tbl, 8%nat, snd run) /\
  let nucs := nuclear_terms (snd run) in
  let vqe := zip_with PrimFloat.add (vqe_eigenvalues (snd run)) nucs in
  let exact := zip_with PrimFloat.add (exact_eigenvalues (snd run)) nucs in
  let errs := zip_with (fun v e => abs (v - e)%float) vqe exact in
  tbl !! "nuclear_repulsions" = Some nucs /\
  tbl !! "vqe_energies" = Some vqe /\
  tbl !! "exact_energies" = Some exact /\
  tbl !! "errors" = Some errs /\
  length errs = 2%nat /\
  Forall (fun e => (e <? 0)%float = false /\
                   (is_nan e = false -> (0 <=? e)%float = true)) errs.
Proof.
  cbn zeta.
  assert (Hrun : toy_scan "EfficientSU2" 2 100 7
                 = (Returned (table [0.5%float; 1%float] toy_columns), 8%nat,
                    snd (toy_scan "EfficientSU2" 2 100 7)))
    by (vm_cast_no_check (eq_refl (toy_scan "EfficientSU2" 2 100 7))).
  split; [exact Hrun|].
  exact (@scan_energies Toy.lib Toy.builder [0.5%float; 1%float]
           "EfficientSU2" 2 100 7 0%nat _ _ _ Hrun).
Defined.

(** C5 on a supported name with a negative repetition count: the name is
    accepted, the circuit constructor rejects the count, nothing is called. *)
Lemma run_vqe_ansatz_kinds_witness :
  @run_vqe Toy.lib 4%Z "RealAmplitudes" (-1) 200 42 0%nat
  = (Raised (ValueError "The value of reps should be larger than or equal to 0"),
     0%nat, []).
Proof.
  destruct (@run_vqe_ansatz_kinds Toy.lib 4%Z "RealAmplitudes" (-1) 200 42 0%nat)
    as [[_ H]|[[H _]|[H _]]].
  - exact H.
  - discriminate H.
  - exfalso. apply H. reflexivity.
Defined.

(** C6 on one run: eight parameters, all drawn by the concrete library. *)
Lemma initial_point_drawn_witness :
  exists out w1 t v evals res,
    @run_vqe Toy.lib 4%Z "RealAmplitudes" 1 200 42 0%nat = (out, w1, t) /\
    In (@VqeCompute Toy.lib v 4%Z evals res) t /\
    exists rng x,
      t = [@DefaultRng Toy.lib 42 (Returned rng);
           @Uniform Toy.lib rng (- np_pi)%float np_pi
             (@num_parameters Toy.lib (vqe_ansatz v)) (Returned x);
           @VqeCompute Toy.lib v 4%Z evals res] /\
      initial_point v = Some x /\
      length x = @num_parameters Toy.lib (vqe_ansatz v) /\
      Forall (fun y => (- np_pi <=? y)%float = true /\ (y <=? np_pi)%float = true) x.
Proof.
  eexists _, _, _, _, _, _.
  split; [vm_compute; reflexivity|].
  split; [right; right; left; reflexivity|].
  eapply (@initial_point_drawn Toy.lib ToyFacts.draw_in_range
            4%Z "RealAmplitudes" 1 200 42 0%nat).
  - vm_compute. reflexivity.
  - right; right; left; reflexivity.
Defined.

(** C2 on two runs started in different states. *)
Lemma run_vqe_deterministic_witness :
  fst (fst (@run_vqe Toy.lib 4%Z "EfficientSU2" 2 100 7 0%nat))
  = fst (fst (@run_vqe Toy.lib 4%Z "EfficientSU2" 2 100 7 5%nat)) /\
  snd (@run_vqe Toy.lib 4%Z "EfficientSU2" 2 100 7 0%nat)
  = snd (@run_vqe Toy.lib 4%Z "EfficientSU2" 2 100 7 5%nat).
Proof.
  destruct (@run_vqe_deterministic Toy.lib ToyFacts.seeded_deterministic
              ToyFacts.draw_deterministic ToyFacts.minimise_deterministic
              4%Z "EfficientSU2" 2%Z 100%Z 7%Z 0%nat 5%nat) as (Hout & Htrace & _).
  split; [exact Hout|exact Htrace].
Defined.


(** C7 on a scan whose second point the builder rejects. *)
Lemma scan_fails_fast_witness :
  let run := @scan_pes Toy.lib Toy.builder [1%float; (-1)%float; 2%float]
               "RealAmplitudes" 1 200 42 0%nat in
  let e := Exn "RuntimeError" "negative distance" in
  let ev := @Builder Toy.lib (-1)%float [] (Raised e) in
  In ev (snd run) /\ failure ev = Some e /\
  fst (fst run) = Raised e /\ last (snd run) = Some ev.
Proof.
  cbn zeta.
  assert (Hin : In (@Builder Toy.lib (-1)%float []
                      (Raised (Exn "RuntimeError" "negative distance")))
                   (snd (@scan_pes Toy.lib Toy.builder
                           [1%float; (-1)%float; 2%float]
                           "RealAmplitudes" 1 200 42 0%nat))).
  { vm_compute. do 6 right. left. reflexivity. }
  split; [exact Hin|]. split; [reflexivity|].
  exact (@scan_fails_fast Toy.lib Toy.builder [1%float; (-1)%float; 2%float]
           "RealAmplitudes" 1 200 42 0%nat _ _ Hin eq_refl).
Defined.

(** ** The remaining claims, run on the concrete library *)

Example run_vqe_rejects_bogus :
  @run_vqe Toy.lib 4%Z "bogus" 3 200 42 0%nat
  = (Raised (ValueError "Unknown ansatz type: bogus"), 0%nat, []).
Proof. reflexivity. Qed.

Example run_vqe_is_case_sensitive :
  fst (fst (@run_vqe Toy.lib 4%Z "realamplitudes" 3 200 42 0%nat))
  = Raised (ValueError "Unknown ansatz type: realamplitudes").
Proof. reflexivity. Qed.

Example run_vqe_history :
  fst (fst (@run_vqe Toy.lib 4%Z "EfficientSU2" 3 200 42 0%nat))
  = Returned {| energy := (-1.125)%float; optimal_params := [];
                energy_history := [(-1)%float; (-1.125)%float];
                num_params := 32; out_ansatz_type := "EfficientSU2" |}.
Proof. vm_compute. reflexivity. Qed.

Example scan_seeds_from_42 :
  vqe_seeds (snd (toy_scan "RealAmplitudes" 1 200 42)) = [42%Z; 43%Z].
Proof. vm_compute. reflexivity. Qed.

Example scan_stops_at_rejected_point :
  builder_args (snd (@scan_pes Toy.lib Toy.builder [1%float; (-1)%float; 2%float]
                       "RealAmplitudes" 1 200 42 0%nat))
  = [1%float; (-1)%float].
Proof. vm_compute. reflexivity. Qed.

Example beh2_linear_atoms :
  @beh2_atom_string Toy.lib 180%float = "Be 0.0 0.0 0.0; H 0.0 x x; H 0.0 -x x".
Proof. vm_compute. reflexivity. Qed.

(** * Further properties of the code *)

(** ** How exceptions and state dependence compose *)

Section Composition.
Context {L : Library}.

Lemma transparent_ret {A} (a : A) : transparent (ret a).
Proof. intros w r w1 t H. injection H as <- _ <-. intros ev []. Qed.

Lemma transparent_call {A} (f : World -> outcome A * World) (ev : outcome A -> event) :
  (forall r, raised_by (ev r) = match r with Raised e => Some e | Returned _ => None end) ->
  transparent (call f ev).
Proof.
  intros Hev w r w1 t H. unfold call in H.
  destruct (f w) as [r0 w0]. injection H as <- _ <-.
  specialize (Hev r0). destruct r0 as [a|e].
  - intros ev0 [<-|[]]. exact Hev.
  - exists [], (ev (Raised e)). split; [reflexivity|]. split; [exact Hev|].
    intros ev0 [].
Qed.

Lemma transparent_bind {A B} (m : M A) (k : A -> M B) :
  transparent m -> (forall a, transparent (k a)) -> transparent (bind m k).
Proof.
  intros Hm Hk w r w1 t H. unfold bind in H.
  destruct (m w) as [[[a|e] wm] tm] eqn:Em.
  - destruct (k a wm) as [[rk wk] tk] eqn:Ek. injection H as <- _ <-.
    pose proof (Hm _ _ _ _ Em) as Hm1. pose proof (Hk a _ _ _ _ Ek) as Hk1.
    cbn in Hm1. destruct rk as [b|e].
    + intros ev Hin. apply in_app_or in Hin as [Hin|Hin]; auto.
    + destruct Hk1 as (t0 & ev & -> & Hev & Hnone).
      exists (tm ++ t0), ev. split; [now rewrite app_assoc|]. split; [exact Hev|].
      intros ev0 Hin. apply in_app_or in Hin as [Hin|Hin]; auto.
  - injection H as <- _ <-. exact (Hm _ _ _ _ Em).
Qed.

Lemma steady_ret {A} (a : A) : steady (ret a).
Proof. intros w1 w2. split; reflexivity. Qed.

Lemma steady_raise {A} (e : exn) : steady (@raise _ A e).
Proof. intros w1 w2. split; reflexivity. Qed.

Lemma steady_construct {A} (init : A -> option exn) (a : A) :
  steady (construct init a).
Proof.
  unfold construct. destruct (init a); [apply steady_raise|apply steady_ret].
Qed.

Lemma steady_print text ending : steady (print text ending).
Proof. intros w1 w2. split; reflexivity. Qed.

Lemma steady_call {A} (f : World -> outcome A * World) (ev : outcome A -> event) :
  deterministic f -> steady (call f ev).
Proof.
  intros Hf w1 w2. unfold call.
  destruct (deterministic_eq f w1 w2 Hf) as (a & v1 & v2 & -> & ->).
  split; reflexivity.
Qed.

Lemma steady_frame {A} (ev : list event -> outcome A -> event) (m : M A) :
  steady m -> steady (frame ev m).
Proof.
  intros Hm w1 w2. unfold frame. destruct (Hm w1 w2) as [Hr Ht].
  destruct (m w1) as [[r1 v1] t1], (m w2) as [[r2 v2] t2]. cbn in *.
  subst. split; reflexivity.
Qed.

Lemma steady_bind {A B} (m : M A) (k : A -> M B) :
  steady m -> (forall a, steady (k a)) -> steady (bind m k).
Proof.
  intros Hm Hk w1 w2. unfold bind. destruct (Hm w1 w2) as [Hr Ht].
  destruct (m w1) as [[r1 v1] t1], (m w2) as [[r2 v2] t2]. cbn in Hr, Ht.
  subst r2 t2. destruct r1 as [a|e]; [|split; reflexivity].
  destruct (Hk a v1 v2) as [Hr Ht].
  destruct (k a v1) as [[r1 u1] s1], (k a v2) as [[r2 u2] s2]. cbn in *.
  subst. split; reflexivity.
Qed.

End Composition.

(** ** The molecule builders *)

Section BuilderFacts.
Context {L : Library}.
Variable float_str : float -> string.

Ltac transparent_steps :=
  repeat first
    [ apply transparent_ret
    | apply transparent_call; intros [?|?]; reflexivity
    | apply transparent_bind; [|intros ?] ].

(** X1. None of the three molecule builders catches or invents an
    exception: a builder that returns has seen no library call raise, and a
    builder that raises ends with the very exception of the last library
    call it made (driver, active-space transformer, Hamiltonian or mapper),
    the first one that raised. *)
Theorem builders_propagate (d : float) :
  transparent (build_h2 float_str d) /\
  transparent (build_lih float_str d) /\
  transparent (build_beh2 d).
Proof.
  unfold build_h2, build_lih, build_beh2. repeat split; transparent_steps.
Qed.

(** X2. What a builder hands back.  [build_h2] makes exactly three library
    calls (driver, Hamiltonian, mapper) and never reduces the active space:
    it returns the driver's own problem.  [build_lih] and [build_beh2] make
    four: the driver's problem is first reduced to 2 electrons in 3 spatial
    orbitals, and both the operator that is mapped and the problem that is
    returned (whose nuclear repulsion the scanner reads) are those of the
    reduced problem.  The driver is always configured with the STO-3G basis,
    charge 0, spin 0 and lengths in angstrom. *)
Theorem builders_return (d : float) (w w1 : World) (q : SparsePauliOp)
    (p : ElectronicStructureProblem) (t : list event) :
  let driver_on atom_string :=
    {| atom := atom_string; basis := "sto3g"; charge := 0; spin := 0;
       drv_unit := ANGSTROM |} in
  let reduction := {| num_electrons := 2; num_spatial_orbitals := 3 |} in
  (build_h2 float_str d w = (Returned (q, p), w1, t) ->
   exists f,
     t = [DriverRun (driver_on (h2_atom_string float_str d)) (Returned p);
          SecondQOp p (Returned f);
          MapperMap JordanWignerMapper f (Returned q)]) /\
  (build_lih float_str d w = (Returned (q, p), w1, t) ->
   exists p0 f,
     t = [DriverRun (driver_on (lih_atom_string float_str d)) (Returned p0);
          Transform reduction p0 (Returned p);
          SecondQOp p (Returned f);
          MapperMap JordanWignerMapper f (Returned q)]) /\
  (build_beh2 d w = (Returned (q, p), w1, t) ->
   exists p0 f,
     t = [DriverRun (driver_on (beh2_atom_string d)) (Returned p0);
          Transform reduction p0 (Returned p);
          SecondQOp p (Returned f);
          MapperMap JordanWignerMapper f (Returned q)]).
Proof.
  cbn zeta. repeat split.
  - unfold build_h2, bind, call, ret.
    destruct (driver_run _ w) as [[p0|e] wa]; [|discriminate].
    destruct (second_q_op p0 wa) as [[f|e] wb]; [|discriminate].
    destruct (mapper_map _ f wb) as [[q0|e] wc]; [|discriminate].
    intros H. injection H as <- <- _ <-. eauto.
  - unfold build_lih, bind, call, ret.
    destruct (driver_run _ w) as [[p0|e] wa]; [|discriminate].
    destruct (transformer_transform _ p0 wa) as [[p1|e] wb]; [|discriminate].
    destruct (second_q_op p1 wb) as [[f|e] wc]; [|discriminate].
    destruct (mapper_map _ f wc) as [[q0|e] wd]; [|discriminate].
    intros H. injection H as <- <- _ <-. eauto.
  - unfold build_beh2, bind, call, ret.
    destruct (driver_run _ w) as [[p0|e] wa]; [|discriminate].
    destruct (transformer_transform _ p0 wa) as [[p1|e] wb]; [|discriminate].
    destruct (second_q_op p1 wb) as [[f|e] wc]; [|discriminate].
    destruct (mapper_map _ f wc) as [[q0|e] wd]; [|discriminate].
    intros H. injection H as <- <- _ <-. eauto.
Qed.

End BuilderFacts.

(** ** The runner *)

Section RunnerMore.
Context {L : Library}.

Lemma transparent_optimise hamiltonian ansatz_type maxiter seed a :
  transparent (optimise hamiltonian ansatz_type maxiter seed a).
Proof.
  intros w r w1 t H. unfold optimise in H.
  destruct (default_rng seed w) as [[rng|e] wa].
  2:{ injection H as <- _ <-. exists [], (DefaultRng seed (Raised e)).
      repeat split. intros ev []. }
  destruct (uniform rng _ _ _ wa) as [[x|e] wb].
  2:{ injection H as <- _ <-.
      exists [DefaultRng seed (Returned rng)],
             (Uniform rng (- np_pi)%float np_pi (num_parameters a) (Raised e)).
      repeat split. intros ev [<-|[]]. reflexivity. }
  destruct (vqe_compute_minimum_eigenvalue _ hamiltonian wb) as [[evals [result|e]] wc].
  - injection H as <- _ <-. intros ev [<-|[<-|[<-|[]]]]; reflexivity.
  - injection H as <- _ <-.
    exists [DefaultRng seed (Returned rng);
            Uniform rng (- np_pi)%float np_pi (num_parameters a) (Returned x)],
           (VqeCompute (VQE Estimator a (COBYLA maxiter) (Some x)) hamiltonian evals
                       (Raised e)).
    repeat split. intros ev [<-|[<-|[]]]; reflexivity.
Qed.

(** X3. With a supported ansatz name the runner raises nothing of its own
    and hides nothing.  If it returns, every constructor accepted its
    arguments and no library call failed.  If it raises, either a
    constructor (the circuit, COBYLA, Estimator or VQE, in this order)
    rejected its arguments, the exception is that constructor's and nothing
    had been called, or every constructor accepted and the exception is
    exactly the one raised by the last library call made (seeding the
    generator, drawing the initial point, or the optimisation). *)
Theorem run_vqe_raises_only (hamiltonian : SparsePauliOp) (ansatz_type : string)
    (reps maxiter seed : Z) (a : ansatz) (w w1 : World)
    (r : outcome vqe_output) (t : list event) :
  ansatz_named ansatz_type (num_qubits hamiltonian) reps = Some a ->
  run_vqe hamiltonian ansatz_type reps maxiter seed w = (r, w1, t) ->
  match r with
  | Returned _ =>
      rejection a maxiter = None /\
      forall ev, In ev t -> raised_by ev = None
  | Raised e =>
      (rejection a maxiter = Some e /\ t = [] /\ w1 = w) \/
      (rejection a maxiter = None /\
       exists t0 ev, t = t0 ++ [ev] /\ raised_by ev = Some e /\
                     forall ev0, In ev0 t0 -> raised_by ev0 = None)
  end.
Proof.
  intros Ha. rewrite run_vqe_unfold, Ha.
  destruct (rejection a maxiter) as [e0|].
  - intros H. injection H as <- <- <-. left. auto.
  - intros H. pose proof (transparent_optimise _ _ _ _ _ _ _ _ _ H) as Ht.
    destruct r as [out|e]; [split; [reflexivity|exact Ht]|].
    right. split; [reflexivity|exact Ht].
Qed.

(** X4. What a successful run returns.  The ansatz is the one the name
    stands for, built on the operator's qubit count with the given
    repetitions; the optimizer is COBYLA capped at [maxiter]; the operator
    minimised is the argument; the energy is the real part of the
    eigenvalue the library found; the history holds the objective value of
    every invocation of the hook, in order, one entry per invocation; and
    the name and the ansatz's parameter count are echoed. *)
Theorem run_vqe_returns (hamiltonian : SparsePauliOp) (ansatz_type : string)
    (reps maxiter seed : Z) (w w1 : World) (out : vqe_output) (t : list event) :
  run_vqe hamiltonian ansatz_type reps maxiter seed w = (Returned out, w1, t) ->
  exists a rng x evals result,
    ansatz_named ansatz_type (num_qubits hamiltonian) reps = Some a /\
    t = [DefaultRng seed (Returned rng);
         Uniform rng (- np_pi)%float np_pi (num_parameters a) (Returned x);
         VqeCompute (VQE Estimator a (COBYLA maxiter) (Some x)) hamiltonian
                    evals (Returned result)] /\
    energy out = real (eigenvalue result) /\
    optimal_params out = optimal_parameters result /\
    energy_history out = map value evals /\
    length (energy_history out) = length evals /\
    num_params out = num_parameters a /\
    out_ansatz_type out = ansatz_type.
Proof.
  rewrite run_vqe_unfold.
  destruct (ansatz_named ansatz_type (num_qubits hamiltonian) reps) as [a|];
    [|discriminate].
  destruct (rejection a maxiter) as [e|]; [discriminate|].
  unfold optimise.
  destruct (default_rng seed w) as [[rng|e] wa]; [|discriminate].
  destruct (uniform rng _ _ _ wa) as [[x|e] wb]; [|discriminate].
  destruct (vqe_compute_minimum_eigenvalue _ hamiltonian wb)
    as [[evals [result|e]] wc]; [|discriminate].
  intros H. injection H as <- _ <-. cbn.
  exists a, rng, x, evals, result. rewrite length_map. repeat split; reflexivity.
Qed.

(** The recording hook only ever appends.  Whatever the history holds
    when the optimisation starts, after any sequence of hook invocations the
    old history is still there, unchanged, as a prefix; exactly one value per
    invocation has been added behind it, in invocation order; and recording
    two batches one after the other is recording their concatenation. *)
Lemma history_append_only (history : list float) (evals more : list evaluation) :
  fold_left callback evals history = history ++ map value evals /\
  history `prefix_of` fold_left callback evals history /\
  length (fold_left callback evals history) = (length history + length evals)%nat /\
  fold_left callback (evals ++ more) history
  = fold_left callback more (fold_left callback evals history).
Proof.
  split; [apply fold_callback|].
  split; [rewrite fold_callback; apply prefix_app_r; reflexivity|].
  split; [rewrite fold_callback, length_app, length_map; reflexivity|].
  apply fold_left_app.
Qed.

End RunnerMore.

(** ** The scanner *)

Section ScanProperties.
Context {L : Library}.

(** X5. Whether a scan finishes or is cut short, the builder has been
    called on an initial segment of the points, in order: no point is
    skipped, repeated or visited after a failure.  Per point the calls come
    in the order builder, runner, exact solver, so at any end the solver has
    been called at most as often as the runner, the runner at most as often
    as the builder, and the builder at most once more than the solver. *)
Theorem scan_calls_in_order
    (molecule_builder : float -> M (SparsePauliOp * ElectronicStructureProblem))
    (distances : list float) (ansatz_type : string) (reps maxiter seed : Z)
    (w : World) :
  let t := snd (scan_pes molecule_builder distances ansatz_type reps maxiter seed w) in
  builder_args t `prefix_of` distances /\
  (length (exact_ops t) <= length (vqe_seeds t))%nat /\
  (length (vqe_seeds t) <= length (builder_args t))%nat /\
  (length (builder_args t) <= length (exact_ops t) + 1)%nat.
Proof.
  cbn zeta.
  destruct (scan_pes molecule_builder distances ansatz_type reps maxiter seed w)
    as [[out w1] t] eqn:E.
  destruct (scan_pes_run _ _ _ _ _ _ _ _ _ _ E) as (r & Hrun & _).
  destruct (scan_run_order _ _ _ _ _ _ _ _ _ Hrun) as (Hp & H1 & H2 & H3 & _).
  cbn. auto.
Qed.

(** X6. At every point the runner is handed exactly the operator the
    builder returned for that point, and the exact solver, when it is
    reached, is handed that same operator: the two energies of a row are
    always computed on one Hamiltonian.  Every runner call carries the
    scan's ansatz name, repetitions and iteration cap unchanged. *)
Theorem scan_same_operator
    (molecule_builder : float -> M (SparsePauliOp * ElectronicStructureProblem))
    (distances : list float) (ansatz_type : string) (reps maxiter seed : Z)
    (w : World) :
  let t := snd (scan_pes molecule_builder distances ansatz_type reps maxiter seed w) in
  vqe_ops t = built_ops t /\
  exact_ops t `prefix_of` built_ops t /\
  Forall (fun c => c = (ansatz_type, reps, maxiter)) (vqe_configs t).
Proof.
  cbn zeta.
  destruct (scan_pes molecule_builder distances ansatz_type reps maxiter seed w)
    as [[out w1] t] eqn:E.
  destruct (scan_pes_run _ _ _ _ _ _ _ _ _ _ E) as (r & Hrun & _).
  destruct (scan_run_order _ _ _ _ _ _ _ _ _ Hrun) as (_ & _ & _ & _ & H).
  exact H.
Qed.

Lemma scan_run_raised ansatz_type reps maxiter seed i ds acc r t :
  scan_run ansatz_type reps maxiter seed i ds acc r t -> forall e,
  r = Raised e -> exists ev, last t = Some ev /\ failure ev = Some e.
Proof.
  induction 1 as [i acc| | | |i d rest acc s1 s2 tb q p tv out te ex r t w0 w1 Hv Hrun IH];
    intros e' Hr; try discriminate; try (injection Hr as <-; eexists; split; reflexivity).
  destruct (IH e' Hr) as (ev & Hlast & Hf). exists ev. split; [|exact Hf].
  destruct t as [|ev0 t]; [discriminate|]. exact Hlast.
Qed.

(** X7. The scan raises nothing of its own: whenever it ends with an
    exception, that exception is the one with which its last call (to the
    builder, the runner or the exact solver) ended. *)
Theorem scan_raises_only
    (molecule_builder : float -> M (SparsePauliOp * ElectronicStructureProblem))
    (distances : list float) (ansatz_type : string) (reps maxiter seed : Z)
    (w w1 : World) (e : exn) (t : list event) :
  scan_pes molecule_builder distances ansatz_type reps maxiter seed w
    = (Raised e, w1, t) ->
  exists ev, last t = Some ev /\ failure ev = Some e.
Proof.
  intros E. destruct (scan_pes_run _ _ _ _ _ _ _ _ _ _ E) as (r & Hrun & Hout).
  destruct r as [acc|e0]; [discriminate|]. injection Hout as ->.
  exact (scan_run_raised _ _ _ _ _ _ _ _ _ Hrun e0 eq_refl).
Qed.

(** X8. The seeds of one scan are pairwise distinct: no two points of a
    scan start their optimisation from the same seed. *)
Theorem scan_distinct_seeds
    (molecule_builder : float -> M (SparsePauliOp * ElectronicStructureProblem))
    (distances : list float) (ansatz_type : string) (reps maxiter seed : Z)
    (w : World) :
  NoDup (vqe_seeds
           (snd (scan_pes molecule_builder distances ansatz_type reps maxiter seed w))).
Proof.
  destruct (scan_pes molecule_builder distances ansatz_type reps maxiter seed w)
    as [[out w1] t] eqn:E.
  destruct (scan_pes_run _ _ _ _ _ _ _ _ _ _ E) as (r & Hrun & _).
  cbn [snd]. rewrite (scan_run_seeds _ _ _ _ _ _ _ _ _ Hrun).
  apply NoDup_fmap_2; [|apply NoDup_seq].
  intros k1 k2 Hk. lia.
Qed.

End ScanProperties.

Section ScanEdges.
Context {L : Library}.

Lemma ansatz_named_unsupported ansatz_type num_qubits reps :
  ansatz_type <> "RealAmplitudes" -> ansatz_type <> "EfficientSU2" ->
  ansatz_named ansatz_type num_qubits reps = None.
Proof.
  intros H1 H2.
  destruct (ansatz_named ansatz_type num_qubits reps) as [a|] eqn:E; [|reflexivity].
  assert (Hs : is_Some (ansatz_named ansatz_type num_qubits reps)) by (rewrite E; eauto).
  apply ansatz_named_supported in Hs as [?|?]; contradiction.
Qed.

(** X9. The scanner does not check the ansatz name itself.  With an
    unsupported name and at least one point, the first point's header is
    printed and the builder is run on the first point before anything is
    rejected; if that build succeeds, the runner's ValueError then ends the
    scan: the exact solver is never called and the remaining points are
    never built. *)
Theorem scan_unsupported_ansatz
    (molecule_builder : float -> M (SparsePauliOp * ElectronicStructureProblem))
    (d : float) (rest : list float) (ansatz_type : string) (reps maxiter seed : Z)
    (w w1 : World) (q : SparsePauliOp) (p : ElectronicStructureProblem)
    (tb : list event) :
  ansatz_type <> "RealAmplitudes" -> ansatz_type <> "EfficientSU2" ->
  molecule_builder d w = (Returned (q, p), w1, tb) ->
  let e := ValueError ("Unknown ansatz type: " ++ ansatz_type) in
  scan_pes molecule_builder (d :: rest) ansatz_type reps maxiter seed w
  = (Raised e, w1,
     [Stdout (header (S (length rest)) 0 d);
      Builder d tb (Returned (q, p));
      RunVqe q ansatz_type reps maxiter seed [] (Raised e)]).
Proof.
  intros H1 H2 Hb e.
  unfold scan_pes, np_array. unfold bind at 1. cbn [scan_loop length].
  unfold bind at 1. unfold scan_step, bind, frame, print, ret. cbn beta iota.
  rewrite Hb. cbn beta iota.
  rewrite run_vqe_unfold, (ansatz_named_unsupported _ _ _ H1 H2).
  cbn. rewrite Z.add_0_r. reflexivity.
Qed.

Lemma scan_exec_lines molecule_builder ansatz_type reps maxiter seed n i ds acc w r w1 t :
  scan_exec molecule_builder ansatz_type reps maxiter seed n i ds acc w r w1 t ->
  length (stdout t) = (length (builder_args t) + length (exact_eigenvalues t))%nat /\
  forall acc', r = Returned acc' ->
    exists vqe exact errs,
      vqe_energies acc' = vqe_energies acc ++ vqe /\
      exact_energies acc' = exact_energies acc ++ exact /\
      errors acc' = errors acc ++ errs /\
      stdout t = progress_lines n i ds vqe exact errs.
Proof.
  induction 1 as [i acc w| | |
                 |i d rest acc w q p w1 tb out w2 tv ex w3 te r w4 t Hb Hv He
                    nuc vqe_e exact_e Hrun IH].
  - split; [reflexivity|]. intros acc' Hr. injection Hr as <-.
    exists [], [], []. rewrite !app_nil_r. repeat split; reflexivity.
  - split; [reflexivity|]. discriminate.
  - split; [reflexivity|]. discriminate.
  - split; [reflexivity|]. discriminate.
  - destruct IH as [Hlen Hlines]. split.
    + unfold stdout, builder_args, exact_eigenvalues in *. cbn. lia.
    + intros acc' Hr. destruct (Hlines acc' Hr) as (vqe & exact & errs & H1 & H2 & H3 & H4).
      cbn in H1, H2, H3.
      exists (vqe_e :: vqe), (exact_e :: exact),
             (abs (vqe_e - exact_e)%float :: errs).
      rewrite H1, H2, H3, <- !app_assoc. repeat split; try reflexivity.
      unfold stdout in *. cbn. rewrite H4. reflexivity.
Qed.

(** X10. Progress output.  In every scan, finished or not, one header line
    is printed for each point that was started and one result line for each
    point that was completed, and nothing else.  For a scan that returns,
    the output is, point by point, the header "  [i+1/n] d = <d> ... "
    followed by the result line made of that point's entries of
    'vqe_energies', 'exact_energies' and 'errors' (the error times 1000). *)
Theorem scan_progress_output
    (molecule_builder : float -> M (SparsePauliOp * ElectronicStructureProblem))
    (distances : list float) (ansatz_type : string) (reps maxiter seed : Z)
    (w : World) :
  let run := scan_pes molecule_builder distances ansatz_type reps maxiter seed w in
  length (stdout (snd run))
  = (length (builder_args (snd run)) + length (exact_eigenvalues (snd run)))%nat /\
  forall tbl, fst (fst run) = Returned tbl ->
    exists vqe exact errs,
      tbl !! "vqe_energies" = Some vqe /\
      tbl !! "exact_energies" = Some exact /\
      tbl !! "errors" = Some errs /\
      stdout (snd run) = progress_lines (length distances) 0 distances vqe exact errs.
Proof.
  cbn zeta.
  destruct (scan_pes molecule_builder distances ansatz_type reps maxiter seed w)
    as [[out w1] t] eqn:E.
  destruct (scan_pes_exec _ _ _ _ _ _ _ _ _ _ E) as (r & Hexec & ->).
  destruct (scan_exec_lines _ _ _ _ _ _ _ _ _ _ _ _ _ Hexec) as [Hlen Hlines].
  cbn [fst snd]. split; [exact Hlen|].
  intros tbl Ht. destruct r as [acc|e]; [|discriminate]. injection Ht as <-.
  destruct (Hlines acc eq_refl) as (vqe & exact & errs & H1 & H2 & H3 & H4).
  cbn in H1, H2, H3.
  destruct (table_lookup distances acc) as (_ & Hv & He & Hr & _).
  exists vqe, exact, errs. rewrite Hv, He, Hr, H1, H2, H3. auto.
Qed.

End ScanEdges.

Section ScanComposition.
Context {L : Library}.

Lemma steady_compute v hamiltonian history :
  deterministic (vqe_compute_minimum_eigenvalue v hamiltonian) ->
  steady (compute_minimum_eigenvalue v hamiltonian history).
Proof.
  intros Hf w1 w2. unfold compute_minimum_eigenvalue.
  destruct (deterministic_eq _ w1 w2 Hf) as ([evals res] & v1 & v2 & -> & ->).
  split; reflexivity.
Qed.

Lemma steady_run_vqe hamiltonian ansatz_type reps maxiter seed :
  (forall s, deterministic (default_rng s)) ->
  (forall rng low high size, deterministic (uniform rng low high size)) ->
  (forall v h, deterministic (vqe_compute_minimum_eigenvalue v h)) ->
  steady (run_vqe hamiltonian ansatz_type reps maxiter seed).
Proof.
  intros Hrng Huniform Hvqe. unfold run_vqe.
  apply steady_bind.
  { destruct (String.eqb ansatz_type "RealAmplitudes"); [apply steady_construct|].
    destruct (String.eqb ansatz_type "EfficientSU2");
      [apply steady_construct|apply steady_raise]. }
  intros a. apply steady_bind; [apply steady_construct|].
  intros optimizer. apply steady_bind; [apply steady_construct|].
  intros estimator. apply steady_bind; [apply steady_construct|].
  intros v. apply steady_bind; [apply steady_call, Hrng|].
  intros rng. apply steady_bind; [apply steady_call, Huniform|].
  intros x. apply steady_bind; [apply steady_compute, Hvqe|].
  intros [history result]. apply steady_ret.
Qed.

Lemma steady_exact_energy hamiltonian :
  (forall s h, deterministic (solver_compute_minimum_eigenvalue s h)) ->
  steady (exact_energy hamiltonian).
Proof.
  intros Hsolver. unfold exact_energy.
  apply steady_bind; [apply steady_call, Hsolver|].
  intros result. apply steady_ret.
Qed.

Lemma steady_builders float_str d :
  (forall drv, deterministic (driver_run drv)) ->
  (forall tr p, deterministic (transformer_transform tr p)) ->
  (forall p, deterministic (second_q_op p)) ->
  (forall m op, deterministic (mapper_map m op)) ->
  steady (build_h2 float_str d) /\ steady (build_lih float_str d) /\
  steady (build_beh2 d).
Proof.
  intros Hd Ht Hs Hm. unfold build_h2, build_lih, build_beh2.
  repeat split;
    repeat first [ apply steady_ret
                 | apply steady_bind; [apply steady_call; auto|intros ?] ].
Qed.

(** X11. Reproducibility of a whole scan.  When the library calls of the
    runner and of the exact solver are functions of their arguments and the
    builder's outcome and calls do not depend on the state it is started in,
    two scans of the same points with the same configuration and base seed,
    started in any two states of the process, end alike and make the same
    calls with the same results: the same table, or the same exception at
    the same point. *)
Theorem scan_reproducible
    (Hrng : forall s, deterministic (default_rng s))
    (Huniform : forall rng low high size, deterministic (uniform rng low high size))
    (Hvqe : forall v h, deterministic (vqe_compute_minimum_eigenvalue v h))
    (Hsolver : forall s h, deterministic (solver_compute_minimum_eigenvalue s h))
    (molecule_builder : float -> M (SparsePauliOp * ElectronicStructureProblem))
    (Hbuilder : forall d, steady (molecule_builder d))
    (distances : list float) (ansatz_type : string) (reps maxiter seed : Z)
    (w1 w2 : World) :
  fst (fst (scan_pes molecule_builder distances ansatz_type reps maxiter seed w1))
  = fst (fst (scan_pes molecule_builder distances ansatz_type reps maxiter seed w2)) /\
  snd (scan_pes molecule_builder distances ansatz_type reps maxiter seed w1)
  = snd (scan_pes molecule_builder distances ansatz_type reps maxiter seed w2).
Proof.
  assert (Hloop : forall n ds i acc,
    steady (scan_loop molecule_builder ansatz_type reps maxiter seed n i ds acc)).
  { intros n ds. induction ds as [|d rest IH]; intros i acc; cbn [scan_loop].
    - apply steady_ret.
    - apply steady_bind; [|intros acc'; apply IH].
      unfold scan_step.
      apply steady_bind; [apply steady_print|]. intros _.
      apply steady_bind; [apply steady_frame, Hbuilder|]. intros [q p].
      apply steady_bind;
        [apply steady_frame, steady_run_vqe; assumption|]. intros out.
      apply steady_bind;
        [apply steady_frame, steady_exact_energy; assumption|]. intros ex.
      apply steady_bind; [apply steady_print|]. intros _. apply steady_ret. }
  assert (Hscan : steady (scan_pes molecule_builder distances ansatz_type
                            reps maxiter seed)).
  { unfold scan_pes. apply steady_bind; [apply Hloop|].
    intros acc. apply steady_ret. }
  exact (Hscan w1 w2).
Qed.

Lemma scan_exec_atoms molecule_builder (g : float -> string)
    ansatz_type reps maxiter seed n i ds acc w r w1 t :
  (forall d w, driver_atoms (snd (molecule_builder d w)) = [g d]) ->
  scan_exec molecule_builder ansatz_type reps maxiter seed n i ds acc w r w1 t ->
  builder_atoms t = map (fun d => [g d]) (builder_args t).
Proof.
  intros Hg.
  assert (Hin : forall d w r w1 tb, molecule_builder d w = (r, w1, tb) ->
                                    driver_atoms tb = [g d]).
  { intros d w0 r0 w2 tb E. specialize (Hg d w0). rewrite E in Hg. exact Hg. }
  induction 1 as [i acc w|i d rest acc w e w1 tb Hb
                 |i d rest acc w q p w1 tb e w2 tv Hb Hv
                 |i d rest acc w q p w1 tb out w2 tv e w3 te Hb Hv He
                 |i d rest acc w q p w1 tb out w2 tv ex w3 te r w4 t Hb Hv He
                    nuc vqe_e exact_e Hrun IH];
    unfold builder_atoms, builder_args in *; cbn;
    try rewrite (Hin _ _ _ _ _ Hb); try rewrite IH; reflexivity.
Qed.

Lemma driver_atoms_builders float_str d w :
  driver_atoms (snd (build_h2 float_str d w)) = [h2_atom_string float_str d] /\
  driver_atoms (snd (build_lih float_str d w)) = [lih_atom_string float_str d] /\
  driver_atoms (snd (build_beh2 d w)) = [beh2_atom_string d].
Proof.
  unfold build_h2, build_lih, build_beh2, bind, call, ret. repeat split.
  - destruct (driver_run _ w) as [[p0|e] wa]; [|reflexivity].
    destruct (second_q_op p0 wa) as [[f|e] wb]; [|reflexivity].
    destruct (mapper_map _ f wb) as [[q0|e] wc]; reflexivity.
  - destruct (driver_run _ w) as [[p0|e] wa]; [|reflexivity].
    destruct (transformer_transform _ p0 wa) as [[p1|e] wb]; [|reflexivity].
    destruct (second_q_op p1 wb) as [[f|e] wc]; [|reflexivity].
    destruct (mapper_map _ f wc) as [[q0|e] wd]; reflexivity.
  - destruct (driver_run _ w) as [[p0|e] wa]; [|reflexivity].
    destruct (transformer_transform _ p0 wa) as [[p1|e] wb]; [|reflexivity].
    destruct (second_q_op p1 wb) as [[f|e] wc]; [|reflexivity].
    destruct (mapper_map _ f wc) as [[q0|e] wd]; reflexivity.
Qed.

(** X12. Scanning with one of the repository's builders.  In a scan driven
    by [build_h2], [build_lih] or [build_beh2], every builder call runs the
    driver exactly once, whether or not it then succeeds, and the k-th
    driver run is on the coordinate string of the k-th scanned point: for
    BeH2 the geometry of the k-th angle, for H2 and LiH the second atom at
    the k-th distance on the z axis. *)
Theorem scan_geometries (float_str : float -> string)
    (distances : list float) (ansatz_type : string) (reps maxiter seed : Z)
    (w : World) :
  let atoms_of builder :=
    builder_atoms (snd (scan_pes builder distances ansatz_type reps maxiter seed w)) in
  let points_of builder :=
    builder_args (snd (scan_pes builder distances ansatz_type reps maxiter seed w)) in
  atoms_of (build_h2 float_str)
  = map (fun d => [h2_atom_string float_str d]) (points_of (build_h2 float_str)) /\
  atoms_of (build_lih float_str)
  = map (fun d => [lih_atom_string float_str d]) (points_of (build_lih float_str)) /\
  atoms_of build_beh2
  = map (fun d => [beh2_atom_string d]) (points_of build_beh2).
Proof.
  cbn zeta.
  assert (Hgen : forall builder g,
    (forall d w, driver_atoms (snd (builder d w)) = [g d]) ->
    builder_atoms (snd (scan_pes builder distances ansatz_type reps maxiter seed w))
    = map (fun d => [g d])
        (builder_args (snd (scan_pes builder distances ansatz_type reps maxiter seed w)))).
  { intros builder g Hg.
    destruct (scan_pes builder distances ansatz_type reps maxiter seed w)
      as [[out w1] t] eqn:E.
    destruct (scan_pes_exec _ _ _ _ _ _ _ _ _ _ E) as (r & Hexec & _).
    exact (scan_exec_atoms _ g _ _ _ _ _ _ _ _ _ _ _ _ Hg Hexec). }
  repeat split; apply Hgen; intros d w0; apply (driver_atoms_builders float_str d w0).
Qed.

End ScanComposition.

(** ** Plotting *)

Section PlotComposition.
Context {P : Matplotlib}.

Lemma guarded_pret {A} own (a : A) : plot_guarded own (pret a).
Proof. intros w r w1 t H. injection H as <- _ <-. intros ev []. Qed.

Lemma guarded_praise {A} (own : exn -> Prop) e :
  own e -> plot_guarded own (@praise _ A e).
Proof.
  intros He w r w1 t H. injection H as <- _ <-. right. split; [exact He|].
  intros ev [].
Qed.

Lemma guarded_invoke own callee args kwargs :
  plot_guarded own (invoke callee args kwargs).
Proof.
  intros w r w1 t H. unfold invoke in H.
  destruct (mpl_invoke callee args kwargs w) as [[u|e] w0]; injection H as <- _ <-.
  - intros ev [<-|[]]. reflexivity.
  - left. exists [], (Invoke callee args kwargs (Raised e)).
    repeat split. intros ev [].
Qed.

Lemma guarded_subplots own args kwargs : plot_guarded own (subplots args kwargs).
Proof.
  intros w r w1 t H. unfold subplots in H.
  destruct (mpl_subplots args kwargs w) as [[u|e] w0]; injection H as <- _ <-.
  - intros ev [<-|[]]. reflexivity.
  - left. exists [], (Subplots args kwargs (Raised e)).
    repeat split. intros ev [].
Qed.

Lemma guarded_getitem own o i : plot_guarded own (getitem o i).
Proof.
  intros w r w1 t H. unfold getitem in H.
  destruct (mpl_getitem o i w) as [[u|e] w0]; injection H as <- _ <-.
  - intros ev [<-|[]]. reflexivity.
  - left. exists [], (GetItem o i (Raised e)).
    repeat split. intros ev [].
Qed.

Lemma guarded_getkey (own : exn -> Prop) results key :
  (results !! key = None -> own (KeyError key)) ->
  plot_guarded own (getkey results key).
Proof.
  intros Hown. unfold getkey. destruct (results !! key) as [column|].
  - apply guarded_pret.
  - apply guarded_praise. auto.
Qed.

Lemma guarded_bind {A B} own (m : PM A) (k : A -> PM B) :
  plot_guarded own m -> (forall a, plot_guarded own (k a)) ->
  plot_guarded own (pbind m k).
Proof.
  intros Hm Hk w r w1 t H. unfold pbind in H.
  destruct (m w) as [[[a|e] wm] tm] eqn:Em.
  - destruct (k a wm) as [[rk wk] tk] eqn:Ek. injection H as <- _ <-.
    pose proof (Hm _ _ _ _ Em) as Hm1. pose proof (Hk a _ _ _ _ Ek) as Hk1.
    cbn in Hm1. destruct rk as [b|e].
    + intros ev Hin. apply in_app_or in Hin as [Hin|Hin]; auto.
    + destruct Hk1 as [(t0 & ev & -> & Hev & Hnone)|[Hown Hnone]].
      * left. exists (tm ++ t0), ev. split; [now rewrite app_assoc|].
        split; [exact Hev|].
        intros ev0 Hin. apply in_app_or in Hin as [Hin|Hin]; auto.
      * right. split; [exact Hown|].
        intros ev Hin. apply in_app_or in Hin as [Hin|Hin]; auto.
  - injection H as <- _ <-. exact (Hm _ _ _ _ Em).
Qed.

Lemma guarded_weaken {A} (own own' : exn -> Prop) (m : PM A) :
  (forall e, own e -> own' e) -> plot_guarded own m -> plot_guarded own' m.
Proof.
  intros Hsub Hm w r w1 t H. specialize (Hm w r w1 t H).
  destruct r as [a|e]; [exact Hm|].
  destruct Hm as [Hlib|[Hown Hnone]]; [left; exact Hlib|right; auto].
Qed.

Lemma guarded_bind_praise {A B} (own : exn -> Prop) e (k : A -> PM B) :
  own e -> plot_guarded own (pbind (praise e) k).
Proof.
  intros He w r w1 t H. injection H as <- _ <-. right. split; [exact He|].
  intros ev [].
Qed.

Lemma guarded_bind_pret {A B} (own : exn -> Prop) (a : A) (k : A -> PM B) :
  plot_guarded own (k a) -> plot_guarded own (pbind (pret a) k).
Proof.
  intros Hk w r w1 t H. unfold pbind, pret in H.
  destruct (k a w) as [[rk wk] tk] eqn:Ek. injection H as <- _ <-.
  exact (Hk _ _ _ _ Ek).
Qed.

Lemma missing_key_intro results keys key :
  In key keys -> results !! key = None -> missing_key results keys (KeyError key).
Proof. intros Hin Hnone. exists key. auto. Qed.

End PlotComposition.

(** Steps through a plotting function, one call at a time. *)
Ltac guarded_steps solve_key :=
  repeat first
    [ apply guarded_pret
    | apply guarded_invoke
    | apply guarded_subplots
    | apply guarded_getitem
    | apply guarded_getkey; solve_key
    | match goal with
      | |- plot_guarded _ (match ?x with pair _ _ => _ end) => destruct x
      end
    | apply guarded_bind; [|intros ?] ].

Ltac key_of_table :=
  let H := fresh in
  intros H; apply missing_key_intro; [cbn; tauto | exact H].

Section PlotExceptions.
Context {P : Matplotlib}.

Lemma guarded_molecules_array own array items : forall i,
  (forall it, In it items ->
     forall e, missing_key (snd it) ["distances"; "exact_energies"; "vqe_energies"] e ->
               own e) ->
  plot_guarded own (plot_molecules (inr array) i items).
Proof.
  induction items as [|[name results] rest IH]; intros i Hown; cbn [plot_molecules].
  - apply guarded_pret.
  - assert (Hhere : forall e,
      missing_key results ["distances"; "exact_energies"; "vqe_energies"] e -> own e).
    { intros e. apply (Hown (name, results)). left. reflexivity. }
    unfold axes_at.
    guarded_steps ltac:(let H := fresh in
                        intros H; apply Hhere, missing_key_intro;
                        [cbn; tauto | exact H]).
    apply IH. intros it Hin. apply Hown. right. exact Hin.
Qed.

Lemma guarded_vqe_curves own ax distances items :
  (forall it, In it items ->
     forall e, missing_key (snd it) table_keys_read e -> own e) ->
  plot_guarded own (plot_vqe_curves ax distances items).
Proof.
  induction items as [|[name results] rest IH]; intros Hown; cbn [plot_vqe_curves].
  - apply guarded_pret.
  - assert (Hhere : forall e, missing_key results table_keys_read e -> own e).
    { intros e. apply (Hown (name, results)). left. reflexivity. }
    guarded_steps ltac:(let H := fresh in
                        intros H; apply Hhere, missing_key_intro;
                        [cbn; tauto | exact H]).
    apply IH. intros it Hin. apply Hown. right. exact Hin.
Qed.

Lemma guarded_error_curves own ax distances items :
  (forall it, In it items ->
     forall e, missing_key (snd it) table_keys_read e -> own e) ->
  plot_guarded own (plot_error_curves ax distances items).
Proof.
  induction items as [|[name results] rest IH]; intros Hown; cbn [plot_error_curves].
  - apply guarded_pret.
  - assert (Hhere : forall e, missing_key results table_keys_read e -> own e).
    { intros e. apply (Hown (name, results)). left. reflexivity. }
    guarded_steps ltac:(let H := fresh in
                        intros H; apply Hhere, missing_key_intro;
                        [cbn; tauto | exact H]).
    apply IH. intros it Hin. apply Hown. right. exact Hin.
Qed.

(** X13. The only exceptions the plotting functions raise themselves are
    lookups that fail; every other exception is the one raised by the last
    matplotlib call made, passed on unchanged.  [plot_pes] can raise KeyError
    only for 'distances', 'exact_energies' or 'vqe_energies';
    [plot_energy_error] only for 'distances' or 'errors';
    [plot_multi_molecule_comparison] only for one of the three energy-plot
    keys missing from one of the tables; [plot_ansatz_comparison] only for
    one of those keys or 'errors' missing from one of the tables, or
    IndexError when it is given no table at all.  No function ever reads
    'nuclear_repulsions'. *)
Theorem plot_exceptions (results : gmap string (list float))
    (items : list (string * gmap string (list float)))
    (molecule_name save_dir : string) :
  plot_guarded (missing_key results ["distances"; "exact_energies"; "vqe_energies"])
    (plot_pes results molecule_name save_dir) /\
  plot_guarded (missing_key results ["distances"; "errors"])
    (plot_energy_error results molecule_name save_dir) /\
  plot_guarded
    (fun e => exists it, In it items /\
       missing_key (snd it) ["distances"; "exact_energies"; "vqe_energies"] e)
    (plot_multi_molecule_comparison items save_dir) /\
  plot_guarded
    (fun e => (items = [] /\ e = IndexError "list index out of range") \/
              exists it, In it items /\ missing_key (snd it) table_keys_read e)
    (plot_ansatz_comparison items molecule_name save_dir).
Proof.
  split; [|split; [|split]].
  - unfold plot_pes. cbv zeta. guarded_steps key_of_table.
  - unfold plot_energy_error. cbv zeta. guarded_steps key_of_table.
  - unfold plot_multi_molecule_comparison. cbv zeta.
    apply guarded_bind; [apply guarded_invoke|]. intros _.
    apply guarded_bind; [apply guarded_subplots|]. intros [fig axes].
    apply guarded_bind; [|intros _; guarded_steps idtac].
    destruct (Nat.eqb_spec (length items) 1) as [Hone|Hmany].
    + destruct items as [|[name results0] [|]]; try discriminate.
      cbn [plot_molecules]. unfold axes_at. cbn [lookup list_lookup].
      guarded_steps ltac:(let H := fresh in
                          intros H; exists (name, results0);
                          split; [left; reflexivity|];
                          apply missing_key_intro; [cbn; tauto | exact H]).
    + apply guarded_molecules_array. intros it Hin e He. exists it. auto.
  - unfold plot_ansatz_comparison. cbv zeta.
    apply guarded_bind; [apply guarded_invoke|]. intros _.
    apply guarded_bind; [apply guarded_subplots|]. intros [fig axes].
    apply guarded_bind; [apply guarded_getitem|]. intros ax.
    destruct items as [|[first_key first] rest].
    { apply guarded_bind_praise. left. auto. }
    cbv beta iota.
    set (items := (first_key, first) :: rest).
    assert (Hfirst : In (first_key, first) items) by (left; reflexivity).
    clearbody items.
    apply guarded_bind_pret.
    guarded_steps ltac:(let H := fresh in
                        intros H; right; exists (first_key, first);
                        split; [exact Hfirst|];
                        apply missing_key_intro; [cbn; tauto | exact H]).
    + apply guarded_vqe_curves. intros it Hin e He. right. exists it. auto.
    + apply guarded_error_curves. intros it Hin e He. right. exists it. auto.
Qed.

End PlotExceptions.

Section PlotResources.
Context {P : Matplotlib}.

Lemma invoked_app callee (t1 t2 : list plot_event) :
  invoked callee (t1 ++ t2) = invoked callee t1 ++ invoked callee t2.
Proof. apply omap_app. Qed.

Lemma opened_app (t1 t2 : list plot_event) :
  opened (t1 ++ t2) = (opened t1 + opened t2)%nat.
Proof. unfold opened. now rewrite omap_app, length_app. Qed.

Lemma never_pret {A} callee (a : A) : never callee (pret a).
Proof. intros w r w1 t H. injection H as _ _ <-. reflexivity. Qed.

Lemma never_praise {A} callee e : never callee (@praise _ A e).
Proof. intros w r w1 t H. injection H as _ _ <-. reflexivity. Qed.

Lemma never_getkey callee results key : never callee (getkey results key).
Proof.
  unfold getkey. destruct (results !! key); [apply never_pret|apply never_praise].
Qed.

Lemma never_getitem callee o i : never callee (getitem o i).
Proof.
  intros w r w1 t H. unfold getitem in H. destruct (mpl_getitem o i w) as [r0 w0].
  injection H as _ _ <-. reflexivity.
Qed.

Lemma never_subplots callee args kwargs : never callee (subplots args kwargs).
Proof.
  intros w r w1 t H. unfold subplots in H.
  destruct (mpl_subplots args kwargs w) as [r0 w0].
  injection H as _ _ <-. reflexivity.
Qed.

Lemma never_invoke callee name args kwargs :
  String.eqb name callee = false -> never callee (invoke name args kwargs).
Proof.
  intros Hne w r w1 t H. unfold invoke in H.
  destruct (mpl_invoke name args kwargs w) as [[u|e] w0]; injection H as _ _ <-;
    unfold invoked; cbn; [rewrite Hne|]; reflexivity.
Qed.

Lemma never_bind {A B} callee (m : PM A) (k : A -> PM B) :
  never callee m -> (forall a, never callee (k a)) -> never callee (pbind m k).
Proof.
  intros Hm Hk w r w1 t H. unfold pbind in H.
  destruct (m w) as [[[a|e] wm] tm] eqn:Em.
  - destruct (k a wm) as [[rk wk] tk] eqn:Ek. injection H as _ _ <-.
    rewrite invoked_app, (Hm _ _ _ _ Em), (Hk a _ _ _ _ Ek). reflexivity.
  - injection H as _ _ <-. exact (Hm _ _ _ _ Em).
Qed.

Lemma opens_nothing_pret {A} (a : A) : opens_nothing (pret a).
Proof. intros w r w1 t H. injection H as _ _ <-. reflexivity. Qed.

Lemma opens_nothing_praise {A} e : opens_nothing (@praise _ A e).
Proof. intros w r w1 t H. injection H as _ _ <-. reflexivity. Qed.

Lemma opens_nothing_getkey results key : opens_nothing (getkey results key).
Proof.
  unfold getkey.
  destruct (results !! key); [apply opens_nothing_pret|apply opens_nothing_praise].
Qed.

Lemma opens_nothing_getitem o i : opens_nothing (getitem o i).
Proof.
  intros w r w1 t H. unfold getitem in H. destruct (mpl_getitem o i w) as [r0 w0].
  injection H as _ _ <-. reflexivity.
Qed.

Lemma opens_nothing_invoke name args kwargs : opens_nothing (invoke name args kwargs).
Proof.
  intros w r w1 t H. unfold invoke in H.
  destruct (mpl_invoke name args kwargs w) as [r0 w0].
  injection H as _ _ <-. reflexivity.
Qed.

Lemma opens_nothing_bind {A B} (m : PM A) (k : A -> PM B) :
  opens_nothing m -> (forall a, opens_nothing (k a)) -> opens_nothing (pbind m k).
Proof.
  intros Hm Hk w r w1 t H. unfold pbind in H.
  destruct (m w) as [[[a|e] wm] tm] eqn:Em.
  - destruct (k a wm) as [[rk wk] tk] eqn:Ek. injection H as _ _ <-.
    rewrite opened_app, (Hm _ _ _ _ Em), (Hk a _ _ _ _ Ek). reflexivity.
  - injection H as _ _ <-. exact (Hm _ _ _ _ Em).
Qed.

Lemma closes_close : closes_on_return (invoke "pyplot.close" [] []).
Proof.
  intros w r w1 t H. unfold invoke in H.
  destruct (mpl_invoke _ _ _ w) as [[u|e] w0]; injection H as <- _ <-; reflexivity.
Qed.

Lemma closes_bind {A B} (m : PM A) (k : A -> PM B) :
  never "pyplot.close" m -> (forall a, closes_on_return (k a)) ->
  closes_on_return (pbind m k).
Proof.
  intros Hm Hk w r w1 t H. unfold pbind in H.
  destruct (m w) as [[[a|e] wm] tm] eqn:Em.
  - destruct (k a wm) as [[rk wk] tk] eqn:Ek. injection H as <- _ <-.
    unfold closed. rewrite invoked_app, (Hm _ _ _ _ Em). exact (Hk a _ _ _ _ Ek).
  - injection H as <- _ <-. unfold closed. now rewrite (Hm _ _ _ _ Em).
Qed.

Lemma figure_scoped_intro {A} name args kwargs sargs skwargs
    (tail : PyObject * PyObject -> PM A) :
  String.eqb name "pyplot.close" = false ->
  (forall p, opens_nothing (tail p)) ->
  (forall p, closes_on_return (tail p)) ->
  figure_scoped (pbind (invoke name args kwargs)
                       (fun _ => pbind (subplots sargs skwargs) tail)).
Proof.
  intros Hne Hopen Hclose w r w1 t H. unfold pbind at 1 in H.
  destruct (invoke name args kwargs w) as [[[u|e] wa] ta] eqn:Ea.
  2:{ injection H as <- _ <-.
      rewrite (opens_nothing_invoke _ _ _ _ _ _ _ Ea). unfold closed.
      rewrite (never_invoke _ _ _ _ Hne _ _ _ _ Ea). split; [lia|reflexivity]. }
  unfold pbind in H.
  destruct (subplots sargs skwargs wa) as [[[p|e] wb] tb] eqn:Eb.
  2:{ injection H as <- _ <-. unfold closed.
      rewrite opened_app, invoked_app, (opens_nothing_invoke _ _ _ _ _ _ _ Ea),
        (never_invoke _ _ _ _ Hne _ _ _ _ Ea), (never_subplots _ _ _ _ _ _ _ Eb).
      unfold subplots in Eb. destruct (mpl_subplots sargs skwargs wa) as [rs ws].
      injection Eb as -> _ <-. split; [cbn; lia|reflexivity]. }
  destruct (tail p wb) as [[rt wt] tt] eqn:Et. injection H as <- _ <-.
  unfold closed.
  rewrite !opened_app, !invoked_app, (opens_nothing_invoke _ _ _ _ _ _ _ Ea),
    (never_invoke _ _ _ _ Hne _ _ _ _ Ea), (never_subplots _ _ _ _ _ _ _ Eb),
    (Hopen p _ _ _ _ Et).
  pose proof (Hclose p _ _ _ _ Et) as Hc. unfold closed in Hc.
  unfold subplots in Eb. destruct (mpl_subplots sargs skwargs wa) as [rs ws].
  injection Eb as -> _ <-. cbn. split; [lia|].
  destruct rt; cbn; [split; [reflexivity|exact Hc]|exact Hc].
Qed.

Lemma never_axes_at callee axes i : never callee (axes_at axes i).
Proof.
  unfold axes_at. destruct axes as [wrapped|array]; [|apply never_getitem].
  destruct (wrapped !! i); [apply never_pret|apply never_praise].
Qed.

Lemma opens_nothing_axes_at axes i : opens_nothing (axes_at axes i).
Proof.
  unfold axes_at. destruct axes as [wrapped|array]; [|apply opens_nothing_getitem].
  destruct (wrapped !! i); [apply opens_nothing_pret|apply opens_nothing_praise].
Qed.

Ltac never_steps :=
  repeat first
    [ apply never_pret
    | apply never_getkey
    | apply never_getitem
    | apply never_axes_at
    | apply never_subplots
    | apply never_invoke; reflexivity
    | match goal with
      | |- never _ (match ?x with pair _ _ => _ end) => destruct x
      end
    | apply never_bind; [|intros ?] ].

Ltac opens_nothing_steps :=
  repeat first
    [ apply opens_nothing_pret
    | apply opens_nothing_getkey
    | apply opens_nothing_getitem
    | apply opens_nothing_axes_at
    | apply opens_nothing_invoke
    | apply opens_nothing_bind; [|intros ?] ].

Lemma never_molecules callee axes items : forall i,
  callee = "pyplot.close" \/ callee = "pyplot.savefig" ->
  never callee (plot_molecules axes i items).
Proof.
  induction items as [|[name results] rest IH]; intros i Hc; cbn [plot_molecules].
  - apply never_pret.
  - pose proof (IH (S i) Hc). destruct Hc as [-> | ->]; never_steps; assumption.
Qed.

Lemma never_vqe_curves callee ax distances items :
  callee = "pyplot.close" \/ callee = "pyplot.savefig" ->
  never callee (plot_vqe_curves ax distances items).
Proof.
  intros Hc. induction items as [|[name results] rest IH]; cbn [plot_vqe_curves].
  - apply never_pret.
  - destruct Hc as [-> | ->]; never_steps; assumption.
Qed.

Lemma never_error_curves callee ax distances items :
  callee = "pyplot.close" \/ callee = "pyplot.savefig" ->
  never callee (plot_error_curves ax distances items).
Proof.
  intros Hc. induction items as [|[name results] rest IH]; cbn [plot_error_curves].
  - apply never_pret.
  - destruct Hc as [-> | ->]; never_steps; assumption.
Qed.

Lemma opens_nothing_molecules axes items : forall i,
  opens_nothing (plot_molecules axes i items).
Proof.
  induction items as [|[name results] rest IH]; intros i; cbn [plot_molecules].
  - apply opens_nothing_pret.
  - opens_nothing_steps. apply IH.
Qed.

Lemma opens_nothing_vqe_curves ax distances items :
  opens_nothing (plot_vqe_curves ax distances items).
Proof.
  induction items as [|[name results] rest IH]; cbn [plot_vqe_curves].
  - apply opens_nothing_pret.
  - opens_nothing_steps. apply IH.
Qed.

Lemma opens_nothing_error_curves ax distances items :
  opens_nothing (plot_error_curves ax distances items).
Proof.
  induction items as [|[name results] rest IH]; cbn [plot_error_curves].
  - apply opens_nothing_pret.
  - opens_nothing_steps. apply IH.
Qed.

Ltac loop_free :=
  first [ apply never_molecules; auto
        | apply never_vqe_curves; auto
        | apply never_error_curves; auto
        | apply opens_nothing_molecules
        | apply opens_nothing_vqe_curves
        | apply opens_nothing_error_curves ].

Ltac closes_steps :=
  repeat first
    [ apply closes_close
    | match goal with
      | |- closes_on_return (match ?x with pair _ _ => _ end) => destruct x
      end
    | apply closes_bind; [ first [ loop_free | never_steps ] | intros ? ] ].

(** X14. Every plotting function creates at most one figure and closes it
    exactly when it returns.  Whenever a function raises after the figure was
    created (a key is missing, a matplotlib call fails, the dictionary is
    empty), [plt.close()] has not been run: the figure stays open. *)
Theorem plot_figure_scope (results : gmap string (list float))
    (items : list (string * gmap string (list float)))
    (molecule_name save_dir : string) :
  figure_scoped (plot_pes results molecule_name save_dir) /\
  figure_scoped (plot_energy_error results molecule_name save_dir) /\
  figure_scoped (plot_multi_molecule_comparison items save_dir) /\
  figure_scoped (plot_ansatz_comparison items molecule_name save_dir).
Proof.
  split; [|split; [|split]].
  - unfold plot_pes. cbv zeta. apply figure_scoped_intro; [reflexivity|..];
      intros [fig ax]; [opens_nothing_steps|closes_steps].
  - unfold plot_energy_error. cbv zeta. apply figure_scoped_intro; [reflexivity|..];
      intros [fig ax]; [opens_nothing_steps|closes_steps].
  - unfold plot_multi_molecule_comparison. cbv zeta.
    apply figure_scoped_intro; [reflexivity|..]; intros [fig axes].
    + apply opens_nothing_bind; [loop_free|]. intros _. opens_nothing_steps.
    + closes_steps.
  - unfold plot_ansatz_comparison. cbv zeta.
    apply figure_scoped_intro; [reflexivity|..]; intros [fig axes].
    + apply opens_nothing_bind; [apply opens_nothing_getitem|]. intros ax.
      apply opens_nothing_bind.
      { destruct items as [|[k v] rest];
          [apply opens_nothing_praise|apply opens_nothing_pret]. }
      intros first. opens_nothing_steps; loop_free.
    + apply closes_bind; [apply never_getitem|]. intros ax.
      apply closes_bind.
      { destruct items as [|[k v] rest]; [apply never_praise|apply never_pret]. }
      intros first. closes_steps.
Qed.

End PlotResources.

Section PlotFiles.
Context {P : Matplotlib}.

Lemma saved_app (t1 t2 : list plot_event) : saved (t1 ++ t2) = saved t1 ++ saved t2.
Proof. unfold saved. now rewrite invoked_app, omap_app. Qed.

Lemma never_saved {A} (m : PM A) w r w1 t :
  never "pyplot.savefig" m -> m w = (r, w1, t) -> saved t = [].
Proof. intros Hm H. unfold saved. now rewrite (Hm _ _ _ _ H). Qed.

Lemma writes_bind {A B} target (m : PM A) (k : A -> PM B) :
  never "pyplot.savefig" m -> (forall a, writes target (k a)) ->
  writes target (pbind m k).
Proof.
  intros Hm Hk w r w1 t H. unfold pbind in H.
  destruct (m w) as [[[a|e] wm] tm] eqn:Em.
  - destruct (k a wm) as [[rk wk] tk] eqn:Ek. injection H as <- _ <-.
    rewrite saved_app, (never_saved _ _ _ _ _ Hm Em). exact (Hk a _ _ _ _ Ek).
  - injection H as <- _ <-. rewrite (never_saved _ _ _ _ _ Hm Em). auto.
Qed.

Lemma writes_save {B} target rest kwargs (k : unit -> PM B) :
  (forall a, never "pyplot.savefig" (k a)) ->
  writes target (pbind (invoke "pyplot.savefig" (PPath target :: rest) kwargs) k).
Proof.
  intros Hk w r w1 t H. unfold pbind, invoke in H.
  destruct (mpl_invoke _ _ _ w) as [[u|e] w0].
  - destruct (k u w0) as [[rk wk] tk] eqn:Ek. injection H as <- _ <-.
    match goal with
    | |- context [saved (?ev :: tk)] =>
        replace (saved (ev :: tk)) with (saved [ev] ++ saved tk)
          by (symmetry; apply (saved_app [ev] tk))
    end.
    rewrite (never_saved _ _ _ _ _ (Hk u) Ek). cbn.
    split; [right; reflexivity|]. destruct rk; auto.
  - injection H as <- _ <-. cbn. auto.
Qed.

Ltac never_save :=
  first [ apply never_molecules; right; reflexivity
        | apply never_vqe_curves; right; reflexivity
        | apply never_error_curves; right; reflexivity
        | repeat first
            [ apply never_pret
            | apply never_getkey
            | apply never_getitem
            | apply never_axes_at
            | apply never_subplots
            | apply never_invoke; reflexivity
            | match goal with
              | |- never _ (match ?x with pair _ _ => _ end) => destruct x
              end
            | apply never_bind; [|intros ?] ] ].

Ltac writes_steps :=
  repeat first
    [ apply writes_save; intros ?; apply never_invoke; reflexivity
    | match goal with
      | |- writes _ (match ?x with pair _ _ => _ end) => destruct x
      end
    | apply writes_bind; [ never_save | intros ? ] ].

Lemma has_space_app (a b : string) :
  has_space (a ++ b) = has_space a || has_space b.
Proof.
  unfold has_space. induction a as [|c a IH]; [reflexivity|].
  change (String c a ++ b)%string with (String c (a ++ b)%string).
  cbn [list_ascii_of_string existsb]. rewrite IH. now rewrite orb_assoc.
Qed.

Lemma replace_spaces_clean (s : string) : has_space (replace_spaces s) = false.
Proof.
  unfold has_space. induction s as [|c s IH]; [reflexivity|].
  cbn [replace_spaces list_ascii_of_string existsb]. rewrite IH, orb_false_r.
  destruct (Ascii.eqb_spec c (Ascii.ascii_of_nat 32)) as [->|Hne]; [reflexivity|].
  now apply Ascii.eqb_neq.
Qed.

(** X15. Each plotting function writes at most one file and, when it
    returns, has written exactly one, directly under the save directory:
    pes_<name>.png, energy_error_<name>.png (energy_error.png when the name
    is empty), multi_molecule_comparison.png and ansatz_comparison_<name>.png,
    where <name> is the lower-cased molecule name.  In the first two the
    spaces of the name are replaced by underscores, so the file name never
    contains a space, whatever the molecule name; the ansatz comparison keeps
    the name's spaces. *)
Theorem plot_files (results : gmap string (list float))
    (items : list (string * gmap string (list float)))
    (molecule_name save_dir : string) :
  let pes_file :=
    ("pes_" ++ replace_spaces (str_lower molecule_name) ++ ".png")%string in
  let error_file :=
    if String.eqb molecule_name "" then "energy_error.png"
    else ("energy_error_" ++ replace_spaces (str_lower molecule_name) ++ ".png")%string in
  let ansatz_file :=
    ("ansatz_comparison_" ++ str_lower molecule_name ++ ".png")%string in
  writes (PathDiv (Path save_dir) pes_file)
    (plot_pes results molecule_name save_dir) /\
  writes (PathDiv (Path save_dir) error_file)
    (plot_energy_error results molecule_name save_dir) /\
  writes (PathDiv (Path save_dir) "multi_molecule_comparison.png")
    (plot_multi_molecule_comparison items save_dir) /\
  writes (PathDiv (Path save_dir) ansatz_file)
    (plot_ansatz_comparison items molecule_name save_dir) /\
  has_space pes_file = false /\
  has_space error_file = false.
Proof.
  cbv zeta. split; [|split; [|split; [|split; [|split]]]].
  - unfold plot_pes. cbv zeta. writes_steps.
  - unfold plot_energy_error. cbv zeta. writes_steps.
  - unfold plot_multi_molecule_comparison. cbv zeta. writes_steps.
  - unfold plot_ansatz_comparison. cbv zeta.
    apply writes_bind; [never_save|]. intros _.
    apply writes_bind; [never_save|]. intros [fig axes].
    apply writes_bind; [never_save|]. intros ax.
    apply writes_bind.
    { destruct items as [|[k v] rest]; [apply never_praise|apply never_pret]. }
    intros first. writes_steps.
  - rewrite !has_space_app, replace_spaces_clean. reflexivity.
  - destruct (String.eqb molecule_name ""); [reflexivity|].
    rewrite !has_space_app, replace_spaces_clean. reflexivity.
Qed.

End PlotFiles.

Section PlotCurves.
Context {P : Matplotlib}.

Lemma curves_app (t1 t2 : list plot_event) : curves (t1 ++ t2) = curves t1 ++ curves t2.
Proof. unfold curves. now rewrite invoked_app, omap_app. Qed.

Lemma pbind_returned {A B} (m : PM A) (k : A -> PM B) w b w1 t :
  pbind m k w = (Returned b, w1, t) ->
  exists a wm tm tk,
    m w = (Returned a, wm, tm) /\ k a wm = (Returned b, w1, tk) /\ t = tm ++ tk.
Proof.
  unfold pbind. destruct (m w) as [[[a|e] wm] tm]; [|discriminate].
  destruct (k a wm) as [[rk wk] tk] eqn:Ek. intros H. injection H as -> -> <-.
  exists a, wm, tm, tk. auto.
Qed.

Lemma getkey_returned results key w c w1 t :
  getkey results key w = (Returned c, w1, t) ->
  results !! key = Some c /\ column results key = c /\ t = [].
Proof.
  unfold getkey, column. destruct (results !! key) as [c0|]; [|discriminate].
  intros H. injection H as <- _ <-. auto.
Qed.

Lemma invoke_returned callee args kwargs w u w1 t :
  invoke callee args kwargs w = (Returned u, w1, t) ->
  t = [Invoke callee args kwargs (Returned u)].
Proof.
  unfold invoke. destruct (mpl_invoke callee args kwargs w) as [r0 w0].
  intros H. injection H as -> _ <-. reflexivity.
Qed.

Lemma subplots_returned args kwargs w p w1 t :
  subplots args kwargs w = (Returned p, w1, t) -> curves t = [].
Proof.
  unfold subplots. destruct (mpl_subplots args kwargs w) as [r0 w0].
  intros H. injection H as _ _ <-. reflexivity.
Qed.

Lemma getitem_returned o i w p w1 t :
  getitem o i w = (Returned p, w1, t) -> curves t = [].
Proof.
  unfold getitem. destruct (mpl_getitem o i w) as [r0 w0].
  intros H. injection H as _ _ <-. reflexivity.
Qed.

Lemma axes_at_returned axes i w ax w1 t :
  axes_at axes i w = (Returned ax, w1, t) -> curves t = [].
Proof.
  unfold axes_at. destruct axes as [wrapped|array]; [|apply getitem_returned].
  destruct (wrapped !! i); [|discriminate]. intros H. injection H as _ _ <-.
  reflexivity.
Qed.

(** Peels the successful steps off a returned computation, leaving the trace
    as the concatenation of the steps' traces. *)
Ltac run_returned H :=
  repeat
    (cbv beta in H;
     lazymatch type of H with
     | pbind _ _ _ = (Returned _, _, _) =>
         let a := fresh "a" in let wm := fresh "wm" in
         let tm := fresh "tm" in let tk := fresh "tk" in
         let Hm := fresh "Hm" in
         apply pbind_returned in H as (a & wm & tm & tk & Hm & H & ->);
         first [ apply invoke_returned in Hm as ->
               | apply getkey_returned in Hm as (? & ? & ->)
               | apply subplots_returned in Hm
               | apply getitem_returned in Hm
               | apply axes_at_returned in Hm
               | idtac ]
     | (match ?x with pair _ _ => _ end) _ = _ => destruct x
     end).

Lemma molecules_curves axes items : forall i w w1 t,
  plot_molecules axes i items w = (Returned tt, w1, t) ->
  curves t = flat_map (fun it => [(column (snd it) "distances",
                                   column (snd it) "exact_energies");
                                  (column (snd it) "distances",
                                   column (snd it) "vqe_energies")]) items.
Proof.
  induction items as [|[name results] rest IH]; intros i w w1 t H;
    cbn [plot_molecules] in H.
  - injection H as _ <-. reflexivity.
  - run_returned H. apply IH in H.
    rewrite !curves_app, H, Hm. cbn. subst. reflexivity.
Qed.

Lemma vqe_curves_drawn ax distances items : forall w w1 t,
  plot_vqe_curves ax distances items w = (Returned tt, w1, t) ->
  curves t = map (fun it => (distances, column (snd it) "vqe_energies")) items.
Proof.
  induction items as [|[name results] rest IH]; intros w w1 t H;
    cbn [plot_vqe_curves] in H.
  - injection H as _ <-. reflexivity.
  - run_returned H. apply IH in H.
    rewrite !curves_app, H. cbn. subst. reflexivity.
Qed.

Lemma error_curves_drawn ax distances items : forall w w1 t,
  plot_error_curves ax distances items w = (Returned tt, w1, t) ->
  curves t = map (fun it => (distances, millihartree (column (snd it) "errors"))) items.
Proof.
  induction items as [|[name results] rest IH]; intros w w1 t H;
    cbn [plot_error_curves] in H.
  - injection H as _ <-. reflexivity.
  - run_returned H. apply IH in H.
    rewrite !curves_app, H. cbn. subst. reflexivity.
Qed.

(** X16. What a plotting function that returns has drawn, in drawing
    order.  [plot_pes] draws the exact energies and then the VQE energies
    against 'distances'.  [plot_energy_error] draws one curve, the 'errors'
    column multiplied by 1000, against 'distances'.
    [plot_multi_molecule_comparison] draws, for each table in dictionary
    order, its exact and then its VQE energies against that table's own
    'distances'.  [plot_ansatz_comparison] draws every curve against the
    'distances' of the first table only: first that table's exact energies,
    then one VQE curve per table, then one error curve (times 1000) per
    table; the 'distances' and 'exact_energies' of the other tables are
    never read. *)
Theorem plot_curves (results : gmap string (list float))
    (items : list (string * gmap string (list float)))
    (molecule_name save_dir : string) (w w1 : PlotWorld) (t : list plot_event) :
  (plot_pes results molecule_name save_dir w = (Returned tt, w1, t) ->
   curves t = [(column results "distances", column results "exact_energies");
               (column results "distances", column results "vqe_energies")]) /\
  (plot_energy_error results molecule_name save_dir w = (Returned tt, w1, t) ->
   curves t = [(column results "distances",
                millihartree (column results "errors"))]) /\
  (plot_multi_molecule_comparison items save_dir w = (Returned tt, w1, t) ->
   curves t = flat_map (fun it => [(column (snd it) "distances",
                                    column (snd it) "exact_energies");
                                   (column (snd it) "distances",
                                    column (snd it) "vqe_energies")]) items) /\
  (plot_ansatz_comparison items molecule_name save_dir w = (Returned tt, w1, t) ->
   exists first rest, items = first :: rest /\
     let distances := column (snd first) "distances" in
     curves t =
       (distances, column (snd first) "exact_energies")
       :: map (fun it => (distances, column (snd it) "vqe_energies")) items
       ++ map (fun it => (distances, millihartree (column (snd it) "errors"))) items).
Proof.
  split; [|split; [|split]].
  - unfold plot_pes. cbv zeta. intros H. run_returned H.
    apply invoke_returned in H as ->.
    rewrite !curves_app, Hm. cbn. subst. reflexivity.
  - unfold plot_energy_error. cbv zeta. intros H. run_returned H.
    apply invoke_returned in H as ->.
    rewrite !curves_app, Hm. cbn. subst. reflexivity.
  - unfold plot_multi_molecule_comparison. cbv zeta. intros H. run_returned H.
    apply invoke_returned in H as ->.
    repeat match goal with
           | u : unit |- _ => destruct u
           end.
    match goal with
    | Hl : plot_molecules _ _ _ _ = _ |- _ => apply molecules_curves in Hl
    end.
    rewrite !curves_app.
    repeat match goal with
           | Hc : curves _ = _ |- _ => rewrite Hc; clear Hc
           end.
    cbn. now rewrite app_nil_r.
  - unfold plot_ansatz_comparison. cbv zeta. intros H.
    apply pbind_returned in H as (u0 & wa & ta & tk & Ha & H & ->).
    apply invoke_returned in Ha as ->.
    apply pbind_returned in H as ([fig axes] & wb & tb & tk0 & Hb & H & ->).
    apply subplots_returned in Hb.
    apply pbind_returned in H as (ax & wc & tc & tk1 & Hc & H & ->).
    apply getitem_returned in Hc.
    destruct items as [|[first_key first] rest].
    { apply pbind_returned in H as (x & wd & td & tk2 & Hd & _). discriminate. }
    exists (first_key, first), rest. split; [reflexivity|].
    set (items := (first_key, first) :: rest) in *. cbv beta iota in H.
    apply pbind_returned in H as (first0 & wd & td & tk2 & Hd & H & ->).
    injection Hd as <- <- <-. clearbody items.
    run_returned H. apply invoke_returned in H as ->.
    repeat match goal with
           | u : unit |- _ => destruct u
           end.
    match goal with
    | Hl : plot_vqe_curves _ _ _ _ = _ |- _ => apply vqe_curves_drawn in Hl
    end.
    match goal with
    | Hl : plot_error_curves _ _ _ _ = _ |- _ => apply error_curves_drawn in Hl
    end.
    rewrite !curves_app.
    repeat match goal with
           | Hc : curves _ = _ |- _ => rewrite Hc; clear Hc
           end.
    cbn. subst. rewrite app_nil_r. reflexivity.
Qed.

End PlotCurves.

(** ** Plotting what a scan returned *)

Section ScanToPlot.
Context {L : Library} {P : Matplotlib}.

Lemma scan_table_plottable
    (molecule_builder : float -> M (SparsePauliOp * ElectronicStructureProblem))
    (distances : list float) (ansatz_type : string) (reps maxiter seed : Z)
    (w w1 : World) (tbl : gmap string (list float)) (t : list event) :
  scan_pes molecule_builder distances ansatz_type reps maxiter seed w
    = (Returned tbl, w1, t) ->
  plottable tbl.
Proof.
  intros H. apply scan_pes_run in H as (r & _ & Hout).
  destruct r as [acc|e]; [|discriminate]. injection Hout as ->.
  destruct (table_lookup distances acc) as (Hd & Hv & He & Hr & _).
  intros key [<-|[<-|[<-|[<-|[]]]]]; eauto.
Qed.

Ltac key_present Hp :=
  let H := fresh in
  intros H;
  match type of H with
  | _ !! ?key = None =>
      let c := fresh in let Hc := fresh in
      destruct (Hp key) as [c Hc]; [cbn; tauto | congruence]
  end.

Lemma plottable_tables_guarded (items : list (string * gmap string (list float)))
    (title save_dir : string) :
  items <> [] ->
  (forall it, In it items -> plottable (snd it)) ->
  plot_guarded (fun _ => False) (plot_multi_molecule_comparison items save_dir) /\
  plot_guarded (fun _ => False) (plot_ansatz_comparison items title save_dir).
Proof.
  intros Hne Hall.
  assert (Hnone : forall (keys : list string) it,
            In it items ->
            (forall k, In k keys -> In k table_keys_read) ->
            forall e, missing_key (snd it) keys e -> False).
  { intros keys it Hin Hsub e (key & Hk & Hmiss & _).
    destruct (Hall it Hin key (Hsub key Hk)) as [c Hc]. congruence. }
  destruct items as [|[k0 v0] rest]; [congruence|].
  assert (Hp : plottable v0) by exact (Hall (k0, v0) (or_introl eq_refl)).
  split.
  - unfold plot_multi_molecule_comparison. cbv zeta.
    apply guarded_bind; [apply guarded_invoke|]. intros _.
    apply guarded_bind; [apply guarded_subplots|]. intros [fig axes].
    apply guarded_bind; [|intros _; guarded_steps idtac].
    cbn [length]. destruct (Nat.eqb_spec (S (length rest)) 1) as [Hone|Hmany].
    + destruct rest as [|it rest]; [|discriminate].
      cbn [plot_molecules]. unfold axes_at. cbn [lookup list_lookup].
      guarded_steps ltac:(key_present Hp).
    + apply guarded_molecules_array. intros it Hin e He.
      apply (Hnone _ it Hin) in He; [exact He|]. cbn. tauto.
  - unfold plot_ansatz_comparison. cbv zeta.
    apply guarded_bind; [apply guarded_invoke|]. intros _.
    apply guarded_bind; [apply guarded_subplots|]. intros [fig axes].
    apply guarded_bind; [apply guarded_getitem|]. intros ax.
    cbv beta iota.
    set (all := (k0, v0) :: rest) in *. clearbody all.
    apply guarded_bind_pret.
    guarded_steps ltac:(key_present Hp).
    + apply guarded_vqe_curves. intros it Hin e He.
      apply (Hnone _ it Hin) in He; [exact He|]. auto.
    + apply guarded_error_curves. intros it Hin e He.
      apply (Hnone _ it Hin) in He; [exact He|]. auto.
Qed.

(** X17. A table returned by [scan_pes] has every key the plotting
    functions read.  Plotting such a table, or a dictionary that holds it
    under any key and at any position among other tables that have those
    keys, under any title, therefore never fails in the plotting code
    itself: no KeyError and no IndexError is raised, and if a plotting
    function raises, the exception is the one raised by the last matplotlib
    call it made. *)
Theorem scan_tables_plot
    (molecule_builder : float -> M (SparsePauliOp * ElectronicStructureProblem))
    (distances : list float) (ansatz_type : string) (reps maxiter seed : Z)
    (w w1 : World) (tbl : gmap string (list float)) (t : list event)
    (before after : list (string * gmap string (list float)))
    (key molecule_name save_dir : string) :
  scan_pes molecule_builder distances ansatz_type reps maxiter seed w
    = (Returned tbl, w1, t) ->
  Forall (fun it => plottable (snd it)) (before ++ after) ->
  let tables := before ++ (key, tbl) :: after in
  plottable tbl /\
  plot_guarded (fun _ => False) (plot_pes tbl molecule_name save_dir) /\
  plot_guarded (fun _ => False) (plot_energy_error tbl molecule_name save_dir) /\
  plot_guarded (fun _ => False) (plot_multi_molecule_comparison tables save_dir) /\
  plot_guarded (fun _ => False)
    (plot_ansatz_comparison tables molecule_name save_dir).
Proof.
  intros Hscan Hitems tables.
  pose proof (scan_table_plottable _ _ _ _ _ _ _ _ _ _ Hscan) as Hp.
  assert (Hall : forall it, In it tables -> plottable (snd it)).
  { intros it Hin. unfold tables in Hin. apply in_app_or in Hin.
    rewrite Forall_forall in Hitems.
    destruct Hin as [Hin|[<-|Hin]]; [|exact Hp|];
      apply Hitems, list_elem_of_In, in_or_app; auto. }
  assert (Hne : tables <> []).
  { unfold tables. destruct before; discriminate. }
  split; [exact Hp|]. split; [|split].
  - unfold plot_pes. cbv zeta. guarded_steps ltac:(key_present Hp).
  - unfold plot_energy_error. cbv zeta. guarded_steps ltac:(key_present Hp).
  - exact (plottable_tables_guarded tables molecule_name save_dir Hne Hall).
Qed.

End ScanToPlot.

(** ** The further properties on the concrete libraries *)

(** X1 on a LiH build whose driver does not converge. *)
Lemma builders_propagate_witness :
  let e := Exn "RuntimeError" "SCF not converged" in
  let run := @build_lih Faulty.lib (fun _ => "1.5") 1.5%float 0%nat in
  run = (Raised e, 1%nat, snd run) /\
  exists t0 ev, snd run = t0 ++ [ev] /\ raised_by ev = Some e /\
                forall ev0, In ev0 t0 -> raised_by ev0 = None.
Proof.
  cbn zeta.
  assert (Hrun : @build_lih Faulty.lib (fun _ => "1.5") 1.5%float 0%nat
                 = (Raised (Exn "RuntimeError" "SCF not converged"), 1%nat,
                    snd (@build_lih Faulty.lib (fun _ => "1.5") 1.5%float 0%nat)))
    by (vm_cast_no_check
          (eq_refl (@build_lih Faulty.lib (fun _ => "1.5") 1.5%float 0%nat))).
  split; [exact Hrun|].
  exact (proj1 (proj2 (@builders_propagate Faulty.lib (fun _ => "1.5") 1.5%float))
           _ _ _ _ Hrun).
Defined.

(** X2 on a BeH2 build: the problem handed back is the reduced one. *)
Lemma builders_return_witness :
  let run := @build_beh2 Faulty.lib 120%float 0%nat in
  run = (Returned (6%Z, 0.25%float), 4%nat, snd run) /\
  exists p0 f,
    snd run =
    [@DriverRun Faulty.lib
       {| atom := @beh2_atom_string Faulty.lib 120%float; basis := "sto3g";
          charge := 0; spin := 0; drv_unit := ANGSTROM |} (Returned p0);
     @Transform Faulty.lib {| num_electrons := 2; num_spatial_orbitals := 3 |}
       p0 (Returned 0.25%float);
     @SecondQOp Faulty.lib 0.25%float (Returned f);
     @MapperMap Faulty.lib JordanWignerMapper f (Returned 6%Z)].
Proof.
  cbn zeta.
  assert (Hrun : @build_beh2 Faulty.lib 120%float 0%nat
                 = (Returned (6%Z, 0.25%float), 4%nat,
                    snd (@build_beh2 Faulty.lib 120%float 0%nat)))
    by (vm_cast_no_check (eq_refl (@build_beh2 Faulty.lib 120%float 0%nat))).
  split; [exact Hrun|].
  exact (proj2 (proj2 (@builders_return Faulty.lib (fun _ => "120.0") 120%float
                         0%nat 4%nat 6%Z 0.25%float _)) Hrun).
Defined.

(** X3 on a run with a negative repetition count, which the circuit
    constructor rejects. *)
Lemma run_vqe_raises_only_witness :
  let e := ValueError "The value of reps should be larger than or equal to 0" in
  let a := RealAmplitudes 4 (-1) "linear" in
  @ansatz_named "RealAmplitudes" 4 (-1) = Some a /\
  @run_vqe Toy.lib 4%Z "RealAmplitudes" (-1) 200 42 0%nat = (Raised e, 0%nat, []) /\
  ((@rejection Toy.lib a 200 = Some e /\ @nil (@event Toy.lib) = [] /\ 0%nat = 0%nat) \/
   (@rejection Toy.lib a 200 = None /\
    exists t0 ev, [] = t0 ++ [ev] /\ @raised_by Toy.lib ev = Some e /\
                  forall ev0, In ev0 t0 -> @raised_by Toy.lib ev0 = None)).
Proof.
  cbn zeta.
  assert (Hrun : @run_vqe Toy.lib 4%Z "RealAmplitudes" (-1) 200 42 0%nat
                 = (Raised (ValueError
                      "The value of reps should be larger than or equal to 0"),
                    0%nat, []))
    by reflexivity.
  split; [reflexivity|]. split; [exact Hrun|].
  exact (@run_vqe_raises_only Toy.lib 4%Z "RealAmplitudes" (-1) 200 42
           (RealAmplitudes 4 (-1) "linear") _ _ _ _ eq_refl Hrun).
Defined.

(** X4 on a successful run. *)
Lemma run_vqe_returns_witness :
  let run := @run_vqe Toy.lib 4%Z "EfficientSU2" 1 50 7 0%nat in
  let out := {| energy := (-1.125)%float; optimal_params := [];
                energy_history := [(-1)%float; (-1.125)%float];
                num_params := 16; out_ansatz_type := "EfficientSU2" |} in
  run = (Returned out, 3%nat, snd run) /\
  exists a rng x evals result,
    @ansatz_named "EfficientSU2" 4 1 = Some a /\
    snd run = [@DefaultRng Toy.lib 7 (Returned rng);
               @Uniform Toy.lib rng (- np_pi)%float np_pi
                 (@num_parameters Toy.lib a) (Returned x);
               @VqeCompute Toy.lib (VQE Estimator a (COBYLA 50) (Some x)) 4%Z
                 evals (Returned result)] /\
    energy out = real (eigenvalue result) /\
    optimal_params out = optimal_parameters result /\
    energy_history out = map value evals /\
    length (energy_history out) = length evals /\
    num_params out = @num_parameters Toy.lib a /\
    out_ansatz_type out = "EfficientSU2".
Proof.
  cbn zeta.
  assert (Hrun : @run_vqe Toy.lib 4%Z "EfficientSU2" 1 50 7 0%nat
                 = (Returned {| energy := (-1.125)%float; optimal_params := [];
                                energy_history := [(-1)%float; (-1.125)%float];
                                num_params := 16;
                                out_ansatz_type := "EfficientSU2" |}, 3%nat,
                    snd (@run_vqe Toy.lib 4%Z "EfficientSU2" 1 50 7 0%nat)))
    by (vm_cast_no_check (eq_refl (@run_vqe Toy.lib 4%Z "EfficientSU2" 1 50 7 0%nat))).
  split; [exact Hrun|].
  exact (@run_vqe_returns Toy.lib 4%Z "EfficientSU2" 1 50 7 0%nat _ _ _ Hrun).
Defined.

(** X7 on a scan whose second point the builder rejects. *)
Lemma scan_raises_only_witness :
  let run := @scan_pes Toy.lib Toy.builder [1%float; (-1)%float; 2%float]
               "RealAmplitudes" 1 200 42 0%nat in
  let e := Exn "RuntimeError" "negative distance" in
  run = (Raised e, 4%nat, snd run) /\
  exists ev, last (snd run) = Some ev /\ failure ev = Some e.
Proof.
  cbn zeta.
  assert (Hrun : @scan_pes Toy.lib Toy.builder [1%float; (-1)%float; 2%float]
                   "RealAmplitudes" 1 200 42 0%nat
                 = (Raised (Exn "RuntimeError" "negative distance"), 4%nat,
                    snd (@scan_pes Toy.lib Toy.builder [1%float; (-1)%float; 2%float]
                           "RealAmplitudes" 1 200 42 0%nat)))
    by (vm_cast_no_check
          (eq_refl (@scan_pes Toy.lib Toy.builder [1%float; (-1)%float; 2%float]
                      "RealAmplitudes" 1 200 42 0%nat))).
  split; [exact Hrun|].
  exact (@scan_raises_only Toy.lib Toy.builder [1%float; (-1)%float; 2%float]
           "RealAmplitudes" 1 200 42 0%nat _ _ _ Hrun).
Defined.

(** X9 on a scan of two points under an unsupported name. *)
Lemma scan_unsupported_ansatz_witness :
  let e := ValueError "Unknown ansatz type: TwoLocal" in
  Toy.builder 1%float 0%nat = (Returned (4%Z, 1%float), 0%nat, []) /\
  @scan_pes Toy.lib Toy.builder [1%float; 2%float] "TwoLocal" 1 200 42 0%nat
  = (Raised e, 0%nat,
     [@Stdout Toy.lib (@header Toy.lib 2 0 1%float);
      @Builder Toy.lib 1%float [] (Returned (4%Z, 1%float));
      @RunVqe Toy.lib 4%Z "TwoLocal" 1 200 42 [] (Raised e)]).
Proof.
  cbn zeta.
  assert (Hb : Toy.builder 1%float 0%nat = (Returned (4%Z, 1%float), 0%nat, []))
    by reflexivity.
  split; [exact Hb|].
  refine (@scan_unsupported_ansatz Toy.lib Toy.builder 1%float [2%float] "TwoLocal"
            1 200 42 0%nat 0%nat 4%Z 1%float [] _ _ Hb); discriminate.
Defined.

(** X10 on a scan of two points. *)
Lemma scan_progress_output_witness :
  let run := toy_scan "RealAmplitudes" 1 200 42 in
  let tbl := table [0.5%float; 1%float] toy_columns in
  fst (fst run) = Returned tbl /\
  exists vqe exact errs,
    tbl !! "vqe_energies" = Some vqe /\
    tbl !! "exact_energies" = Some exact /\
    tbl !! "errors" = Some errs /\
    @stdout Toy.lib (snd run)
    = @progress_lines Toy.lib 2 0 [0.5%float; 1%float] vqe exact errs.
Proof.
  cbn zeta.
  assert (Hrun : fst (fst (toy_scan "RealAmplitudes" 1 200 42))
                 = Returned (table [0.5%float; 1%float] toy_columns))
    by (vm_cast_no_check
          (eq_refl (fst (fst (toy_scan "RealAmplitudes" 1 200 42))))).
  split; [exact Hrun|].
  exact (proj2 (@scan_progress_output Toy.lib Toy.builder [0.5%float; 1%float]
                  "RealAmplitudes" 1 200 42 0%nat) _ Hrun).
Defined.

(** X11 on two scans of BeH2 angles started in different states. *)
Lemma scan_reproducible_witness :
  let scan := @scan_pes Toy.lib (@build_beh2 Toy.lib) [120%float; 180%float]
                "EfficientSU2" 1 100 7 in
  fst (fst (scan 0%nat)) = fst (fst (scan 5%nat)) /\
  snd (scan 0%nat) = snd (scan 5%nat).
Proof.
  cbn zeta.
  exact (@scan_reproducible Toy.lib ToyFacts.seeded_deterministic
           ToyFacts.draw_deterministic ToyFacts.minimise_deterministic
           ToyFacts.diagonalise_deterministic (@build_beh2 Toy.lib)
           (fun d => proj2 (proj2 (@steady_builders Toy.lib (fun _ => "") d
                                     (fun _ _ _ => eq_refl)
                                     (fun _ _ _ _ => eq_refl)
                                     (fun _ _ _ => eq_refl)
                                     (fun _ _ _ _ => eq_refl))))
           [120%float; 180%float] "EfficientSU2" 1 100 7 0%nat 5%nat).
Defined.

(** X16 on the error plot of a table of two points. *)
Lemma plot_curves_witness :
  let results := table [0.5%float; 1%float] toy_columns in
  let run := @plot_energy_error ToyPlot.lib results "H2" "results" 0%nat in
  run = (Returned tt, 2%nat, snd run) /\
  @curves ToyPlot.lib (snd run)
  = [(column results "distances", millihartree (column results "errors"))].
Proof.
  cbn zeta.
  assert (Hrun : @plot_energy_error ToyPlot.lib (table [0.5%float; 1%float] toy_columns)
                   "H2" "results" 0%nat
                 = (Returned tt, 2%nat,
                    snd (@plot_energy_error ToyPlot.lib
                           (table [0.5%float; 1%float] toy_columns)
                           "H2" "results" 0%nat)))
    by (vm_cast_no_check
          (eq_refl (@plot_energy_error ToyPlot.lib
                      (table [0.5%float; 1%float] toy_columns) "H2" "results" 0%nat))).
  split; [exact Hrun|].
  exact (proj1 (proj2 (@plot_curves ToyPlot.lib (table [0.5%float; 1%float] toy_columns)
                         [] "H2" "results" 0%nat 2%nat _)) Hrun).
Defined.

(** X17 on the tables of two scans of two points, one per ansatz, the second
    one being the table at hand, plotted under a title that is no key. *)
Lemma scan_tables_plot_witness :
  let run := toy_scan "EfficientSU2" 2 100 7 in
  let tbl := table [0.5%float; 1%float] toy_columns in
  let other := table [0.5%float; 1%float] toy_columns in
  let tables := [("RealAmplitudes", other); ("EfficientSU2", tbl)] in
  run = (Returned tbl, 8%nat, snd run) /\
  Forall (fun it => plottable (snd it)) [("RealAmplitudes", other)] /\
  plottable tbl /\
  plot_guarded (fun _ => False) (@plot_pes ToyPlot.lib tbl "H2" "results") /\
  plot_guarded (fun _ => False) (@plot_energy_error ToyPlot.lib tbl "H2" "results") /\
  plot_guarded (fun _ => False)
    (@plot_multi_molecule_comparison ToyPlot.lib tables "results") /\
  plot_guarded (fun _ => False)
    (@plot_ansatz_comparison ToyPlot.lib tables "H2" "results").
Proof.
  cbn zeta.
  assert (Hrun : toy_scan "EfficientSU2" 2 100 7
                 = (Returned (table [0.5%float; 1%float] toy_columns), 8%nat,
                    snd (toy_scan "EfficientSU2" 2 100 7)))
    by (vm_cast_no_check (eq_refl (toy_scan "EfficientSU2" 2 100 7))).
  assert (Hother : Forall (fun it : string * gmap string (list float) =>
                             plottable (snd it))
                     [("RealAmplitudes", table [0.5%float; 1%float] toy_columns)]).
  { constructor; [|constructor].
    exact (@scan_table_plottable Toy.lib Toy.builder [0.5%float; 1%float]
             "EfficientSU2" 2 100 7 0%nat _ _ _ Hrun). }
  split; [exact Hrun|]. split; [exact Hother|].
  exact (@scan_tables_plot Toy.lib ToyPlot.lib Toy.builder [0.5%float; 1%float]
           "EfficientSU2" 2 100 7 0%nat _ _ _
           [("RealAmplitudes", table [0.5%float; 1%float] toy_columns)] []
           "EfficientSU2" "H2" "results" Hrun Hother).
Defined.
